(** * AJ OS: storage façade, date utilities and view logic

    A shallow embedding of the TypeScript sources

      - [src/lib/date.ts]   (local calendar dates),
      - [src/lib/types.ts]  (the eight record types),
      - [src/lib/store.ts]  (the [Storage] object: cache-first CRUD),
      - the [TodoList], [IdeaInbox], [Discoveries], [Dashboard],
        [DailyCapture], [ContactManager] and [Insights] components, as far
        as they compute on records,

    followed by the properties of the specification that concern them.

    Conventions of the embedding.

      - A JavaScript number that the code only uses as an integer is a [Z];
        [NaN] is [None] in [option Z].
      - A [Date] is its time value (milliseconds since the epoch, UTC), or
        [None] for an invalid date.  The host's time zone is a fixed offset
        [tza] (milliseconds to add to UTC); daylight saving is not modelled.
      - Strings are [string].  The text that the modelled code builds or
        compares (dates, identifiers, column names) is ASCII, where a
        character is a UTF-16 unit; the text of the records is only passed
        on.
      - [async] functions are run to completion one at a time: an [await] on
        the backend is a call to the backend's response function, and no
        other call interleaves. *)

From Stdlib Require Import ZArith Lia Ascii String DecimalString DecimalZ DecimalPos.
From stdpp Require Import base tactics option list strings sorting.

Local Open Scope string_scope.
Local Open Scope Z_scope.

(** ** JavaScript values and built-ins used by the sources *)

Module Js.

(** A number restricted to integers, with [None] for [NaN]. *)
Definition number := option Z.

Definition add (a b : number) : number :=
  match a, b with
  | Some x, Some y => Some (x + y)
  | _, _ => None
  end.

Definition sub (a b : number) : number :=
  match a, b with
  | Some x, Some y => Some (x - y)
  | _, _ => None
  end.

(** [String(n)] and [`${n}`]. *)
Definition toString (n : number) : string :=
  match n with
  | Some z => NilZero.string_of_int (Z.to_int z)
  | None => "NaN"
  end.

(** [!s] is [false] exactly for a non-empty string. *)
Definition truthy (s : string) : bool :=
  match s with
  | EmptyString => false
  | String _ _ => true
  end.

(** [a || b] on strings. *)
Definition orElse (a b : string) : string := if truthy a then a else b.

(** [a || b] where [a] may be [undefined]. *)
Definition orElseOpt (a : option string) (b : string) : string :=
  match a with
  | Some s => orElse s b
  | None => b
  end.

(** [b || false] for an optional boolean. *)
Definition orFalse (b : option bool) : bool := default false b.

(** [n || 0] for an optional number. *)
Definition orZero (n : option Z) : Z := default 0 n.

Fixpoint zeros (n : nat) : string :=
  match n with
  | O => ""
  | S k => String "0" (zeros k)
  end.

(** [s.padStart(n, '0')]. *)
Definition padStart (n : nat) (s : string) : string :=
  zeros (n - String.length s) +:+ s.

(** [s.split(sep)] for a one-character separator; the result is never
    empty. *)
Fixpoint split (sep : ascii) (s : string) : list string :=
  match s with
  | EmptyString => [""]
  | String c rest =>
      if Ascii.eqb c sep then "" :: split sep rest
      else match split sep rest with
           | h :: t => String c h :: t
           | [] => [String c ""]
           end
  end.

Definition isDigit (c : ascii) : bool :=
  let n := nat_of_ascii c in (48 <=? n)%nat && (n <=? 57)%nat.

Definition digitVal (c : ascii) : Z := Z.of_nat (nat_of_ascii c) - 48.

(** White space that [parseInt] skips.  Only the ASCII part of the
    ECMAScript [WhiteSpace] and [LineTerminator] classes. *)
Definition isSpace (c : ascii) : bool :=
  let n := nat_of_ascii c in
  (n =? 32)%nat || ((9 <=? n)%nat && (n <=? 13)%nat).

Fixpoint trimStart (s : string) : string :=
  match s with
  | String c rest => if isSpace c then trimStart rest else s
  | EmptyString => ""
  end.

Fixpoint parseDigits (s : string) (acc : Z) : Z :=
  match s with
  | String c rest =>
      if isDigit c then parseDigits rest (10 * acc + digitVal c) else acc
  | EmptyString => acc
  end.

Definition startsWithDigit (s : string) : bool :=
  match s with
  | String c _ => isDigit c
  | EmptyString => false
  end.

(** [parseInt(s, 10)]: leading white space, an optional sign, then the
    longest prefix of decimal digits; [NaN] when there is none. *)
Definition parseInt (s : string) : number :=
  let s1 := trimStart s in
  let '(sign, s2) :=
    match s1 with
    | String "-" r => (-1, r)
    | String "+" r => (1, r)
    | _ => (1, s1)
    end in
  if startsWithDigit s2 then Some (sign * parseDigits s2 0) else None.

(** Two shapes of strings that the properties speak of: made of decimal
    digits only, and free of a given character. *)
Fixpoint digitsOnly (s : string) : bool :=
  match s with
  | EmptyString => true
  | String c rest => isDigit c && digitsOnly rest
  end.

Fixpoint lacks (sep : ascii) (s : string) : bool :=
  match s with
  | EmptyString => true
  | String c rest => negb (Ascii.eqb c sep) && lacks sep rest
  end.

(** [a <= b] on strings: code-unit order. *)
Definition strLe (a b : string) : bool := String.leb a b.

(** [a.localeCompare(b)] on the texts of dates and times (digits, [-],
    [:], [T], in one shape on both sides): there the collation of the host
    orders as the code units do, and that order is what is modelled.  On
    other text the collation is the host's own (letters by alphabet and
    not by case, for one); the properties that depend on the order of
    [localeCompare] ask for texts of dates, see [dateShaped]. *)
Definition localeCompare (a b : string) : Z :=
  match String.compare a b with
  | Lt => -1
  | Eq => 0
  | Gt => 1
  end.

(** [arr.sort(cmp)]: the sort is stable (ECMAScript 2019), so with a
    consistent comparator the result is the one of a stable insertion. *)
Fixpoint insertBy {A} (cmp : A → A → Z) (x : A) (l : list A) : list A :=
  match l with
  | [] => [x]
  | y :: rest =>
      if cmp x y <=? 0 then x :: l else y :: insertBy cmp x rest
  end.

Definition sort {A} (cmp : A → A → Z) (l : list A) : list A :=
  foldr (insertBy cmp) [] l.

(** Ordered by a rank: the shape in which the properties describe a
    sorted array. *)
Definition byRank {A} (rank : A → nat) : relation A :=
  λ a b, (rank a ≤ rank b)%nat.

(** Decimal digits in a fixed width: the shape of a zero-padded number,
    in which the properties compare date strings. *)
Definition digitChar (n : Z) : ascii := ascii_of_nat (Z.to_nat (48 + n)).

Fixpoint fixedWidth (k : nat) (n : Z) : string :=
  match k with
  | O => ""
  | S k' => fixedWidth k' (n / 10) +:+ String (digitChar (n mod 10)) ""
  end.

(** [arr.includes(x)] on strings. *)
Definition includes (l : list string) (x : string) : bool :=
  bool_decide (x ∈ l).

(** [[...new Set(arr)]]: first occurrences, in order. *)
Fixpoint unique (l : list string) (seen : list string) : list string :=
  match l with
  | [] => []
  | x :: rest =>
      if includes seen x then unique rest seen
      else x :: unique rest (x :: seen)
  end.

(** [arr.sort()] on strings: ascending code-unit order. *)
Definition sortStrings (l : list string) : list string :=
  sort (λ a b, if String.leb a b then -1 else 1) l.

(** [a < b] on strings. *)
Definition strLt (a b : string) : bool := String.ltb a b.

(** [arr.findIndex(p)]: -1 when no element passes. *)
Fixpoint findIndex {A} (p : A → bool) (l : list A) : Z :=
  match l with
  | [] => -1
  | x :: rest =>
      if p x then 0
      else let i := findIndex p rest in if i =? -1 then -1 else i + 1
  end.

(** [s.startsWith(p)] and [s.includes(p)] for a string [p]. *)
Definition startsWith (p s : string) : bool := String.prefix p s.

Fixpoint includesText (p s : string) : bool :=
  startsWith p s
  || match s with
     | String _ rest => includesText p rest
     | EmptyString => false
     end.

(** [s.split(sep)] for a separator of one character or more: the pieces
    between the occurrences of [sep], found from the left and without
    overlap.  [skip] counts the characters of an occurrence still to be
    passed over. *)
Fixpoint splitFrom (sep s : string) (skip : nat) : list string :=
  match s with
  | EmptyString => [""]
  | String c rest =>
      match skip with
      | S k => splitFrom sep rest k
      | O =>
          if startsWith sep s
          then "" :: splitFrom sep rest (String.length sep - 1)
          else match splitFrom sep rest 0 with
               | h :: t => String c h :: t
               | [] => [String c ""]
               end
      end
  end.

Definition splitOn (sep s : string) : list string := splitFrom sep s 0.

(** [s.trim()].  White space is told by [isSpace], which knows the ASCII
    white space only: the model of [trim] holds for ASCII text. *)
Definition trimEnd (s : string) : string :=
  String.rev (trimStart (String.rev s)).

Definition trim (s : string) : string := trimEnd (trimStart s).

(** Text within ASCII, on which the model of [trim] is the [trim] of the
    language. *)
Fixpoint asciiOnly (s : string) : bool :=
  match s with
  | EmptyString => true
  | String c rest => (nat_of_ascii c <? 128)%nat && asciiOnly rest
  end.


(** [Number(s)] for a string, where it is an integer written in decimal:
    white space around it set aside, the empty text is 0, and a sign may
    come before the digits.  [integerText] tells these strings;
    [toInteger] is their number. *)
Definition integerText (s : string) : bool :=
  match trim s with
  | String "-" r | String "+" r => negb (String.eqb r "") && digitsOnly r
  | t => digitsOnly t
  end.

Definition toInteger (s : string) : Z :=
  match trim s with
  | String "-" r => - parseDigits r 0
  | String "+" r => parseDigits r 0
  | t => parseDigits t 0
  end.

(** An object used as a map from strings to arrays, filled by
    [if (!groups[key]) groups[key] = []; groups[key].push(x)]: the keys in
    the order of their creation, which is the order of [Object.keys] for
    keys that are not array indices (the keys of the sources are dates and
    the word [unknown]; a key that names a property of [Object.prototype]
    is not modelled). *)
Fixpoint pushTo {A} (key : string) (x : A) (groups : list (string * list A))
    : list (string * list A) :=
  match groups with
  | [] => [(key, [x])]
  | (k, xs) :: rest =>
      if String.eqb k key then (k, (xs ++ [x])%list) :: rest
      else (k, xs) :: pushTo key x rest
  end.

Definition groupBy {A} (key : A → string) (l : list A)
    : list (string * list A) :=
  foldl (λ groups x, pushTo (key x) x groups) [] l.

(** [Object.keys(groups)] and [groups[key]]. *)
Definition keys {A} (groups : list (string * list A)) : list string :=
  groups.*1.

Fixpoint at_ {A} (groups : list (string * list A)) (key : string) : list A :=
  match groups with
  | [] => []
  | (k, xs) :: rest => if String.eqb k key then xs else at_ rest key
  end.

End Js.

(** ** The [Date] object

    ECMAScript fixes the calendar as proleptic Gregorian and the time value
    as milliseconds since 1970-01-01T00:00:00Z.  [civilFromDays] and
    [daysFromCivil] are the usual closed forms of [YearFromTime],
    [MonthFromTime], [DateFromTime] and of the search in [MakeDay]. *)

Module JsDate.

Definition msPerDay : Z := 86400000.

(** The largest magnitude of a time value: 100,000,000 days. *)
Definition maxTime : Z := 8640000000000000.

(** [None] is the invalid date, whose time value is [NaN]. *)
Definition Date := option Z.

(** Day number (days since 1970-01-01) of the civil date [y]-[m]-[d], [m]
    from 1 to 12.  The years are counted from the first of March, which
    puts the leap day last, and in eras of 400 years. *)
Definition daysFromCivil (y m d : Z) : Z :=
  let y' := if m <=? 2 then y - 1 else y in
  let era := y' / 400 in
  let yoe := y' - era * 400 in
  let mp := if 2 <? m then m - 3 else m + 9 in
  let doy := (153 * mp + 2) / 5 + d - 1 in
  let doe := yoe * 365 + yoe / 4 - yoe / 100 + doy in
  era * 146097 + doe - 719468.

(** Year, month (1 to 12) and day of the month of a day number. *)
Definition civilFromDays (n : Z) : Z * Z * Z :=
  let z := n + 719468 in
  let era := z / 146097 in
  let doe := z - era * 146097 in
  let yoe := (doe - doe / 1460 + doe / 36524 - doe / 146096) / 365 in
  let y := yoe + era * 400 in
  let doy := doe - (365 * yoe + yoe / 4 - yoe / 100) in
  let mp := (5 * doy + 2) / 153 in
  let d := doy - (153 * mp + 2) / 5 + 1 in
  let m := if mp <? 10 then mp + 3 else mp - 9 in
  (if m <=? 2 then y + 1 else y, m, d).

(** Days from the first of March of the year 0 to that of the year [Y],
    and the order of dates by year, then month, then day; both serve to
    compare dates. *)
Definition beforeMarch (Y : Z) : Z := 365 * Y + Y / 4 - Y / 100 + Y / 400.

Definition civilCompare (a b : Z * Z * Z) : comparison :=
  match a.1.1 ?= b.1.1 with
  | Eq => match a.1.2 ?= b.1.2 with
          | Eq => a.2 ?= b.2
          | r => r
          end
  | r => r
  end.

(** [DayFromYear(y)] as the standard writes it; used to cross-check
    [daysFromCivil]. *)
Definition dayFromYear (y : Z) : Z :=
  365 * (y - 1970) + (y - 1969) / 4 - (y - 1901) / 100 + (y - 1601) / 400.

(** [Day(t)] and [TimeWithinDay(t)]. *)
Definition day (t : Z) : Z := t / msPerDay.
Definition timeWithinDay (t : Z) : Z := t mod msPerDay.

(** [MakeDay(year, month, date)], [month] counted from 0 and allowed to
    overflow into the neighbouring years. *)
Definition makeDay (year month date : Z) : Z :=
  let ym := year + month / 12 in
  let mn := month mod 12 in
  daysFromCivil ym (mn + 1) 1 + date - 1.

(** [TimeClip]. *)
Definition timeClip (t : Z) : Date :=
  if Z.abs t <=? maxTime then Some t else None.

Section Zone.

(** Offset of local time from UTC in milliseconds: -5 h is
    [-18000000]. *)
Variable tza : Z.

Definition localTime (t : Z) : Z := t + tza.
Definition utc (t : Z) : Z := t - tza.

Definition localCivil (t : Z) : Z * Z * Z :=
  civilFromDays (day (localTime t)).

(** [date.getFullYear()], [date.getMonth()] (0 to 11),
    [date.getDate()]. *)
Definition getFullYear (date : Date) : Js.number :=
  t ← date; Some (localCivil t).1.1.

Definition getMonth (date : Date) : Js.number :=
  t ← date; Some ((localCivil t).1.2 - 1).

Definition getDate (date : Date) : Js.number :=
  t ← date; Some (localCivil t).2.

(** [new Date(year, month, day)]: local midnight of that day.  A year
    from 0 to 99 stands for 1900 + year. *)
Definition ofComponents (year month date : Js.number) : Date :=
  match year, month, date with
  | Some y, Some m, Some d =>
      let yr := if (0 <=? y) && (y <=? 99) then 1900 + y else y in
      timeClip (utc (makeDay yr m d * msPerDay))
  | _, _, _ => None
  end.

(** [date.setDate(dt)], returning the changed date. *)
Definition setDate (date : Date) (dt : Js.number) : Date :=
  match date, dt with
  | Some t, Some d =>
      let lt := localTime t in
      let '(y, m, _) := civilFromDays (day lt) in
      timeClip (utc (makeDay y (m - 1) d * msPerDay + timeWithinDay lt))
  | _, _ => None
  end.

(** [date.getHours()], [date.getMinutes()], [date.getSeconds()] and
    [date.getMilliseconds()], of local time. *)
Definition getHours (date : Date) : Js.number :=
  t ← date; Some (timeWithinDay (localTime t) / 3600000).

Definition getMinutes (date : Date) : Js.number :=
  t ← date; Some (timeWithinDay (localTime t) / 60000 mod 60).

Definition getSeconds (date : Date) : Js.number :=
  t ← date; Some (timeWithinDay (localTime t) / 1000 mod 60).

Definition getMilliseconds (date : Date) : Js.number :=
  t ← date; Some (timeWithinDay (localTime t) mod 1000).

(** [date.getDay()]: 0 for Sunday to 6 for Saturday; day number 0 was a
    Thursday. *)
Definition getDay (date : Date) : Js.number :=
  t ← date; Some ((day (localTime t) + 4) mod 7).

(** [date.setHours(h, m, s, ms)], returning the changed date. *)
Definition setHours (date : Date) (h m s ms : Js.number) : Date :=
  match date, h, m, s, ms with
  | Some t, Some h, Some m, Some s, Some ms =>
      timeClip (utc (day (localTime t) * msPerDay
                     + (h * 3600000 + m * 60000 + s * 1000 + ms)))
  | _, _, _, _, _ => None
  end.

End Zone.

(** Year of [toISOString]: four digits from 0 to 9999, otherwise a sign
    and six digits. *)
Definition isoYear (y : Z) : string :=
  if (0 <=? y) && (y <=? 9999) then Js.padStart 4 (Js.toString (Some y))
  else (if y <? 0 then "-" else "+")
         +:+ Js.padStart 6 (Js.toString (Some (Z.abs y))).

Definition pad2 (n : Z) : string := Js.padStart 2 (Js.toString (Some n)).
Definition pad3 (n : Z) : string := Js.padStart 3 (Js.toString (Some n)).

(** [date.toISOString()] of a valid date (on an invalid one it throws;
    the sources call it on [new Date()] only). *)
Definition toISOString (t : Z) : string :=
  let '(y, m, d) := civilFromDays (day t) in
  let ms := timeWithinDay t in
  isoYear y +:+ "-" +:+ pad2 m +:+ "-" +:+ pad2 d +:+ "T"
    +:+ pad2 (ms / 3600000) +:+ ":" +:+ pad2 (ms / 60000 mod 60) +:+ ":"
    +:+ pad2 (ms / 1000 mod 60) +:+ "." +:+ pad3 (ms mod 1000) +:+ "Z".

(** [new Date('YYYY-MM-DD')]: a date-only ISO string is UTC midnight.  The
    constant of the sources is the only string parsed this way whose
    value the model needs. *)
Definition utcMidnight (y m d : Z) : Z := daysFromCivil y m d * msPerDay.

End JsDate.

(** ** [src/lib/date.ts] *)

Module DateLib.

Section Host.

(** The host: its time zone, its clock ([new Date()]), and
    [new Date(s)] on a string, whose result outside the ISO formats is
    up to the engine. *)
Variable tza : Z.
Variable now : Z.
Variable dateParse : string → JsDate.Date.

Definition getLocalDate (date : JsDate.Date) : string :=
  let year := JsDate.getFullYear tza date in
  let month :=
    Js.padStart 2 (Js.toString (Js.add (JsDate.getMonth tza date) (Some 1))) in
  let day := Js.padStart 2 (Js.toString (JsDate.getDate tza date)) in
  Js.toString year +:+ "-" +:+ month +:+ "-" +:+ day.

(** [getLocalDate()] with the default argument [new Date()]. *)
Definition getLocalDateNow : string := getLocalDate (Some now).

Definition getLocalISOString (date : JsDate.Date) : string :=
  let year := JsDate.getFullYear tza date in
  let month :=
    Js.padStart 2 (Js.toString (Js.add (JsDate.getMonth tza date) (Some 1))) in
  let day := Js.padStart 2 (Js.toString (JsDate.getDate tza date)) in
  let hours := Js.padStart 2 (Js.toString (JsDate.getHours tza date)) in
  let minutes := Js.padStart 2 (Js.toString (JsDate.getMinutes tza date)) in
  let seconds := Js.padStart 2 (Js.toString (JsDate.getSeconds tza date)) in
  let ms := Js.padStart 3 (Js.toString (JsDate.getMilliseconds tza date)) in
  Js.toString year +:+ "-" +:+ month +:+ "-" +:+ day +:+ "T" +:+ hours
    +:+ ":" +:+ minutes +:+ ":" +:+ seconds +:+ "." +:+ ms.

Definition parseLocalDate (dateStr : string) : JsDate.Date :=
  if negb (Js.truthy dateStr) then Some now
  else
    let parts := Js.split "-" (hd "" (Js.split "T" dateStr)) in
    match parts with
    | [p0; p1; p2] =>
        let year := Js.parseInt p0 in
        let month := Js.sub (Js.parseInt p1) (Some 1) in
        let day := Js.parseInt p2 in
        JsDate.ofComponents tza year month day
    | _ => dateParse dateStr
    end.

End Host.

End DateLib.

(** ** [src/lib/types.ts]

    The literal unions ([Category], [Urgency], the status types, ...) are
    strings at run time and the storage layer passes them through
    unchecked, so they are [string] here.  An optional field [f?: T] is an
    [option T].  [traceDate] is declared [string]; every read of it in the
    sources is guarded by [||] or [?.], since a record of an older cache may
    lack it, and so it is an [option string] with [None] for the missing
    property.  [amount] is restricted to whole numbers. *)

Module DailyEntry.
Record t := mk {
  id : string;
  date : string;
  workedOn : string;
  shipped : string;
  traceDate : option string;
  pinned : option bool;
  position : option Z;
}.
End DailyEntry.

Module Idea.
Record t := mk {
  id : string;
  date : string;
  thought : string;
  category : string;
  urgency : string;
  status : string;
  platform : option string;
  executed : option bool;
  pinned : option bool;
  traceDate : option string;
}.
End Idea.

Module WeeklyOutcome.
Record t := mk {
  id : string;
  weekStarting : string;
  build : string;
  ship : string;
  learn : string;
  status : string;
  reviewGenerated : option bool;
  traceDate : option string;
}.
End WeeklyOutcome.

Module Todo.
Record t := mk {
  id : string;
  title : string;
  details : string;
  deadline : string;
  priority : string;
  status : string;
  completed : bool;
  createdAt : string;
  traceDate : option string;
  timeSlot : option string;
  targetTime : option string;
  pinned : option bool;
  completedAt : option string;
}.
End Todo.

Module DecisionGate.
Record t := mk {
  id : string;
  date : string;
  decision : string;
  outcome : string;
  status : string;
  traceDate : option string;
}.
End DecisionGate.

Module Contact.
Record t := mk {
  id : string;
  name : string;
  company : string;
  email : string;
  linkedin : string;
  xAccount : string;
  notes : string;
  dateAdded : string;
  traceDate : option string;
  avatarUrl : option string;
}.
End Contact.

Module Discovery.
Record t := mk {
  id : string;
  title : string;
  url : string;
  description : string;
  category : string;
  impact : string;
  dateAdded : string;
  traceDate : option string;
  pinned : option bool;
}.
End Discovery.

Module Expense.
Record t := mk {
  id : string;
  title : string;
  amount : Z;
  category : string;
  date : string;
  createdAt : string;
  traceDate : option string;
}.
End Expense.

(** Decidable equality of the records: [e.id === x.id] is on strings, but
    caches are compared as wholes in the properties. *)
#[global] Instance DailyEntry_eq_dec : EqDecision DailyEntry.t.
Proof. solve_decision. Defined.
#[global] Instance Idea_eq_dec : EqDecision Idea.t.
Proof. solve_decision. Defined.
#[global] Instance WeeklyOutcome_eq_dec : EqDecision WeeklyOutcome.t.
Proof. solve_decision. Defined.
#[global] Instance Todo_eq_dec : EqDecision Todo.t.
Proof. solve_decision. Defined.
#[global] Instance DecisionGate_eq_dec : EqDecision DecisionGate.t.
Proof. solve_decision. Defined.
#[global] Instance Contact_eq_dec : EqDecision Contact.t.
Proof. solve_decision. Defined.
#[global] Instance Discovery_eq_dec : EqDecision Discovery.t.
Proof. solve_decision. Defined.
#[global] Instance Expense_eq_dec : EqDecision Expense.t.
Proof. solve_decision. Defined.

(** ** Rows exchanged with the backend

    The object literal given to [insert] or [update], and a row of a
    [select]: column names with JSON values.  A property whose value is
    [undefined] is kept as [JUndefined]; the client drops it on the wire. *)

Module Row.

Inductive JsVal :=
| JUndefined
| JNull
| JBool (b : bool)
| JNum (n : Z)
| JStr (s : string).

Definition t := list (string * JsVal).

#[global] Instance JsVal_eq_dec : EqDecision JsVal.
Proof. solve_decision. Defined.

(** [row.col]. *)
Fixpoint get (row : t) (col : string) : JsVal :=
  match row with
  | [] => JUndefined
  | (c, v) :: rest => if String.eqb c col then v else get rest col
  end.

Definition optStr (s : option string) : JsVal :=
  match s with
  | Some x => JStr x
  | None => JUndefined
  end.

Definition optBool (b : option bool) : JsVal :=
  match b with
  | Some x => JBool x
  | None => JUndefined
  end.

(** Truthiness of a value. *)
Definition truthy (v : JsVal) : bool :=
  match v with
  | JUndefined | JNull => false
  | JBool b => b
  | JNum n => negb (n =? 0)
  | JStr s => Js.truthy s
  end.

(** [a || b]. *)
Definition orElse (a b : JsVal) : JsVal := if truthy a then a else b.

(** Reading a column into a typed field.  The sources assign [row.col]
    unchecked; a row of the table carries the column's type, and a value
    of another type reads as the default below.  The rows that carry the
    types of their columns are told by [Store.wellTyped], and the properties
    that say what a row is read as ask for such rows. *)
Definition str (v : JsVal) : string :=
  match v with
  | JStr s => s
  | _ => ""
  end.

Definition strOpt (v : JsVal) : option string :=
  match v with
  | JStr s => Some s
  | _ => None
  end.

Definition boolOpt (v : JsVal) : option bool :=
  match v with
  | JBool b => Some b
  | _ => None
  end.

Definition numOpt (v : JsVal) : option Z :=
  match v with
  | JNum n => Some n
  | _ => None
  end.

Definition bool (v : JsVal) : bool := default false (boolOpt v).

(** [v || 0] on a numeric column; anything else is taken as 0. *)
Definition num (v : JsVal) : Z := default 0 (numOpt v).

(** [Number(v)].  [numeric] tells the values for which it is an integer
    that the model has: a number, [null] (0), a boolean (1 and 0), and a
    string that is an integer in decimal ("900", also the empty string,
    0) of at most 15 characters, which a number holds exactly.  For the
    other values [Number] gives [NaN] (no amount at all, text that is no
    number), a number that is no integer (a fraction, an exponent) or a
    rounded one, none of which a field of the model can hold: there
    [number] is 0, and the properties that read an amount ask for a
    [numeric] one. *)
Definition numeric (v : JsVal) : Datatypes.bool :=
  match v with
  | JNum _ | JNull | JBool _ => true
  | JStr s => Js.integerText s && (String.length s <=? 15)%nat
  | JUndefined => false
  end.

Definition number (v : JsVal) : Z :=
  match v with
  | JNum n => n
  | JNull | JUndefined => 0
  | JBool b => if b then 1 else 0
  | JStr s => if numeric v then Js.toInteger s else 0
  end.

(** What a column can hold: text, a flag or a number, each with or
    without [null] and a missing column as further values, and an
    amount. *)
Inductive Column := Text | OptText | Flag | OptFlag | OptNumber | Amount.

Definition holds (k : Column) (v : JsVal) : Datatypes.bool :=
  match k, v with
  | (Text | OptText), JStr _ => true
  | (Flag | OptFlag), JBool _ => true
  | OptNumber, JNum _ => true
  | (OptText | OptFlag | OptNumber), (JNull | JUndefined) => true
  | Amount, _ => numeric v
  | _, _ => false
  end.

End Row.

(** ** [src/lib/store.ts] *)

Module Store.

(** *** The collaborators of the module

    [./security] and [./supabase] are imported by [store.ts] and are not
    part of the sources at hand; what [store.ts] uses of them is taken as
    a parameter. *)

(** [sanitizeText], [sanitizeUrl], [sanitizeEmail] and the [rateLimiter]
    object, whose state is of some type [RateLimiter] and whose
    [canMakeRequest()] reads the clock and may change that state. *)
Class Security := {
  sanitizeText : string → string;
  sanitizeUrl : string → string;
  sanitizeEmail : string → string;
  RateLimiter : Type;
  canMakeRequest : Z → RateLimiter → bool * RateLimiter;
}.

(** A call on the [supabase] client, once awaited:
    [from(t).select('*').order(c1, {ascending})...],
    [from(t).insert(row)], [from(t).update(row).eq('id', id)] and
    [from(t).delete().eq('id', id)]. *)
Inductive Request :=
| Select (table : string) (order : list (string * bool))
| Insert (table : string) (row : Row.t)
| Update (table : string) (row : Row.t) (id : string)
| Delete (table : string) (id : string).

(** The awaited [{ data, error }]. *)
Record Response := mkResponse {
  data : option (list Row.t);
  error : option string;
}.

(** [isSupabaseConfigured()], and the backend as the answer it gives to a
    request after the exchanges so far (most recent first).  The client
    reports failures in [error]; a thrown exception is not modelled. *)
Class Supabase := {
  isSupabaseConfigured : bool;
  respond : list (Request * Response) → Request → Response;
}.

(** The host of [./date]: time zone and [new Date(s)]. *)
Class Host := {
  tza : Z;
  dateParse : string → JsDate.Date;
}.

(** *** [localStorage]

    One key per collection.  The value under a key is missing, or text
    that [JSON.parse] rejects, or the JSON of a list of records.
    [setItem] is taken to succeed: the storage quota is not modelled. *)
Inductive Slot (T : Type) :=
| Missing
| Unparsable
| Stored (items : list T).
Arguments Missing {T}.
Arguments Unparsable {T}.
Arguments Stored {T} items.

Record LocalStorage := mkLocalStorage {
  aj26_daily_logs : Slot DailyEntry.t;
  aj26_ideas : Slot Idea.t;
  aj26_weekly_engine : Slot WeeklyOutcome.t;
  aj26_todos : Slot Todo.t;
  aj26_decisions : Slot DecisionGate.t;
  aj26_contacts : Slot Contact.t;
  aj26_discoveries : Slot Discovery.t;
  aj26_expenses : Slot Expense.t;
}.

(** A cache key: how to read and replace its slot. *)
Record CacheKey (T : Type) := mkCacheKey {
  getItem : LocalStorage → Slot T;
  setItem : Slot T → LocalStorage → LocalStorage;
}.
Arguments getItem {T} _ _.
Arguments setItem {T} _ _ _.

Module CACHE_KEYS.
Definition DAILY : CacheKey DailyEntry.t :=
  mkCacheKey _ aj26_daily_logs
    (λ v s, mkLocalStorage v (aj26_ideas s) (aj26_weekly_engine s)
              (aj26_todos s) (aj26_decisions s) (aj26_contacts s)
              (aj26_discoveries s) (aj26_expenses s)).
Definition IDEAS : CacheKey Idea.t :=
  mkCacheKey _ aj26_ideas
    (λ v s, mkLocalStorage (aj26_daily_logs s) v (aj26_weekly_engine s)
              (aj26_todos s) (aj26_decisions s) (aj26_contacts s)
              (aj26_discoveries s) (aj26_expenses s)).
Definition WEEKLY : CacheKey WeeklyOutcome.t :=
  mkCacheKey _ aj26_weekly_engine
    (λ v s, mkLocalStorage (aj26_daily_logs s) (aj26_ideas s) v
              (aj26_todos s) (aj26_decisions s) (aj26_contacts s)
              (aj26_discoveries s) (aj26_expenses s)).
Definition TODOS : CacheKey Todo.t :=
  mkCacheKey _ aj26_todos
    (λ v s, mkLocalStorage (aj26_daily_logs s) (aj26_ideas s)
              (aj26_weekly_engine s) v (aj26_decisions s)
              (aj26_contacts s) (aj26_discoveries s) (aj26_expenses s)).
Definition DECISIONS : CacheKey DecisionGate.t :=
  mkCacheKey _ aj26_decisions
    (λ v s, mkLocalStorage (aj26_daily_logs s) (aj26_ideas s)
              (aj26_weekly_engine s) (aj26_todos s) v
              (aj26_contacts s) (aj26_discoveries s) (aj26_expenses s)).
Definition CONTACTS : CacheKey Contact.t :=
  mkCacheKey _ aj26_contacts
    (λ v s, mkLocalStorage (aj26_daily_logs s) (aj26_ideas s)
              (aj26_weekly_engine s) (aj26_todos s) (aj26_decisions s)
              v (aj26_discoveries s) (aj26_expenses s)).
Definition DISCOVERIES : CacheKey Discovery.t :=
  mkCacheKey _ aj26_discoveries
    (λ v s, mkLocalStorage (aj26_daily_logs s) (aj26_ideas s)
              (aj26_weekly_engine s) (aj26_todos s) (aj26_decisions s)
              (aj26_contacts s) v (aj26_expenses s)).
Definition EXPENSES : CacheKey Expense.t :=
  mkCacheKey _ aj26_expenses
    (λ v s, mkLocalStorage (aj26_daily_logs s) (aj26_ideas s)
              (aj26_weekly_engine s) (aj26_todos s) (aj26_decisions s)
              (aj26_contacts s) (aj26_discoveries s) v).
End CACHE_KEYS.

(** *** State and effects

    What a call of the module can read or change: [localStorage], the
    rate limiter, the clock, and the backend, seen through the list of
    exchanges with it (most recent first). *)
Record World `{security : Security} := mkWorld {
  localStorage : LocalStorage;
  rateLimiter : RateLimiter;
  clock : Z;
  journal : list (Request * Response);
}.
Arguments mkWorld {security} _ _ _ _.

Definition M `{security : Security} (A : Type) : Type := World → A * World.

(** [return x], and sequencing: [x ← m; k] runs [m], then [k] on its
    result and on the world it leaves. *)
Definition return_ `{security : Security} {A} (x : A) : M A := λ w, (x, w).

Definition bind `{security : Security} {A B} (m : M A) (k : A → M B) : M B :=
  λ w, let '(x, w') := m w in k x w'.

Declare Scope store_scope.
Notation "x ← y ; z" := (bind y (λ x, z))
  (at level 20, y at level 100, z at level 200, only parsing) : store_scope.
Notation "x ;; z" := (bind x (λ _, z))
  (at level 100, z at level 200, only parsing, right associativity)
  : store_scope.
Local Open Scope store_scope.

Section Engine.

Context `{security : Security, supabase : Supabase, host : Host}.

(** [await supabase.from(...)...]. *)
Definition await (req : Request) : M Response :=
  λ w, let r := respond (journal w) req in
       (r, mkWorld (localStorage w) (rateLimiter w) (clock w)
             ((req, r) :: journal w)).

(** [if (error)]: the client sets [error] to an object on failure and
    to [null] otherwise. *)
Definition failed (r : Response) : bool := bool_decide (is_Some (error r)).

(** [getLocalDate()]. *)
Definition getLocalDate : M string :=
  λ w, (DateLib.getLocalDate tza (Some (clock w)), w).

(** [new Date().toISOString().split('T')[0]]. *)
Definition isoDate : M string :=
  λ w, (hd "" (Js.split "T" (JsDate.toISOString (clock w))), w).

Definition updateCache {T} (key : CacheKey T) (data : list T) : M unit :=
  λ w, ((), mkWorld (setItem key (Stored data) (localStorage w))
              (rateLimiter w) (clock w) (journal w)).

Definition getCache {T} (key : CacheKey T) : M (list T) :=
  λ w, (match getItem key (localStorage w) with
        | Stored items => items
        | Missing | Unparsable => []
        end, w).

Definition checkRateLimit : M bool :=
  λ w, let '(ok, limiter) := canMakeRequest (clock w) (rateLimiter w) in
       (ok, mkWorld (localStorage w) limiter (clock w) (journal w)).

Definition ensureConfigured : M bool := return_ isSupabaseConfigured.

(** [!checkRateLimit() || !ensureConfigured()], with the short cut of
    [||]. *)
Definition refused : M bool :=
  ok ← checkRateLimit;
  if negb ok then return_ true
  else configured ← ensureConfigured; return_ (negb configured).

(** *** Daily entries *)

Definition getDailyEntries : M (list DailyEntry.t) :=
  getCache CACHE_KEYS.DAILY.

Definition dailyEntryOfRow (row : Row.t) : DailyEntry.t :=
  let col := Row.get row in
  {| DailyEntry.id := Row.str (col "id");
     DailyEntry.date := Row.str (col "date");
     DailyEntry.workedOn := Row.str (col "worked_on");
     DailyEntry.shipped := Row.str (col "shipped");
     DailyEntry.traceDate :=
       Row.strOpt (Row.orElse (col "trace_date") (col "date"));
     DailyEntry.pinned := Some (Row.truthy (col "pinned"));
     DailyEntry.position := Some (Row.num (col "position")) |}.

Definition fetchDailyEntries : M (list DailyEntry.t) :=
  configured ← ensureConfigured;
  if negb configured then getCache CACHE_KEYS.DAILY
  else
    first ← await (Select "daily_entries"
                     [("pinned", false); ("position", true);
                      ("trace_date", false)]);
    result ←
      (if failed first
       then await (Select "daily_entries" [("trace_date", false)])
       else return_ first);
    if failed result then getCache CACHE_KEYS.DAILY
    else
      let entries := dailyEntryOfRow <$> default [] (data result) in
      updateCache CACHE_KEYS.DAILY entries;;
      return_ entries.

Definition saveDailyEntry (entry : DailyEntry.t) : M unit :=
  stop ← refused;
  if stop then return_ ()
  else
    today ← getLocalDate;
    let traceDate := Js.orElseOpt (DailyEntry.traceDate entry) today in
    let sanitizedEntry :=
      {| DailyEntry.id := DailyEntry.id entry;
         DailyEntry.date := DailyEntry.date entry;
         DailyEntry.workedOn := sanitizeText (DailyEntry.workedOn entry);
         DailyEntry.shipped := sanitizeText (DailyEntry.shipped entry);
         DailyEntry.traceDate := Some traceDate;
         DailyEntry.pinned := DailyEntry.pinned entry;
         DailyEntry.position := DailyEntry.position entry |} in
    previousCache ← getDailyEntries;
    updateCache CACHE_KEYS.DAILY (sanitizedEntry :: previousCache);;
    first ← await (Insert "daily_entries"
      [("id", Row.JStr (DailyEntry.id sanitizedEntry));
       ("date", Row.JStr (DailyEntry.date sanitizedEntry));
       ("worked_on", Row.JStr (DailyEntry.workedOn sanitizedEntry));
       ("shipped", Row.JStr (DailyEntry.shipped sanitizedEntry));
       ("trace_date", Row.optStr (DailyEntry.traceDate sanitizedEntry));
       ("pinned", Row.JBool (Js.orFalse (DailyEntry.pinned sanitizedEntry)));
       ("position", Row.JNum (Js.orZero (DailyEntry.position sanitizedEntry)))]);
    if failed first then
      retry ← await (Insert "daily_entries"
        [("id", Row.JStr (DailyEntry.id sanitizedEntry));
         ("date", Row.JStr (DailyEntry.date sanitizedEntry));
         ("worked_on", Row.JStr (DailyEntry.workedOn sanitizedEntry));
         ("shipped", Row.JStr (DailyEntry.shipped sanitizedEntry));
         ("trace_date", Row.optStr (DailyEntry.traceDate sanitizedEntry))]);
      if failed retry then updateCache CACHE_KEYS.DAILY previousCache
      else return_ ()
    else return_ ().

Definition updateDailyEntry (updatedEntry : DailyEntry.t) : M unit :=
  stop ← refused;
  if stop then return_ ()
  else
    previousCache ← getDailyEntries;
    let updatedCache :=
      (λ e, if String.eqb (DailyEntry.id e) (DailyEntry.id updatedEntry)
            then updatedEntry else e) <$> previousCache in
    updateCache CACHE_KEYS.DAILY updatedCache;;
    first ← await (Update "daily_entries"
      [("date", Row.JStr (DailyEntry.date updatedEntry));
       ("worked_on", Row.JStr (sanitizeText (DailyEntry.workedOn updatedEntry)));
       ("shipped", Row.JStr (sanitizeText (DailyEntry.shipped updatedEntry)));
       ("trace_date", Row.optStr (DailyEntry.traceDate updatedEntry));
       ("pinned", Row.JBool (Js.orFalse (DailyEntry.pinned updatedEntry)));
       ("position", Row.JNum (Js.orZero (DailyEntry.position updatedEntry)))]
      (DailyEntry.id updatedEntry));
    if failed first then
      retry ← await (Update "daily_entries"
        [("date", Row.JStr (DailyEntry.date updatedEntry));
         ("worked_on", Row.JStr (sanitizeText (DailyEntry.workedOn updatedEntry)));
         ("shipped", Row.JStr (sanitizeText (DailyEntry.shipped updatedEntry)));
         ("trace_date", Row.optStr (DailyEntry.traceDate updatedEntry))]
        (DailyEntry.id updatedEntry));
      if failed retry then updateCache CACHE_KEYS.DAILY previousCache
      else return_ ()
    else return_ ().

Definition deleteDailyEntry (id : string) : M unit :=
  stop ← refused;
  if stop then return_ ()
  else
    previousCache ← getDailyEntries;
    updateCache CACHE_KEYS.DAILY
      (filter (λ e, DailyEntry.id e ≠ id) previousCache);;
    result ← await (Delete "daily_entries" id);
    if failed result then updateCache CACHE_KEYS.DAILY previousCache
    else return_ ().

(** *** Ideas *)

Definition getIdeas : M (list Idea.t) := getCache CACHE_KEYS.IDEAS.

Definition ideaOfRow (row : Row.t) : Idea.t :=
  let col := Row.get row in
  {| Idea.id := Row.str (col "id");
     Idea.date := Row.str (col "date");
     Idea.thought := Row.str (col "thought");
     Idea.category := Row.str (col "category");
     Idea.urgency := Row.str (col "urgency");
     Idea.status := Row.str (col "status");
     Idea.platform := Row.strOpt (col "platform");
     Idea.executed := Some (Row.truthy (col "executed"));
     Idea.pinned := Some (Row.truthy (col "pinned"));
     Idea.traceDate :=
       Row.strOpt (Row.orElse (col "trace_date") (col "date")) |}.

Definition fetchIdeas : M (list Idea.t) :=
  configured ← ensureConfigured;
  if negb configured then getCache CACHE_KEYS.IDEAS
  else
    result ← await (Select "ideas" [("trace_date", false)]);
    if failed result then getCache CACHE_KEYS.IDEAS
    else
      let ideas := ideaOfRow <$> default [] (data result) in
      updateCache CACHE_KEYS.IDEAS ideas;;
      return_ ideas.

Definition saveIdea (idea : Idea.t) : M unit :=
  stop ← refused;
  if stop then return_ ()
  else
    today ← getLocalDate;
    let traceDate := Js.orElseOpt (Idea.traceDate idea) today in
    let sanitizedIdea :=
      {| Idea.id := Idea.id idea;
         Idea.date := Idea.date idea;
         Idea.thought := sanitizeText (Idea.thought idea);
         Idea.category := Idea.category idea;
         Idea.urgency := Idea.urgency idea;
         Idea.status := Idea.status idea;
         Idea.platform := Idea.platform idea;
         Idea.executed := Idea.executed idea;
         Idea.pinned := Idea.pinned idea;
         Idea.traceDate := Some traceDate |} in
    previousCache ← getIdeas;
    updateCache CACHE_KEYS.IDEAS (sanitizedIdea :: previousCache);;
    result ← await (Insert "ideas"
      [("id", Row.JStr (Idea.id sanitizedIdea));
       ("date", Row.JStr (Idea.date sanitizedIdea));
       ("thought", Row.JStr (Idea.thought sanitizedIdea));
       ("category", Row.JStr (Idea.category sanitizedIdea));
       ("urgency", Row.JStr (Idea.urgency sanitizedIdea));
       ("status", Row.JStr (Idea.status sanitizedIdea));
       ("platform", Row.optStr (Idea.platform sanitizedIdea));
       ("executed", Row.JBool (Js.orFalse (Idea.executed sanitizedIdea)));
       ("pinned", Row.JBool (Js.orFalse (Idea.pinned sanitizedIdea)));
       ("trace_date", Row.optStr (Idea.traceDate sanitizedIdea))]);
    if failed result then updateCache CACHE_KEYS.IDEAS previousCache
    else return_ ().

Definition updateIdea (updatedIdea : Idea.t) : M unit :=
  stop ← refused;
  if stop then return_ ()
  else
    previousCache ← getIdeas;
    let updatedCache :=
      (λ i, if String.eqb (Idea.id i) (Idea.id updatedIdea)
            then updatedIdea else i) <$> previousCache in
    updateCache CACHE_KEYS.IDEAS updatedCache;;
    result ← await (Update "ideas"
      [("date", Row.JStr (Idea.date updatedIdea));
       ("thought", Row.JStr (sanitizeText (Idea.thought updatedIdea)));
       ("category", Row.JStr (Idea.category updatedIdea));
       ("urgency", Row.JStr (Idea.urgency updatedIdea));
       ("status", Row.JStr (Idea.status updatedIdea));
       ("platform", Row.optStr (Idea.platform updatedIdea));
       ("executed", Row.JBool (Js.orFalse (Idea.executed updatedIdea)));
       ("pinned", Row.JBool (Js.orFalse (Idea.pinned updatedIdea)));
       ("trace_date", Row.optStr (Idea.traceDate updatedIdea))]
      (Idea.id updatedIdea));
    if failed result then updateCache CACHE_KEYS.IDEAS previousCache
    else return_ ().

Definition deleteIdea (id : string) : M unit :=
  stop ← refused;
  if stop then return_ ()
  else
    previousCache ← getIdeas;
    updateCache CACHE_KEYS.IDEAS
      (filter (λ i, Idea.id i ≠ id) previousCache);;
    result ← await (Delete "ideas" id);
    if failed result then updateCache CACHE_KEYS.IDEAS previousCache
    else return_ ().

(** *** Weekly outcomes *)

Definition getWeeklyOutcomes : M (list WeeklyOutcome.t) :=
  getCache CACHE_KEYS.WEEKLY.

Definition weeklyOutcomeOfRow (row : Row.t) : WeeklyOutcome.t :=
  let col := Row.get row in
  {| WeeklyOutcome.id := Row.str (col "id");
     WeeklyOutcome.weekStarting := Row.str (col "week_starting");
     WeeklyOutcome.build := Row.str (col "build");
     WeeklyOutcome.ship := Row.str (col "ship");
     WeeklyOutcome.learn := Row.str (col "learn");
     WeeklyOutcome.status := Row.str (col "status");
     WeeklyOutcome.reviewGenerated := Row.boolOpt (col "review_generated");
     WeeklyOutcome.traceDate :=
       Row.strOpt (Row.orElse (col "trace_date") (col "week_starting")) |}.

Definition fetchWeeklyOutcomes : M (list WeeklyOutcome.t) :=
  configured ← ensureConfigured;
  if negb configured then getCache CACHE_KEYS.WEEKLY
  else
    result ← await (Select "weekly_outcomes" [("trace_date", false)]);
    if failed result then getCache CACHE_KEYS.WEEKLY
    else
      let outcomes := weeklyOutcomeOfRow <$> default [] (data result) in
      updateCache CACHE_KEYS.WEEKLY outcomes;;
      return_ outcomes.

Definition saveWeeklyOutcome (outcome : WeeklyOutcome.t) : M unit :=
  stop ← refused;
  if stop then return_ ()
  else
    today ← getLocalDate;
    let traceDate := Js.orElseOpt (WeeklyOutcome.traceDate outcome) today in
    let sanitizedOutcome :=
      {| WeeklyOutcome.id := WeeklyOutcome.id outcome;
         WeeklyOutcome.weekStarting := WeeklyOutcome.weekStarting outcome;
         WeeklyOutcome.build := sanitizeText (WeeklyOutcome.build outcome);
         WeeklyOutcome.ship := sanitizeText (WeeklyOutcome.ship outcome);
         WeeklyOutcome.learn := sanitizeText (WeeklyOutcome.learn outcome);
         WeeklyOutcome.status := WeeklyOutcome.status outcome;
         WeeklyOutcome.reviewGenerated := WeeklyOutcome.reviewGenerated outcome;
         WeeklyOutcome.traceDate := Some traceDate |} in
    previousCache ← getWeeklyOutcomes;
    updateCache CACHE_KEYS.WEEKLY (sanitizedOutcome :: previousCache);;
    result ← await (Insert "weekly_outcomes"
      [("id", Row.JStr (WeeklyOutcome.id sanitizedOutcome));
       ("week_starting", Row.JStr (WeeklyOutcome.weekStarting sanitizedOutcome));
       ("build", Row.JStr (WeeklyOutcome.build sanitizedOutcome));
       ("ship", Row.JStr (WeeklyOutcome.ship sanitizedOutcome));
       ("learn", Row.JStr (WeeklyOutcome.learn sanitizedOutcome));
       ("status", Row.JStr (WeeklyOutcome.status sanitizedOutcome));
       ("review_generated",
        Row.JBool (Js.orFalse (WeeklyOutcome.reviewGenerated sanitizedOutcome)));
       ("trace_date", Row.optStr (WeeklyOutcome.traceDate sanitizedOutcome))]);
    if failed result then updateCache CACHE_KEYS.WEEKLY previousCache
    else return_ ().

Definition updateWeeklyOutcome (updated : WeeklyOutcome.t) : M unit :=
  stop ← refused;
  if stop then return_ ()
  else
    previousCache ← getWeeklyOutcomes;
    let updatedCache :=
      (λ o, if String.eqb (WeeklyOutcome.id o) (WeeklyOutcome.id updated)
            then updated else o) <$> previousCache in
    updateCache CACHE_KEYS.WEEKLY updatedCache;;
    result ← await (Update "weekly_outcomes"
      [("week_starting", Row.JStr (WeeklyOutcome.weekStarting updated));
       ("build", Row.JStr (sanitizeText (WeeklyOutcome.build updated)));
       ("ship", Row.JStr (sanitizeText (WeeklyOutcome.ship updated)));
       ("learn", Row.JStr (sanitizeText (WeeklyOutcome.learn updated)));
       ("status", Row.JStr (WeeklyOutcome.status updated));
       ("review_generated", Row.optBool (WeeklyOutcome.reviewGenerated updated));
       ("trace_date", Row.optStr (WeeklyOutcome.traceDate updated))]
      (WeeklyOutcome.id updated));
    if failed result then updateCache CACHE_KEYS.WEEKLY previousCache
    else return_ ().

Definition deleteWeeklyOutcome (id : string) : M unit :=
  stop ← refused;
  if stop then return_ ()
  else
    previousCache ← getWeeklyOutcomes;
    updateCache CACHE_KEYS.WEEKLY
      (filter (λ o, WeeklyOutcome.id o ≠ id) previousCache);;
    result ← await (Delete "weekly_outcomes" id);
    if failed result then updateCache CACHE_KEYS.WEEKLY previousCache
    else return_ ().

(** *** Todos *)

Definition getTodos : M (list Todo.t) := getCache CACHE_KEYS.TODOS.

Definition todoOfRow (today : string) (row : Row.t) : Todo.t :=
  let col := Row.get row in
  {| Todo.id := Row.str (col "id");
     Todo.title := Row.str (col "title");
     Todo.details := Row.str (col "details");
     Todo.deadline := Row.str (col "deadline");
     Todo.priority := Row.str (col "priority");
     Todo.status := Row.str (col "status");
     Todo.completed := Row.bool (col "completed");
     Todo.createdAt := Row.str (col "created_at");
     Todo.traceDate :=
       if Row.truthy (col "trace_date") then Row.strOpt (col "trace_date")
       else if Row.truthy (col "created_at")
            then Some (DateLib.getLocalDate tza
                         (dateParse (Row.str (col "created_at"))))
            else Some today;
     Todo.timeSlot := Row.strOpt (col "time_slot");
     Todo.targetTime := Row.strOpt (col "target_time");
     Todo.pinned := Some (Row.truthy (col "pinned"));
     Todo.completedAt := Row.strOpt (col "completed_at") |}.

Definition fetchTodos : M (list Todo.t) :=
  configured ← ensureConfigured;
  if negb configured then getCache CACHE_KEYS.TODOS
  else
    result ← await (Select "todos" [("deadline", true)]);
    if failed result then getCache CACHE_KEYS.TODOS
    else
      today ← getLocalDate;
      let todos := todoOfRow today <$> default [] (data result) in
      updateCache CACHE_KEYS.TODOS todos;;
      return_ todos.

Definition saveTodo (todo : Todo.t) : M unit :=
  stop ← refused;
  if stop then return_ ()
  else
    today ← getLocalDate;
    let traceDate := Js.orElseOpt (Todo.traceDate todo) today in
    let sanitizedTodo :=
      {| Todo.id := Todo.id todo;
         Todo.title := sanitizeText (Todo.title todo);
         Todo.details := sanitizeText (Todo.details todo);
         Todo.deadline := Todo.deadline todo;
         Todo.priority := Todo.priority todo;
         Todo.status := Todo.status todo;
         Todo.completed := Todo.completed todo;
         Todo.createdAt := Todo.createdAt todo;
         Todo.traceDate := Some traceDate;
         Todo.timeSlot := Todo.timeSlot todo;
         Todo.targetTime := Todo.targetTime todo;
         Todo.pinned := Todo.pinned todo;
         Todo.completedAt := Todo.completedAt todo |} in
    previousCache ← getTodos;
    updateCache CACHE_KEYS.TODOS (sanitizedTodo :: previousCache);;
    result ← await (Insert "todos"
      [("id", Row.JStr (Todo.id sanitizedTodo));
       ("title", Row.JStr (Todo.title sanitizedTodo));
       ("details", Row.JStr (Todo.details sanitizedTodo));
       ("deadline", Row.JStr (Todo.deadline sanitizedTodo));
       ("priority", Row.JStr (Todo.priority sanitizedTodo));
       ("status", Row.JStr (Todo.status sanitizedTodo));
       ("completed", Row.JBool (Todo.completed sanitizedTodo));
       ("created_at", Row.JStr (Todo.createdAt sanitizedTodo));
       ("trace_date", Row.optStr (Todo.traceDate sanitizedTodo));
       ("time_slot", Row.optStr (Todo.timeSlot sanitizedTodo));
       ("target_time", Row.optStr (Todo.targetTime sanitizedTodo));
       ("pinned", Row.JBool (Js.orFalse (Todo.pinned sanitizedTodo)));
       ("completed_at", Row.optStr (Todo.completedAt sanitizedTodo))]);
    if failed result then updateCache CACHE_KEYS.TODOS previousCache
    else return_ ().

Definition updateTodo (updated : Todo.t) : M unit :=
  stop ← refused;
  if stop then return_ ()
  else
    previousCache ← getTodos;
    let updatedCache :=
      (λ t, if String.eqb (Todo.id t) (Todo.id updated)
            then updated else t) <$> previousCache in
    updateCache CACHE_KEYS.TODOS updatedCache;;
    result ← await (Update "todos"
      [("title", Row.JStr (sanitizeText (Todo.title updated)));
       ("details", Row.JStr (sanitizeText (Todo.details updated)));
       ("deadline", Row.JStr (Todo.deadline updated));
       ("priority", Row.JStr (Todo.priority updated));
       ("status", Row.JStr (Todo.status updated));
       ("completed", Row.JBool (Todo.completed updated));
       ("trace_date", Row.optStr (Todo.traceDate updated));
       ("time_slot", Row.optStr (Todo.timeSlot updated));
       ("target_time", Row.optStr (Todo.targetTime updated));
       ("pinned", Row.JBool (Js.orFalse (Todo.pinned updated)));
       ("completed_at", Row.optStr (Todo.completedAt updated))]
      (Todo.id updated));
    if failed result then updateCache CACHE_KEYS.TODOS previousCache
    else return_ ().

Definition deleteTodo (id : string) : M unit :=
  stop ← refused;
  if stop then return_ ()
  else
    previousCache ← getTodos;
    updateCache CACHE_KEYS.TODOS
      (filter (λ t, Todo.id t ≠ id) previousCache);;
    result ← await (Delete "todos" id);
    if failed result then updateCache CACHE_KEYS.TODOS previousCache
    else return_ ().

(** *** Decisions *)

Definition getDecisions : M (list DecisionGate.t) :=
  getCache CACHE_KEYS.DECISIONS.

(** [row.decision || row.project_title] and, in a decided row,
    [row.outcome || row.result] are [undefined] when both sides are
    falsy; the field of the model, a string, is empty then.  In the rows
    that [wellTyped] tells one side is a text that is not empty. *)
Definition decisionOfRow (row : Row.t) : DecisionGate.t :=
  let col := Row.get row in
  {| DecisionGate.id := Row.str (col "id");
     DecisionGate.date := Row.str (col "date");
     DecisionGate.decision :=
       Row.str (Row.orElse (col "decision") (col "project_title"));
     DecisionGate.outcome :=
       if bool_decide (col "status" = Row.JStr "Decided")
       then Row.str (Row.orElse (col "outcome") (col "result"))
       else Row.str (Row.orElse (col "outcome") (Row.JStr ""));
     DecisionGate.status :=
       Row.str (Row.orElse (col "status")
                  (if bool_decide (col "result" = Row.JStr "Approved")
                   then Row.JStr "Decided" else Row.JStr "Pending"));
     DecisionGate.traceDate :=
       Row.strOpt (Row.orElse (col "trace_date") (col "date")) |}.

Definition fetchDecisions : M (list DecisionGate.t) :=
  configured ← ensureConfigured;
  if negb configured then getCache CACHE_KEYS.DECISIONS
  else
    result ← await (Select "decision_gates" [("trace_date", false)]);
    if failed result then getCache CACHE_KEYS.DECISIONS
    else
      let decisions := decisionOfRow <$> default [] (data result) in
      updateCache CACHE_KEYS.DECISIONS decisions;;
      return_ decisions.

Definition saveDecision (decision : DecisionGate.t) : M unit :=
  stop ← refused;
  if stop then return_ ()
  else
    today ← getLocalDate;
    let traceDate := Js.orElseOpt (DecisionGate.traceDate decision) today in
    let sanitizedDecision :=
      {| DecisionGate.id := DecisionGate.id decision;
         DecisionGate.date := DecisionGate.date decision;
         DecisionGate.decision := sanitizeText (DecisionGate.decision decision);
         DecisionGate.outcome := sanitizeText (DecisionGate.outcome decision);
         DecisionGate.status := DecisionGate.status decision;
         DecisionGate.traceDate := Some traceDate |} in
    previousCache ← getDecisions;
    updateCache CACHE_KEYS.DECISIONS (sanitizedDecision :: previousCache);;
    result ← await (Insert "decision_gates"
      [("id", Row.JStr (DecisionGate.id sanitizedDecision));
       ("date", Row.JStr (DecisionGate.date sanitizedDecision));
       ("decision", Row.JStr (DecisionGate.decision sanitizedDecision));
       ("outcome", Row.JStr (DecisionGate.outcome sanitizedDecision));
       ("status", Row.JStr (DecisionGate.status sanitizedDecision));
       ("trace_date", Row.optStr (DecisionGate.traceDate sanitizedDecision))]);
    if failed result then updateCache CACHE_KEYS.DECISIONS previousCache
    else return_ ().

Definition updateDecision (updated : DecisionGate.t) : M unit :=
  stop ← refused;
  if stop then return_ ()
  else
    previousCache ← getDecisions;
    let updatedCache :=
      (λ d, if String.eqb (DecisionGate.id d) (DecisionGate.id updated)
            then updated else d) <$> previousCache in
    updateCache CACHE_KEYS.DECISIONS updatedCache;;
    result ← await (Update "decision_gates"
      [("decision", Row.JStr (sanitizeText (DecisionGate.decision updated)));
       ("outcome", Row.JStr (sanitizeText (DecisionGate.outcome updated)));
       ("status", Row.JStr (DecisionGate.status updated));
       ("trace_date", Row.optStr (DecisionGate.traceDate updated))]
      (DecisionGate.id updated));
    if failed result then updateCache CACHE_KEYS.DECISIONS previousCache
    else return_ ().

Definition deleteDecision (id : string) : M unit :=
  stop ← refused;
  if stop then return_ ()
  else
    previousCache ← getDecisions;
    updateCache CACHE_KEYS.DECISIONS
      (filter (λ d, DecisionGate.id d ≠ id) previousCache);;
    result ← await (Delete "decision_gates" id);
    if failed result then updateCache CACHE_KEYS.DECISIONS previousCache
    else return_ ().

(** *** Contacts *)

Definition getContacts : M (list Contact.t) :=
  getCache CACHE_KEYS.CONTACTS.

Definition contactOfRow (row : Row.t) : Contact.t :=
  let col := Row.get row in
  {| Contact.id := Row.str (col "id");
     Contact.name := Row.str (col "name");
     Contact.company := Row.str (col "company");
     Contact.email := Row.str (col "email");
     Contact.linkedin := Row.str (col "linkedin");
     Contact.xAccount := Row.str (col "x_account");
     Contact.notes := Row.str (col "notes");
     Contact.dateAdded := Row.str (col "date_added");
     Contact.traceDate :=
       Row.strOpt (Row.orElse (col "trace_date") (col "date_added"));
     Contact.avatarUrl := Row.strOpt (col "avatar_url") |}.

Definition fetchContacts : M (list Contact.t) :=
  configured ← ensureConfigured;
  if negb configured then getCache CACHE_KEYS.CONTACTS
  else
    result ← await (Select "contacts" [("trace_date", false)]);
    if failed result then getCache CACHE_KEYS.CONTACTS
    else
      let contacts := contactOfRow <$> default [] (data result) in
      updateCache CACHE_KEYS.CONTACTS contacts;;
      return_ contacts.

Definition saveContact (contact : Contact.t) : M unit :=
  stop ← refused;
  if stop then return_ ()
  else
    today ← getLocalDate;
    let traceDate := Js.orElseOpt (Contact.traceDate contact) today in
    let sanitizedContact :=
      {| Contact.id := Contact.id contact;
         Contact.name := sanitizeText (Contact.name contact);
         Contact.company := sanitizeText (Contact.company contact);
         Contact.email := sanitizeEmail (Contact.email contact);
         Contact.linkedin := sanitizeUrl (Contact.linkedin contact);
         Contact.xAccount := sanitizeText (Contact.xAccount contact);
         Contact.notes := sanitizeText (Contact.notes contact);
         Contact.dateAdded := Contact.dateAdded contact;
         Contact.traceDate := Some traceDate;
         Contact.avatarUrl :=
           Some (sanitizeUrl (Js.orElseOpt (Contact.avatarUrl contact) "")) |} in
    previousCache ← getContacts;
    updateCache CACHE_KEYS.CONTACTS (sanitizedContact :: previousCache);;
    result ← await (Insert "contacts"
      [("id", Row.JStr (Contact.id sanitizedContact));
       ("name", Row.JStr (Contact.name sanitizedContact));
       ("company", Row.JStr (Contact.company sanitizedContact));
       ("email", Row.JStr (Contact.email sanitizedContact));
       ("linkedin", Row.JStr (Contact.linkedin sanitizedContact));
       ("x_account", Row.JStr (Contact.xAccount sanitizedContact));
       ("notes", Row.JStr (Contact.notes sanitizedContact));
       ("date_added", Row.JStr (Contact.dateAdded sanitizedContact));
       ("trace_date", Row.optStr (Contact.traceDate sanitizedContact));
       ("avatar_url", Row.optStr (Contact.avatarUrl sanitizedContact))]);
    if failed result then updateCache CACHE_KEYS.CONTACTS previousCache
    else return_ ().

Definition updateContact (updated : Contact.t) : M unit :=
  stop ← refused;
  if stop then return_ ()
  else
    previousCache ← getContacts;
    let updatedCache :=
      (λ c, if String.eqb (Contact.id c) (Contact.id updated)
            then updated else c) <$> previousCache in
    updateCache CACHE_KEYS.CONTACTS updatedCache;;
    result ← await (Update "contacts"
      [("name", Row.JStr (sanitizeText (Contact.name updated)));
       ("company", Row.JStr (sanitizeText (Contact.company updated)));
       ("email", Row.JStr (sanitizeEmail (Contact.email updated)));
       ("linkedin", Row.JStr (sanitizeUrl (Contact.linkedin updated)));
       ("x_account", Row.JStr (Contact.xAccount updated));
       ("notes", Row.JStr (sanitizeText (Contact.notes updated)));
       ("date_added", Row.JStr (Contact.dateAdded updated));
       ("trace_date", Row.optStr (Contact.traceDate updated));
       ("avatar_url", Row.optStr (Contact.avatarUrl updated))]
      (Contact.id updated));
    if failed result then updateCache CACHE_KEYS.CONTACTS previousCache
    else return_ ().

Definition deleteContact (id : string) : M unit :=
  stop ← refused;
  if stop then return_ ()
  else
    previousCache ← getContacts;
    updateCache CACHE_KEYS.CONTACTS
      (filter (λ c, Contact.id c ≠ id) previousCache);;
    result ← await (Delete "contacts" id);
    if failed result then updateCache CACHE_KEYS.CONTACTS previousCache
    else return_ ().

(** *** Discoveries *)

Definition getDiscoveries : M (list Discovery.t) :=
  getCache CACHE_KEYS.DISCOVERIES.

Definition discoveryOfRow (row : Row.t) : Discovery.t :=
  let col := Row.get row in
  {| Discovery.id := Row.str (col "id");
     Discovery.title := Row.str (col "title");
     Discovery.url := Row.str (col "url");
     Discovery.description := Row.str (col "description");
     Discovery.category := Row.str (col "category");
     Discovery.impact :=
       Row.str (Row.orElse (col "impact") (Row.JStr "Linear"));
     Discovery.dateAdded := Row.str (col "date_added");
     Discovery.traceDate :=
       Row.strOpt (Row.orElse (col "trace_date") (col "date_added"));
     Discovery.pinned := Some (Row.truthy (col "pinned")) |}.

Definition fetchDiscoveries : M (list Discovery.t) :=
  configured ← ensureConfigured;
  if negb configured then getCache CACHE_KEYS.DISCOVERIES
  else
    result ← await (Select "discoveries" [("trace_date", false)]);
    if failed result then getCache CACHE_KEYS.DISCOVERIES
    else
      let discoveries := discoveryOfRow <$> default [] (data result) in
      updateCache CACHE_KEYS.DISCOVERIES discoveries;;
      return_ discoveries.

Definition saveDiscovery (discovery : Discovery.t) : M unit :=
  stop ← refused;
  if stop then return_ ()
  else
    today ← getLocalDate;
    let traceDate := Js.orElseOpt (Discovery.traceDate discovery) today in
    let sanitizedDiscovery :=
      {| Discovery.id := Discovery.id discovery;
         Discovery.title := sanitizeText (Discovery.title discovery);
         Discovery.url := sanitizeUrl (Discovery.url discovery);
         Discovery.description := sanitizeText (Discovery.description discovery);
         Discovery.category := sanitizeText (Discovery.category discovery);
         Discovery.impact := Discovery.impact discovery;
         Discovery.dateAdded := Discovery.dateAdded discovery;
         Discovery.traceDate := Some traceDate;
         Discovery.pinned := Discovery.pinned discovery |} in
    previousCache ← getDiscoveries;
    updateCache CACHE_KEYS.DISCOVERIES (sanitizedDiscovery :: previousCache);;
    result ← await (Insert "discoveries"
      [("id", Row.JStr (Discovery.id sanitizedDiscovery));
       ("title", Row.JStr (Discovery.title sanitizedDiscovery));
       ("url", Row.JStr (Discovery.url sanitizedDiscovery));
       ("description", Row.JStr (Discovery.description sanitizedDiscovery));
       ("category", Row.JStr (Discovery.category sanitizedDiscovery));
       ("impact", Row.JStr (Discovery.impact sanitizedDiscovery));
       ("date_added", Row.JStr (Discovery.dateAdded sanitizedDiscovery));
       ("trace_date", Row.optStr (Discovery.traceDate sanitizedDiscovery));
       ("pinned", Row.JBool (Js.orFalse (Discovery.pinned sanitizedDiscovery)))]);
    if failed result then updateCache CACHE_KEYS.DISCOVERIES previousCache
    else return_ ().

Definition updateDiscovery (updated : Discovery.t) : M unit :=
  stop ← refused;
  if stop then return_ ()
  else
    previousCache ← getDiscoveries;
    let updatedCache :=
      (λ d, if String.eqb (Discovery.id d) (Discovery.id updated)
            then updated else d) <$> previousCache in
    updateCache CACHE_KEYS.DISCOVERIES updatedCache;;
    result ← await (Update "discoveries"
      [("title", Row.JStr (sanitizeText (Discovery.title updated)));
       ("url", Row.JStr (sanitizeUrl (Discovery.url updated)));
       ("description", Row.JStr (sanitizeText (Discovery.description updated)));
       ("category", Row.JStr (sanitizeText (Discovery.category updated)));
       ("impact", Row.JStr (Discovery.impact updated));
       ("date_added", Row.JStr (Discovery.dateAdded updated));
       ("trace_date", Row.optStr (Discovery.traceDate updated));
       ("pinned", Row.JBool (Js.orFalse (Discovery.pinned updated)))]
      (Discovery.id updated));
    if failed result then updateCache CACHE_KEYS.DISCOVERIES previousCache
    else return_ ().

Definition deleteDiscovery (id : string) : M unit :=
  stop ← refused;
  if stop then return_ ()
  else
    previousCache ← getDiscoveries;
    updateCache CACHE_KEYS.DISCOVERIES
      (filter (λ d, Discovery.id d ≠ id) previousCache);;
    result ← await (Delete "discoveries" id);
    if failed result then updateCache CACHE_KEYS.DISCOVERIES previousCache
    else return_ ().

(** *** Expenses *)

Definition getExpenses : M (list Expense.t) :=
  getCache CACHE_KEYS.EXPENSES.

Definition expenseOfRow (row : Row.t) : Expense.t :=
  let col := Row.get row in
  {| Expense.id := Row.str (col "id");
     Expense.title := Row.str (col "title");
     Expense.amount := Row.number (col "amount");
     Expense.category := Row.str (col "category");
     Expense.date := Row.str (col "date");
     Expense.createdAt := Row.str (col "created_at");
     Expense.traceDate :=
       Row.strOpt (Row.orElse (col "trace_date") (col "date")) |}.

Definition fetchExpenses : M (list Expense.t) :=
  configured ← ensureConfigured;
  if negb configured then getCache CACHE_KEYS.EXPENSES
  else
    result ← await (Select "expenses" [("date", false)]);
    if failed result then getCache CACHE_KEYS.EXPENSES
    else
      let expenses := expenseOfRow <$> default [] (data result) in
      updateCache CACHE_KEYS.EXPENSES expenses;;
      return_ expenses.

Definition saveExpense (expense : Expense.t) : M unit :=
  stop ← refused;
  if stop then return_ ()
  else
    today ← isoDate;
    let traceDate := Js.orElseOpt (Expense.traceDate expense) today in
    let sanitizedExpense :=
      {| Expense.id := Expense.id expense;
         Expense.title := sanitizeText (Expense.title expense);
         Expense.amount := Expense.amount expense;
         Expense.category := Expense.category expense;
         Expense.date := Expense.date expense;
         Expense.createdAt := Expense.createdAt expense;
         Expense.traceDate := Some traceDate |} in
    previousCache ← getExpenses;
    updateCache CACHE_KEYS.EXPENSES (sanitizedExpense :: previousCache);;
    result ← await (Insert "expenses"
      [("id", Row.JStr (Expense.id sanitizedExpense));
       ("title", Row.JStr (Expense.title sanitizedExpense));
       ("amount", Row.JNum (Expense.amount sanitizedExpense));
       ("category", Row.JStr (Expense.category sanitizedExpense));
       ("date", Row.JStr (Expense.date sanitizedExpense));
       ("created_at", Row.JStr (Expense.createdAt sanitizedExpense));
       ("trace_date", Row.optStr (Expense.traceDate sanitizedExpense))]);
    if failed result then updateCache CACHE_KEYS.EXPENSES previousCache
    else return_ ().

Definition deleteExpense (id : string) : M unit :=
  stop ← refused;
  if stop then return_ ()
  else
    previousCache ← getExpenses;
    updateCache CACHE_KEYS.EXPENSES
      (filter (λ e, Expense.id e ≠ id) previousCache);;
    result ← await (Delete "expenses" id);
    if failed result then updateCache CACHE_KEYS.EXPENSES previousCache
    else return_ ().

(** *** [syncAll]

    [Promise.all] starts the eight fetches together; they are run here
    one after the other. *)
Definition syncAll : M unit :=
  configured ← ensureConfigured;
  if negb configured then return_ ()
  else
    fetchDailyEntries;; fetchIdeas;; fetchWeeklyOutcomes;; fetchTodos;;
    fetchDecisions;; fetchContacts;; fetchDiscoveries;; fetchExpenses;;
    return_ ().

(** *** The [Storage] object as a whole

    A call of one of its asynchronous members, with its argument. *)
Inductive Call :=
| FetchDailyEntries
| SaveDailyEntry (entry : DailyEntry.t)
| UpdateDailyEntry (updatedEntry : DailyEntry.t)
| DeleteDailyEntry (id : string)
| FetchIdeas
| SaveIdea (idea : Idea.t)
| UpdateIdea (updatedIdea : Idea.t)
| DeleteIdea (id : string)
| FetchWeeklyOutcomes
| SaveWeeklyOutcome (outcome : WeeklyOutcome.t)
| UpdateWeeklyOutcome (updated : WeeklyOutcome.t)
| DeleteWeeklyOutcome (id : string)
| FetchTodos
| SaveTodo (todo : Todo.t)
| UpdateTodo (updated : Todo.t)
| DeleteTodo (id : string)
| FetchDecisions
| SaveDecision (decision : DecisionGate.t)
| UpdateDecision (updated : DecisionGate.t)
| DeleteDecision (id : string)
| FetchContacts
| SaveContact (contact : Contact.t)
| UpdateContact (updated : Contact.t)
| DeleteContact (id : string)
| FetchDiscoveries
| SaveDiscovery (discovery : Discovery.t)
| UpdateDiscovery (updated : Discovery.t)
| DeleteDiscovery (id : string)
| FetchExpenses
| SaveExpense (expense : Expense.t)
| DeleteExpense (id : string).

Inductive Entity :=
| DailyEntries | Ideas | WeeklyOutcomes | Todos
| Decisions | Contacts | Discoveries | Expenses.

Inductive Operation := OpFetch | OpSave | OpUpdate | OpDelete.

Definition entityOf (c : Call) : Entity :=
  match c with
  | FetchDailyEntries | SaveDailyEntry _ | UpdateDailyEntry _
  | DeleteDailyEntry _ => DailyEntries
  | FetchIdeas | SaveIdea _ | UpdateIdea _ | DeleteIdea _ => Ideas
  | FetchWeeklyOutcomes | SaveWeeklyOutcome _ | UpdateWeeklyOutcome _
  | DeleteWeeklyOutcome _ => WeeklyOutcomes
  | FetchTodos | SaveTodo _ | UpdateTodo _ | DeleteTodo _ => Todos
  | FetchDecisions | SaveDecision _ | UpdateDecision _
  | DeleteDecision _ => Decisions
  | FetchContacts | SaveContact _ | UpdateContact _
  | DeleteContact _ => Contacts
  | FetchDiscoveries | SaveDiscovery _ | UpdateDiscovery _
  | DeleteDiscovery _ => Discoveries
  | FetchExpenses | SaveExpense _ | DeleteExpense _ => Expenses
  end.

Definition operationOf (c : Call) : Operation :=
  match c with
  | FetchDailyEntries | FetchIdeas | FetchWeeklyOutcomes | FetchTodos
  | FetchDecisions | FetchContacts | FetchDiscoveries
  | FetchExpenses => OpFetch
  | SaveDailyEntry _ | SaveIdea _ | SaveWeeklyOutcome _ | SaveTodo _
  | SaveDecision _ | SaveContact _ | SaveDiscovery _
  | SaveExpense _ => OpSave
  | UpdateDailyEntry _ | UpdateIdea _ | UpdateWeeklyOutcome _
  | UpdateTodo _ | UpdateDecision _ | UpdateContact _
  | UpdateDiscovery _ => OpUpdate
  | DeleteDailyEntry _ | DeleteIdea _ | DeleteWeeklyOutcome _
  | DeleteTodo _ | DeleteDecision _ | DeleteContact _
  | DeleteDiscovery _ | DeleteExpense _ => OpDelete
  end.

Definition isWrite (c : Call) : bool :=
  match operationOf c with
  | OpFetch => false
  | OpSave | OpUpdate | OpDelete => true
  end.

(** The world after the call has settled. *)
Definition run (c : Call) (w : World) : World :=
  match c with
  | FetchDailyEntries => (fetchDailyEntries w).2
  | SaveDailyEntry e => (saveDailyEntry e w).2
  | UpdateDailyEntry e => (updateDailyEntry e w).2
  | DeleteDailyEntry id => (deleteDailyEntry id w).2
  | FetchIdeas => (fetchIdeas w).2
  | SaveIdea i => (saveIdea i w).2
  | UpdateIdea i => (updateIdea i w).2
  | DeleteIdea id => (deleteIdea id w).2
  | FetchWeeklyOutcomes => (fetchWeeklyOutcomes w).2
  | SaveWeeklyOutcome o => (saveWeeklyOutcome o w).2
  | UpdateWeeklyOutcome o => (updateWeeklyOutcome o w).2
  | DeleteWeeklyOutcome id => (deleteWeeklyOutcome id w).2
  | FetchTodos => (fetchTodos w).2
  | SaveTodo t => (saveTodo t w).2
  | UpdateTodo t => (updateTodo t w).2
  | DeleteTodo id => (deleteTodo id w).2
  | FetchDecisions => (fetchDecisions w).2
  | SaveDecision d => (saveDecision d w).2
  | UpdateDecision d => (updateDecision d w).2
  | DeleteDecision id => (deleteDecision id w).2
  | FetchContacts => (fetchContacts w).2
  | SaveContact c => (saveContact c w).2
  | UpdateContact c => (updateContact c w).2
  | DeleteContact id => (deleteContact id w).2
  | FetchDiscoveries => (fetchDiscoveries w).2
  | SaveDiscovery d => (saveDiscovery d w).2
  | UpdateDiscovery d => (updateDiscovery d w).2
  | DeleteDiscovery id => (deleteDiscovery id w).2
  | FetchExpenses => (fetchExpenses w).2
  | SaveExpense e => (saveExpense e w).2
  | DeleteExpense id => (deleteExpense id w).2
  end.

(** The exchanges with the backend that the call made, most recent
    first. *)
Definition exchanges (c : Call) (w : World) : list (Request * Response) :=
  let after := journal (run c w) in
  take (length after - length (journal w)) after.

(** The call's remote operation failed for good: its last exchange
    came back with an error. *)
Definition remoteFailed (c : Call) (w : World) : bool :=
  match exchanges c w with
  | (_, r) :: _ => failed r
  | [] => false
  end.

(** What the eight [getX()] return. *)
Record Caches := mkCaches {
  dailyEntries : list DailyEntry.t;
  ideas : list Idea.t;
  weeklyOutcomes : list WeeklyOutcome.t;
  todos : list Todo.t;
  decisions : list DecisionGate.t;
  contacts : list Contact.t;
  discoveries : list Discovery.t;
  expenses : list Expense.t;
}.

Definition getAll (w : World) : Caches :=
  {| dailyEntries := (getDailyEntries w).1;
     ideas := (getIdeas w).1;
     weeklyOutcomes := (getWeeklyOutcomes w).1;
     todos := (getTodos w).1;
     decisions := (getDecisions w).1;
     contacts := (getContacts w).1;
     discoveries := (getDiscoveries w).1;
     expenses := (getExpenses w).1 |}.

(** A record of any of the eight types, to speak of "the record" of a
    call and of "the cache of its entity" for all entities at once. *)
Inductive AnyRecord :=
| ADailyEntry (e : DailyEntry.t)
| AnIdea (i : Idea.t)
| AWeeklyOutcome (o : WeeklyOutcome.t)
| ATodo (t : Todo.t)
| ADecision (d : DecisionGate.t)
| AContact (c : Contact.t)
| ADiscovery (d : Discovery.t)
| AnExpense (e : Expense.t).

Definition recordId (r : AnyRecord) : string :=
  match r with
  | ADailyEntry e => DailyEntry.id e
  | AnIdea i => Idea.id i
  | AWeeklyOutcome o => WeeklyOutcome.id o
  | ATodo t => Todo.id t
  | ADecision d => DecisionGate.id d
  | AContact c => Contact.id c
  | ADiscovery d => Discovery.id d
  | AnExpense e => Expense.id e
  end.

Definition recordTraceDate (r : AnyRecord) : option string :=
  match r with
  | ADailyEntry e => DailyEntry.traceDate e
  | AnIdea i => Idea.traceDate i
  | AWeeklyOutcome o => WeeklyOutcome.traceDate o
  | ATodo t => Todo.traceDate t
  | ADecision d => DecisionGate.traceDate d
  | AContact c => Contact.traceDate c
  | ADiscovery d => Discovery.traceDate d
  | AnExpense e => Expense.traceDate e
  end.

(** The record given to [saveX] or [updateX]. *)
Definition argument (c : Call) : option AnyRecord :=
  match c with
  | SaveDailyEntry e | UpdateDailyEntry e => Some (ADailyEntry e)
  | SaveIdea i | UpdateIdea i => Some (AnIdea i)
  | SaveWeeklyOutcome o | UpdateWeeklyOutcome o => Some (AWeeklyOutcome o)
  | SaveTodo t | UpdateTodo t => Some (ATodo t)
  | SaveDecision d | UpdateDecision d => Some (ADecision d)
  | SaveContact c | UpdateContact c => Some (AContact c)
  | SaveDiscovery d | UpdateDiscovery d => Some (ADiscovery d)
  | SaveExpense e => Some (AnExpense e)
  | _ => None
  end.

(** What [getX()] returns for the entity. *)
Definition cached (e : Entity) (w : World) : list AnyRecord :=
  match e with
  | DailyEntries => ADailyEntry <$> (getDailyEntries w).1
  | Ideas => AnIdea <$> (getIdeas w).1
  | WeeklyOutcomes => AWeeklyOutcome <$> (getWeeklyOutcomes w).1
  | Todos => ATodo <$> (getTodos w).1
  | Decisions => ADecision <$> (getDecisions w).1
  | Contacts => AContact <$> (getContacts w).1
  | Discoveries => ADiscovery <$> (getDiscoveries w).1
  | Expenses => AnExpense <$> (getExpenses w).1
  end.

(** Both gates of a write are open: the rate limiter grants the request
    and the backend is configured. *)
Definition admitted (w : World) : bool :=
  (canMakeRequest (clock w) (rateLimiter w)).1 && isSupabaseConfigured.

(** The row of an [insert] or [update]. *)
Definition payload (req : Request) : Row.t :=
  match req with
  | Insert _ row | Update _ row _ => row
  | Select _ _ | Delete _ _ => []
  end.

(** Whether the request names the column: in its row, or in its ordering
    for a [select]. *)
Definition mentions (col : string) (req : Request) : bool :=
  match req with
  | Select _ order => bool_decide (col ∈ order.*1)
  | Insert _ row | Update _ row _ => bool_decide (col ∈ row.*1)
  | Delete _ _ => false
  end.

(** The call [fetchX()] of an entity. *)
Definition fetchOf (e : Entity) : Call :=
  match e with
  | DailyEntries => FetchDailyEntries
  | Ideas => FetchIdeas
  | WeeklyOutcomes => FetchWeeklyOutcomes
  | Todos => FetchTodos
  | Decisions => FetchDecisions
  | Contacts => FetchContacts
  | Discoveries => FetchDiscoveries
  | Expenses => FetchExpenses
  end.

(** The array that [fetchX()] resolves to. *)
Definition fetched (e : Entity) (w : World) : list AnyRecord :=
  match e with
  | DailyEntries => ADailyEntry <$> (fetchDailyEntries w).1
  | Ideas => AnIdea <$> (fetchIdeas w).1
  | WeeklyOutcomes => AWeeklyOutcome <$> (fetchWeeklyOutcomes w).1
  | Todos => ATodo <$> (fetchTodos w).1
  | Decisions => ADecision <$> (fetchDecisions w).1
  | Contacts => AContact <$> (fetchContacts w).1
  | Discoveries => ADiscovery <$> (fetchDiscoveries w).1
  | Expenses => AnExpense <$> (fetchExpenses w).1
  end.

(** The arrow function that [fetchX] maps over the rows; [today] is the
    [getLocalDate()] that the one of [fetchTodos] falls back to. *)
Definition ofRow (e : Entity) (today : string) (row : Row.t) : AnyRecord :=
  match e with
  | DailyEntries => ADailyEntry (dailyEntryOfRow row)
  | Ideas => AnIdea (ideaOfRow row)
  | WeeklyOutcomes => AWeeklyOutcome (weeklyOutcomeOfRow row)
  | Todos => ATodo (todoOfRow today row)
  | Decisions => ADecision (decisionOfRow row)
  | Contacts => AContact (contactOfRow row)
  | Discoveries => ADiscovery (discoveryOfRow row)
  | Expenses => AnExpense (expenseOfRow row)
  end.

(** What [localStorage] holds under the key of an entity. *)
Definition stored (e : Entity) (s : LocalStorage) : Slot AnyRecord :=
  let any {T} (inj : T → AnyRecord) (slot : Slot T) : Slot AnyRecord :=
    match slot with
    | Missing => Missing
    | Unparsable => Unparsable
    | Stored items => Stored (inj <$> items)
    end in
  match e with
  | DailyEntries => any ADailyEntry (aj26_daily_logs s)
  | Ideas => any AnIdea (aj26_ideas s)
  | WeeklyOutcomes => any AWeeklyOutcome (aj26_weekly_engine s)
  | Todos => any ATodo (aj26_todos s)
  | Decisions => any ADecision (aj26_decisions s)
  | Contacts => any AContact (aj26_contacts s)
  | Discoveries => any ADiscovery (aj26_discoveries s)
  | Expenses => any AnExpense (aj26_expenses s)
  end.

(** The record with its optional flags read as the module reads them when
    it builds a row: [x.pinned || false], [x.executed || false],
    [x.reviewGenerated || false], [x.position || 0]. *)
Definition withDefaults (r : AnyRecord) : AnyRecord :=
  match r with
  | ADailyEntry e =>
      ADailyEntry
        {| DailyEntry.id := DailyEntry.id e;
           DailyEntry.date := DailyEntry.date e;
           DailyEntry.workedOn := DailyEntry.workedOn e;
           DailyEntry.shipped := DailyEntry.shipped e;
           DailyEntry.traceDate := DailyEntry.traceDate e;
           DailyEntry.pinned := Some (Js.orFalse (DailyEntry.pinned e));
           DailyEntry.position := Some (Js.orZero (DailyEntry.position e)) |}
  | AnIdea i =>
      AnIdea
        {| Idea.id := Idea.id i;
           Idea.date := Idea.date i;
           Idea.thought := Idea.thought i;
           Idea.category := Idea.category i;
           Idea.urgency := Idea.urgency i;
           Idea.status := Idea.status i;
           Idea.platform := Idea.platform i;
           Idea.executed := Some (Js.orFalse (Idea.executed i));
           Idea.pinned := Some (Js.orFalse (Idea.pinned i));
           Idea.traceDate := Idea.traceDate i |}
  | AWeeklyOutcome o =>
      AWeeklyOutcome
        {| WeeklyOutcome.id := WeeklyOutcome.id o;
           WeeklyOutcome.weekStarting := WeeklyOutcome.weekStarting o;
           WeeklyOutcome.build := WeeklyOutcome.build o;
           WeeklyOutcome.ship := WeeklyOutcome.ship o;
           WeeklyOutcome.learn := WeeklyOutcome.learn o;
           WeeklyOutcome.status := WeeklyOutcome.status o;
           WeeklyOutcome.reviewGenerated :=
             Some (Js.orFalse (WeeklyOutcome.reviewGenerated o));
           WeeklyOutcome.traceDate := WeeklyOutcome.traceDate o |}
  | ATodo t =>
      ATodo
        {| Todo.id := Todo.id t;
           Todo.title := Todo.title t;
           Todo.details := Todo.details t;
           Todo.deadline := Todo.deadline t;
           Todo.priority := Todo.priority t;
           Todo.status := Todo.status t;
           Todo.completed := Todo.completed t;
           Todo.createdAt := Todo.createdAt t;
           Todo.traceDate := Todo.traceDate t;
           Todo.timeSlot := Todo.timeSlot t;
           Todo.targetTime := Todo.targetTime t;
           Todo.pinned := Some (Js.orFalse (Todo.pinned t));
           Todo.completedAt := Todo.completedAt t |}
  | ADiscovery d =>
      ADiscovery
        {| Discovery.id := Discovery.id d;
           Discovery.title := Discovery.title d;
           Discovery.url := Discovery.url d;
           Discovery.description := Discovery.description d;
           Discovery.category := Discovery.category d;
           Discovery.impact := Discovery.impact d;
           Discovery.dateAdded := Discovery.dateAdded d;
           Discovery.traceDate := Discovery.traceDate d;
           Discovery.pinned := Some (Js.orFalse (Discovery.pinned d)) |}
  | ADecision _ | AContact _ | AnExpense _ => r
  end.

(** The texts that [saveX] sends and that [fetchX] reads with a fallback,
    which takes the place of an empty text: the status of a decision
    ([row.status || ...]), its sanitized decision
    ([row.decision || row.project_title]) and, when the status is
    [Decided], its sanitized outcome ([row.outcome || row.result]); the
    impact of a discovery ([row.impact || 'Linear']). *)
Definition fallbackFields (r : AnyRecord) : list string :=
  match r with
  | ADecision d =>
      DecisionGate.status d
      :: sanitizeText (DecisionGate.decision d)
      :: (if String.eqb (DecisionGate.status d) "Decided"
          then [sanitizeText (DecisionGate.outcome d)] else [])
  | ADiscovery d => [Discovery.impact d]
  | _ => []
  end.

(** The identifier given to [deleteX]. *)
Definition target (c : Call) : option string :=
  match c with
  | DeleteDailyEntry id | DeleteIdea id | DeleteWeeklyOutcome id
  | DeleteTodo id | DeleteDecision id | DeleteContact id
  | DeleteDiscovery id | DeleteExpense id => Some id
  | _ => None
  end.

(** The exchanges that [syncAll()] made, most recent first. *)
Definition syncExchanges (w : World) : list (Request * Response) :=
  let after := journal (syncAll w).2 in
  take (length after - length (journal w)) after.

(** The tables of the backend. *)
Definition tableOf (e : Entity) : string :=
  match e with
  | DailyEntries => "daily_entries"
  | Ideas => "ideas"
  | WeeklyOutcomes => "weekly_outcomes"
  | Todos => "todos"
  | Decisions => "decision_gates"
  | Contacts => "contacts"
  | Discoveries => "discoveries"
  | Expenses => "expenses"
  end.

(** Whether the request only reads. *)
Definition isSelect (req : Request) : bool :=
  match req with
  | Select _ _ => true
  | Insert _ _ | Update _ _ _ | Delete _ _ => false
  end.

(** The columns that [fetchX] reads, each with what the field it goes to
    can hold. *)
Definition schema (e : Entity) : list (string * Row.Column) :=
  match e with
  | DailyEntries =>
      [("id", Row.Text); ("date", Row.Text); ("worked_on", Row.Text);
       ("shipped", Row.Text); ("trace_date", Row.OptText);
       ("pinned", Row.OptFlag); ("position", Row.OptNumber)]
  | Ideas =>
      [("id", Row.Text); ("date", Row.Text); ("thought", Row.Text);
       ("category", Row.Text); ("urgency", Row.Text); ("status", Row.Text);
       ("platform", Row.OptText); ("executed", Row.OptFlag);
       ("pinned", Row.OptFlag); ("trace_date", Row.OptText)]
  | WeeklyOutcomes =>
      [("id", Row.Text); ("week_starting", Row.Text); ("build", Row.Text);
       ("ship", Row.Text); ("learn", Row.Text); ("status", Row.Text);
       ("review_generated", Row.OptFlag); ("trace_date", Row.OptText)]
  | Todos =>
      [("id", Row.Text); ("title", Row.Text); ("details", Row.Text);
       ("deadline", Row.Text); ("priority", Row.Text); ("status", Row.Text);
       ("completed", Row.Flag); ("created_at", Row.Text);
       ("trace_date", Row.OptText); ("time_slot", Row.OptText);
       ("target_time", Row.OptText); ("pinned", Row.OptFlag);
       ("completed_at", Row.OptText)]
  | Decisions =>
      [("id", Row.Text); ("date", Row.Text); ("decision", Row.OptText);
       ("project_title", Row.OptText); ("outcome", Row.OptText);
       ("result", Row.OptText); ("status", Row.OptText);
       ("trace_date", Row.OptText)]
  | Contacts =>
      [("id", Row.Text); ("name", Row.Text); ("company", Row.Text);
       ("email", Row.Text); ("linkedin", Row.Text); ("x_account", Row.Text);
       ("notes", Row.Text); ("date_added", Row.Text);
       ("trace_date", Row.OptText); ("avatar_url", Row.OptText)]
  | Discoveries =>
      [("id", Row.Text); ("title", Row.Text); ("url", Row.Text);
       ("description", Row.Text); ("category", Row.Text);
       ("impact", Row.OptText); ("date_added", Row.Text);
       ("trace_date", Row.OptText); ("pinned", Row.OptFlag)]
  | Expenses =>
      [("id", Row.Text); ("title", Row.Text); ("amount", Row.Amount);
       ("category", Row.Text); ("date", Row.Text); ("created_at", Row.Text);
       ("trace_date", Row.OptText)]
  end.

(** A row that carries the types of its columns, so that the record of
    the model is the object that the arrow function of [fetchX] builds:
    every column holds what [schema] says, and a decision has a text for
    its decision and, when it is decided, for its outcome. *)
Definition wellTyped (e : Entity) (row : Row.t) : bool :=
  forallb (λ ck, Row.holds ck.2 (Row.get row ck.1)) (schema e)
  && match e with
     | Decisions =>
         Row.truthy (Row.orElse (Row.get row "decision")
                       (Row.get row "project_title"))
         && (negb (bool_decide (Row.get row "status" = Row.JStr "Decided"))
             || Row.truthy (Row.orElse (Row.get row "outcome")
                              (Row.get row "result")))
     | _ => true
     end.

(** The amount of an expense row is one that [Number] reads as a number
    of the model, and not [NaN], which the cache would hold as [null]. *)
Definition amountReads (e : Entity) (row : Row.t) : bool :=
  match e with
  | Expenses => Row.numeric (Row.get row "amount")
  | _ => true
  end.

End Engine.

End Store.

(** ** The [TodoList] component: completing a task *)

Module TodoList.

Import Store.
Local Open Scope store_scope.

(** [{ ...todo, completed, status, completedAt }]. *)
Definition withCompletion (todo : Todo.t) (completed : bool)
    (status : string) (completedAt : option string) : Todo.t :=
  {| Todo.id := Todo.id todo;
     Todo.title := Todo.title todo;
     Todo.details := Todo.details todo;
     Todo.deadline := Todo.deadline todo;
     Todo.priority := Todo.priority todo;
     Todo.status := status;
     Todo.completed := completed;
     Todo.createdAt := Todo.createdAt todo;
     Todo.traceDate := Todo.traceDate todo;
     Todo.timeSlot := Todo.timeSlot todo;
     Todo.targetTime := Todo.targetTime todo;
     Todo.pinned := Todo.pinned todo;
     Todo.completedAt := completedAt |}.

(** The constant [updated] of [toggleComplete], with [now] the time value
    of [new Date()]. *)
Definition toggled (now : Z) (todo : Todo.t) : Todo.t :=
  let isCompleting := negb (Todo.completed todo) in
  withCompletion todo isCompleting
    (if isCompleting then "Completed" else "Pending")
    (if isCompleting then Some (JsDate.toISOString now) else None).

(** The constant [updated] of [updateStatus]. *)
Definition restated (now : Z) (todo : Todo.t) (status : string) : Todo.t :=
  let isCompleting :=
    String.eqb status "Completed" && negb (Todo.completed todo) in
  let isUncompleting :=
    negb (String.eqb status "Completed") && Todo.completed todo in
  withCompletion todo (String.eqb status "Completed") status
    (if isCompleting then Some (JsDate.toISOString now)
     else if isUncompleting then None else Todo.completedAt todo).

(** [todos.map(t => t.id === todo.id ? updated : t)]. *)
Definition replaceById (todos : list Todo.t) (id : string)
    (updated : Todo.t) : list Todo.t :=
  (λ t, if String.eqb (Todo.id t) id then updated else t) <$> todos.

Section View.

Context `{security : Security, supabase : Supabase, host : Host}.

(** The component's state [todos] goes in and the argument of
    [setTodos] comes out. *)
Definition toggleComplete (todos : list Todo.t) (todo : Todo.t)
    : M (list Todo.t) :=
  λ w,
    let updated := toggled (clock w) todo in
    (_ ← updateTodo updated;
     return_ (replaceById todos (Todo.id todo) updated)) w.

Definition updateStatus (todos : list Todo.t) (todo : Todo.t)
    (status : string) : M (list Todo.t) :=
  λ w,
    let updated := restated (clock w) todo status in
    (_ ← updateTodo updated;
     return_ (replaceById todos (Todo.id todo) updated)) w.

End View.

(** [completed === (status === 'Completed')]. *)
Definition consistent (todo : Todo.t) : Prop :=
  Todo.completed todo = String.eqb (Todo.status todo) "Completed".

(** The constant [updated] of [togglePin]: [{ ...todo, pinned: !todo.pinned }]. *)
Definition repinned (todo : Todo.t) : Todo.t :=
  {| Todo.id := Todo.id todo;
     Todo.title := Todo.title todo;
     Todo.details := Todo.details todo;
     Todo.deadline := Todo.deadline todo;
     Todo.priority := Todo.priority todo;
     Todo.status := Todo.status todo;
     Todo.completed := Todo.completed todo;
     Todo.createdAt := Todo.createdAt todo;
     Todo.traceDate := Todo.traceDate todo;
     Todo.timeSlot := Todo.timeSlot todo;
     Todo.targetTime := Todo.targetTime todo;
     Todo.pinned := Some (negb (Js.orFalse (Todo.pinned todo)));
     Todo.completedAt := Todo.completedAt todo |}.

(** One entry of the array that [groupTodosByDate] returns. *)
Record Group := mkGroup {
  date : string;
  todos : list Todo.t;
  isOverdue : bool;
  isToday : bool;
  isCompleted : bool;
  isPinned : bool;
  completionDate : option string;
}.

(** [priorityOrder[p]] and [timeSlotOrder[s]]: [undefined] for a key that
    the object literal does not have. *)
Definition priorityOrder (p : string) : option Z :=
  if String.eqb p "Critical" then Some 0
  else if String.eqb p "High" then Some 1
  else if String.eqb p "Medium" then Some 2
  else if String.eqb p "Low" then Some 3
  else None.

Definition timeSlotOrder (s : string) : option Z :=
  if String.eqb s "Morning" then Some 0
  else if String.eqb s "Afternoon" then Some 1
  else if String.eqb s "Evening" then Some 2
  else if String.eqb s "Night" then Some 3
  else if String.eqb s "Anytime" then Some 4
  else None.

(** [x - y] as the result of a comparator: [undefined - n] is [NaN], which
    [sort] takes for 0. *)
Definition difference (x y : option Z) : Z := Js.orZero (Js.sub x y).

(** The comparators given to [sort]: for the pinned tasks, for the tasks
    of a date, and for the tasks completed on a date. *)
Definition comparePinned (a b : Todo.t) : Z :=
  let pa := priorityOrder (Todo.priority a) in
  let pb := priorityOrder (Todo.priority b) in
  if negb (bool_decide (pa = pb)) then difference pa pb
  else if negb (String.eqb (Todo.deadline a) (Todo.deadline b))
       then Js.localeCompare (Todo.deadline a) (Todo.deadline b)
       else 0.

Definition comparePending (a b : Todo.t) : Z :=
  let pa := priorityOrder (Todo.priority a) in
  let pb := priorityOrder (Todo.priority b) in
  if negb (bool_decide (pa = pb)) then difference pa pb
  else
    let aSlot := Js.orElseOpt (Todo.timeSlot a) "Anytime" in
    let bSlot := Js.orElseOpt (Todo.timeSlot b) "Anytime" in
    let sa := timeSlotOrder aSlot in
    let sb := timeSlotOrder bSlot in
    if negb (bool_decide (sa = sb)) then difference sa sb
    else
      let aTime := Js.orElseOpt (Todo.targetTime a) "" in
      let bTime := Js.orElseOpt (Todo.targetTime b) "" in
      if Js.truthy aTime && Js.truthy bTime then Js.localeCompare aTime bTime
      else if Js.truthy aTime then -1
      else if Js.truthy bTime then 1
      else 0.

Definition compareCompleted (a b : Todo.t) : Z :=
  let aAt := Js.orElseOpt (Todo.completedAt a) "" in
  let bAt := Js.orElseOpt (Todo.completedAt b) "" in
  if Js.truthy aAt && Js.truthy bAt then Js.localeCompare bAt aAt else 0.

(** The comparators of the group keys: dates before [today] first, and
    the most recent completion date first with [unknown] last. *)
Definition comparePendingDates (today a b : string) : Z :=
  if Js.strLt a today && Js.strLe today b then -1
  else if Js.strLt b today && Js.strLe today a then 1
  else Js.localeCompare a b.

Definition compareCompletedDates (a b : string) : Z :=
  if String.eqb a "unknown" then 1
  else if String.eqb b "unknown" then -1
  else Js.localeCompare b a.


Definition byPriority (a b : Todo.t) : Prop :=
  difference (priorityOrder (Todo.priority a))
    (priorityOrder (Todo.priority b)) ≤ 0.

Definition slotOf (t : Todo.t) : option Z :=
  timeSlotOrder (Js.orElseOpt (Todo.timeSlot t) "Anytime").

Definition byPriorityThenSlot (a b : Todo.t) : Prop :=
  difference (priorityOrder (Todo.priority a))
    (priorityOrder (Todo.priority b)) < 0
  ∨ (priorityOrder (Todo.priority a) = priorityOrder (Todo.priority b)
     ∧ difference (slotOf a) (slotOf b) ≤ 0).

Definition typed (t : Todo.t) : Prop :=
  is_Some (priorityOrder (Todo.priority t)) ∧ is_Some (slotOf t).

Section Grouping.

Context `{host : Host}.

(** [getLocalDate(new Date(t.completedAt))], where there is a
    [completedAt]. *)
Definition completedDate (t : Todo.t) : option string :=
  let completedAt := Js.orElseOpt (Todo.completedAt t) "" in
  if Js.truthy completedAt
  then Some (DateLib.getLocalDate tza (dateParse completedAt))
  else None.


(** [todos], [filter] and [completedDateFilter] are the state of the
    component; [today] is [getLocalDate()]. *)
Definition getFilteredTodos (today filter completedDateFilter : string)
    (todos : list Todo.t) : list Todo.t :=
  let filtered :=
    if String.eqb filter "today" then
      base.filter (λ t, Todo.deadline t = today ∧ Todo.completed t = false)
        todos
    else if String.eqb filter "upcoming" then
      base.filter (λ t, Js.strLt today (Todo.deadline t) = true
                        ∧ Todo.completed t = false) todos
    else if String.eqb filter "completed" then
      base.filter (λ t, Todo.completed t = true) todos
    else todos in
  if Js.truthy completedDateFilter && String.eqb filter "completed" then
    base.filter (λ t, completedDate t = Some completedDateFilter) filtered
  else filtered.

Definition groupTodosByDate (today filter : string) (todoList : list Todo.t)
    : list Group :=
  let pendingTodos := base.filter (λ t, Todo.completed t = false) todoList in
  let completedTodos := base.filter (λ t, Todo.completed t = true) todoList in
  let pinnedTodos :=
    base.filter (λ t, Js.orFalse (Todo.pinned t) = true) pendingTodos in
  let unpinnedTodos :=
    base.filter (λ t, Js.orFalse (Todo.pinned t) = false) pendingTodos in
  let pendingGroups := Js.groupBy Todo.deadline unpinnedTodos in
  let sortedPendingDates :=
    Js.sort (comparePendingDates today) (Js.keys pendingGroups) in
  let pinnedGroup :=
    if (0 <? length pinnedTodos)%nat
    then [mkGroup "pinned" (Js.sort comparePinned pinnedTodos)
            false false false true None]
    else [] in
  let dateGroups :=
    (λ date,
       mkGroup date (Js.sort comparePending (Js.at_ pendingGroups date))
         (Js.strLt date today) (String.eqb date today) false false None)
      <$> sortedPendingDates in
  let completedSection :=
    if (0 <? length completedTodos)%nat
       && (String.eqb filter "all" || String.eqb filter "completed")
    then
      let completedGroups :=
        Js.groupBy (λ todo, default "unknown" (completedDate todo))
          completedTodos in
      let sortedCompletedDates :=
        Js.sort compareCompletedDates (Js.keys completedGroups) in
      (λ date,
         mkGroup date (Js.sort compareCompleted (Js.at_ completedGroups date))
           false false true false (Some date))
        <$> sortedCompletedDates
    else [] in
  (pinnedGroup ++ dateGroups ++ completedSection)%list.

End Grouping.

End TodoList.

(** ** Orderings of the views *)

Module IdeaInbox.

(** The comparator given to [ideas.sort]. *)
Definition compareIdeas (a b : Idea.t) : Z :=
  let aExecuted := Js.orFalse (Idea.executed a) in
  let bExecuted := Js.orFalse (Idea.executed b) in
  if negb (Bool.eqb aExecuted bExecuted) then (if aExecuted then 1 else -1)
  else
    let aPinned := Js.orFalse (Idea.pinned a) in
    let bPinned := Js.orFalse (Idea.pinned b) in
    if negb (Bool.eqb aPinned bPinned) then (if aPinned then -1 else 1)
    else
      Js.localeCompare (Js.orElseOpt (Idea.traceDate b) (Idea.date b))
                       (Js.orElseOpt (Idea.traceDate a) (Idea.date a)).

(** The list as rendered. *)
Definition sorted (ideas : list Idea.t) : list Idea.t :=
  Js.sort compareIdeas ideas.

(** The coarse order that the comparator refines by date: unexecuted ideas
    before executed ones, and among either the pinned before the
    unpinned. *)
Definition rank (i : Idea.t) : nat :=
  ((if Js.orFalse (Idea.executed i) then 2 else 0)
   + (if Js.orFalse (Idea.pinned i) then 0 else 1))%nat.

End IdeaInbox.

Module Discoveries.

Definition compareDiscoveries (a b : Discovery.t) : Z :=
  let aPinned := Js.orFalse (Discovery.pinned a) in
  let bPinned := Js.orFalse (Discovery.pinned b) in
  if aPinned && negb bPinned then -1
  else if negb aPinned && bPinned then 1
  else
    Js.localeCompare
      (Js.orElseOpt (Discovery.traceDate b) (Discovery.dateAdded b))
      (Js.orElseOpt (Discovery.traceDate a) (Discovery.dateAdded a)).

Definition sorted (discoveries : list Discovery.t) : list Discovery.t :=
  Js.sort compareDiscoveries discoveries.

End Discoveries.

Module Dashboard.

(** The coarse order of [sortByPinned] and of the discoveries list: pinned
    records before the others. *)
Definition pinRank {T} (pinned : T → option bool) (x : T) : nat :=
  if Js.orFalse (pinned x) then 0%nat else 1%nat.

(** [sortByPinned], generic in the record: [pinned] reads its optional
    flag. *)
Definition sortByPinned {T} (pinned : T → option bool) (items : list T)
    : list T :=
  Js.sort (λ a b,
    if Js.orFalse (pinned a) && negb (Js.orFalse (pinned b)) then -1
    else if negb (Js.orFalse (pinned a)) && Js.orFalse (pinned b) then 1
    else 0) items.

(** [recentIdeas] and [recentDiscoveries] of [loadAllData]. *)
Definition recentIdeas (ideas : list Idea.t) : list Idea.t :=
  let inboxIdeas := filter (λ i, Idea.status i = "Inbox") ideas in
  take 3 (sortByPinned Idea.pinned inboxIdeas).

Definition recentDiscoveries (discoveries : list Discovery.t)
    : list Discovery.t :=
  take 3 (sortByPinned Discovery.pinned discoveries).

(** The three lists of tasks of [loadAllData]; [today] is
    [getLocalDate()]. *)
Definition pinnedTasks (todos : list Todo.t) : list Todo.t :=
  filter (λ t, Js.orFalse (Todo.pinned t) = true ∧ Todo.completed t = false)
    todos.

Definition overdueTasks (today : string) (todos : list Todo.t)
    : list Todo.t :=
  filter (λ t, Js.strLt (Todo.deadline t) today = true
               ∧ Todo.completed t = false
               ∧ Js.orFalse (Todo.pinned t) = false) todos.

Definition todayTasks (today : string) (todos : list Todo.t) : list Todo.t :=
  filter (λ t, Todo.deadline t = today
               ∧ Todo.completed t = false
               ∧ Js.orFalse (Todo.pinned t) = false) todos.

(** The constant [updated] of the dashboard's [toggleComplete]:
    [{ ...todo, completed: !todo.completed, status: ... }]. *)
Definition toggled (todo : Todo.t) : Todo.t :=
  TodoList.withCompletion todo (negb (Todo.completed todo))
    (if negb (Todo.completed todo) then "Completed" else "Pending")
    (Todo.completedAt todo).

(** The states [todayTodos], [overdueTodos] and [pinnedTodos]. *)
Record TaskLists := mkTaskLists {
  todayTodos : list Todo.t;
  overdueTodos : list Todo.t;
  pinnedTodos : list Todo.t;
}.

Section View.

Import Store.
Local Open Scope store_scope.

Context `{security : Security, supabase : Supabase, host : Host}.

(** The lists go in and the results of the three [setX(prev => ...)] come
    out. *)
Definition toggleComplete (lists : TaskLists) (todo : Todo.t)
    : M TaskLists :=
  let updated := toggled todo in
  updateTodo updated;;
  today ← Store.getLocalDate;
  let without := filter (λ t, Todo.id t ≠ Todo.id todo) in
  return_ (mkTaskLists (without (todayTodos lists))
             (without (overdueTodos lists)) (without (pinnedTodos lists))).

End View.

End Dashboard.

(** ** The [DailyCapture] component: moving an entry *)

Module DailyCapture.

(** The type ['up' | 'down'] of the parameter [direction]. *)
Inductive Direction := Up | Down.

#[global] Instance Direction_eq_dec : EqDecision Direction.
Proof. solve_decision. Defined.

(** [{ ...e, position: i }]. *)
Definition withPosition (i : nat) (e : DailyEntry.t) : DailyEntry.t :=
  {| DailyEntry.id := DailyEntry.id e;
     DailyEntry.date := DailyEntry.date e;
     DailyEntry.workedOn := DailyEntry.workedOn e;
     DailyEntry.shipped := DailyEntry.shipped e;
     DailyEntry.traceDate := DailyEntry.traceDate e;
     DailyEntry.pinned := DailyEntry.pinned e;
     DailyEntry.position := Some (Z.of_nat i) |}.

(** [handleMove], up to [setEntries]: the array [repositionedEntries] that
    becomes the state, and whose elements are then given to
    [Storage.updateDailyEntry], one call each, all started together;
    [None] when the function returns before.  The two indices are within
    the array where it is written. *)
Definition handleMove (entries : list DailyEntry.t) (id : string)
    (direction : Direction) : option (list DailyEntry.t) :=
  let currentIndex :=
    Js.findIndex (λ e, String.eqb (DailyEntry.id e) id) entries in
  if currentIndex =? -1 then None
  else if bool_decide (direction = Up) && (currentIndex =? 0) then None
  else if bool_decide (direction = Down)
          && (currentIndex =? Z.of_nat (length entries) - 1) then None
  else
    let targetIndex :=
      if bool_decide (direction = Up) then currentIndex - 1
      else currentIndex + 1 in
    let i := Z.to_nat currentIndex in
    let j := Z.to_nat targetIndex in
    match entries !! i, entries !! j with
    | Some temp, Some other =>
        let newEntries := <[j := temp]> (<[i := other]> entries) in
        Some (imap withPosition newEntries)
    | _, _ => None
    end.

End DailyCapture.

(** ** The [ContactManager] component: role and company *)

Module ContactManager.

(** The four separators, in the order in which they are tried. *)
Definition separators : list string := [" at "; " @ "; " - "; " | "].

(** [const [role, company] = str.split(sep)]: the first two pieces; a
    string that includes [sep] has two at least. *)
Fixpoint parseWith (seps : list string) (str : string) : string * string :=
  match seps with
  | [] => ("", str)
  | sep :: rest =>
      if Js.includesText sep str
      then match Js.splitOn sep str with
           | role :: company :: _ => (Js.trim role, Js.trim company)
           | _ => ("", str)
           end
      else parseWith rest str
  end.

(** [parseCompanyData(str)]: the pair of [role] and [company]. *)
Definition parseCompanyData (str : string) : string * string :=
  if negb (Js.truthy str) then ("", "") else parseWith separators str.

(** [combinedCompany] of [handleSave] and [handleSubmit]. *)
Definition combinedCompany (role company : string) : string :=
  if Js.truthy role && Js.truthy company
  then role +:+ " at " +:+ company
  else Js.orElse role company.

End ContactManager.

(** ** The [Insights] component: the logging streak *)

Module Insights.

Definition SYSTEM_START_DATE : string := "2026-01-12".

(** [logs.filter(l => l.date >= SYSTEM_START_DATE)] of [loadData]. *)
Definition loadDailyLogs (logs : list DailyEntry.t) : list DailyEntry.t :=
  filter (λ l, Js.strLe SYSTEM_START_DATE (DailyEntry.date l) = true) logs.

Section Metrics.

(** The host's zone and the time value of [new Date()].  The component
    reads the clock once for [daysSinceStart] and again for [today];
    the two readings are taken to be the same instant. *)
Variable tza : Z.
Variable now : Z.

Definition formatDate (date : JsDate.Date) : string :=
  DateLib.getLocalDate tza date.

(** [Math.floor((now - start) / (1000 * 60 * 60 * 24))], with [start]
    the UTC midnight that [new Date('2026-01-12')] is. *)
Definition daysSinceStart : Z :=
  (now - JsDate.utcMidnight 2026 1 12) / JsDate.msPerDay.

(** The [i]-th element of [Array.from({ length: maxDays }, ...)]. *)
Definition dayBack (i : Z) : string :=
  let today : JsDate.Date := Some now in
  formatDate
    (JsDate.setDate tza today (Js.sub (JsDate.getDate tza today) (Some i))).

Definition last30Days : list string :=
  let maxDays := Z.min 30 (daysSinceStart + 1) in
  filter (λ d, Js.strLe SYSTEM_START_DATE d = true)
    (dayBack <$> seqZ 0 maxDays).

(** [[...new Set(dailyLogs.map(l => l.date))].sort().reverse()]. *)
Definition logDates (dailyLogs : list DailyEntry.t) : list string :=
  reverse (Js.sortStrings (Js.unique (DailyEntry.date <$> dailyLogs) [])).

(** The [for] loop over [last30Days]: [days] is what is left of it from
    index [i] on. *)
Fixpoint streakLoop (dates : list string) (days : list string) (i : nat)
    (streak : nat) : nat :=
  match days with
  | [] => streak
  | d :: rest =>
      if Js.includes dates d then streakLoop dates rest (S i) (S streak)
      else if (0 <? i)%nat then streak
      else streakLoop dates rest (S i) streak
  end.

Definition streak (dailyLogs : list DailyEntry.t) : nat :=
  streakLoop (logDates dailyLogs) last30Days 0 0.

(** Whether some daily entry carries the date [d]. *)
Definition hasEntry (dailyLogs : list DailyEntry.t) (d : string) : bool :=
  bool_decide (d ∈ DailyEntry.date <$> dailyLogs).

(** [last7Days], and the counts of logged days. *)
Definition last7Days : list string :=
  take (Nat.min 7 (length last30Days)) last30Days.

Definition daysLoggedThisWeek (dailyLogs : list DailyEntry.t) : nat :=
  length (filter (λ d, Js.includes (logDates dailyLogs) d = true) last7Days).

Definition daysLoggedLast30 (dailyLogs : list DailyEntry.t) : nat :=
  length (filter (λ d, Js.includes (logDates dailyLogs) d = true) last30Days).

(** [getWeekStart]: the Monday of the week of [date], at midnight. *)
Definition getWeekStart (date : JsDate.Date) : JsDate.Date :=
  let d := date in
  let day := JsDate.getDay tza d in
  let diff :=
    Js.add (Js.sub (JsDate.getDate tza d) day)
      (if bool_decide (day = Some 0) then Some (-6) else Some 1) in
  let d := JsDate.setDate tza d diff in
  JsDate.setHours tza d (Some 0) (Some 0) (Some 0) (Some 0).

(** [getWeekLabel].  The difference of two time values and its quotients
    are whole numbers in the model; in floating point they are exact for
    all dates but those at the very ends of the range. *)
Definition getWeekLabel (weekStart : JsDate.Date) : string :=
  let currentWeekStart := getWeekStart (Some now) in
  let diffDays :=
    t ← Js.sub currentWeekStart weekStart; Some (t / JsDate.msPerDay) in
  let diffWeeks := d ← diffDays; Some (d / 7) in
  if bool_decide (diffWeeks = Some 0) then "This Week"
  else if bool_decide (diffWeeks = Some 1) then "Last Week"
  else Js.toString diffWeeks +:+ " Weeks Ago".

(** The week start of the [i]-th round of the loop of [weeklyBreakdown]:
    [getWeekStart(new Date(today.getTime() - i * 7 * 24 * 60 * 60 * 1000))]. *)
Definition weekStartBack (i : Z) : JsDate.Date :=
  getWeekStart (JsDate.timeClip (now - i * 7 * 24 * 60 * 60 * 1000)).

End Metrics.

Section LastLog.

Context `{host : Store.Host}.
Variable now : Z.

(** [daysSinceLastLog]: [new Date(logDates[0])] is up to the host. *)
Definition daysSinceLastLog (dailyLogs : list DailyEntry.t) : Js.number :=
  match logDates dailyLogs with
  | latest :: _ =>
      t ← Js.sub (Some now) (Store.dateParse latest);
      Some (t / JsDate.msPerDay)
  | [] => Some (-1)
  end.

(** The first of the [gaps]: what is pushed for the daily logs, if
    anything. *)
Definition logGap (dailyLogs : list DailyEntry.t) : option string :=
  match daysSinceLastLog dailyLogs with
  | Some n =>
      if (0 <? n) && (0 <? length dailyLogs)%nat then
        if n =? 1
        then Some "You missed logging yesterday - get back on track today"
        else if 1 <? n
             then Some (Js.toString (Some n)
                        +:+ " days since your last log - consistency matters")
             else None
      else None
  | None => None
  end.

End LastLog.

(** The number of days at the front of [days] that all satisfy
    [logged]. *)
Fixpoint loggedRun (logged : string → bool) (days : list string) : nat :=
  match days with
  | [] => O
  | d :: rest => if logged d then S (loggedRun logged rest) else O
  end.

(** The streak as the specification words it: the days with an entry, one
    after the other, from today backwards, up to the first day without
    one.  [logged n] tells whether local day number [n] has an entry;
    [fuel] bounds how far back to look. *)
Fixpoint consecutiveLoggedDays (logged : Z → bool) (today : Z) (fuel : nat)
    : nat :=
  match fuel with
  | O => O
  | S k =>
      if logged today
      then S (consecutiveLoggedDays logged (today - 1) k)
      else O
  end.

(** The text [YYYY-MM-DD] of the calendar day of number [n], counted from
    1970-01-01, and the number of the day [SYSTEM_START_DATE]. *)
Definition dateOfDay (n : Z) : string :=
  DateLib.getLocalDate 0 (Some (n * JsDate.msPerDay)).

Definition startDay : Z := JsDate.daysFromCivil 2026 1 12.

End Insights.

(** ** Concrete collaborators, for running the model *)

Module Sample.

Import Store.

(** Modelled from the spec: the rate limiter of [./security], a
    fixed-window counter of outgoing requests; a request beyond the
    window's allowance is dropped.  The state is the start of the current
    window and the number of requests granted in it; the allowance and
    the window length are parameters. *)
Record Window := mkWindow {
  windowStart : Z;
  granted : nat;
}.

Definition fixedWindow (maxRequests : nat) (windowMs : Z) (now : Z)
    (s : Window) : bool * Window :=
  if windowStart s + windowMs <=? now then (true, mkWindow now 1)
  else if (granted s <? maxRequests)%nat
       then (true, mkWindow (windowStart s) (S (granted s)))
       else (false, s).

(** A stand-in for the sanitizers: drop the angle brackets. *)
Fixpoint stripAngles (s : string) : string :=
  match s with
  | EmptyString => ""
  | String c rest =>
      if Ascii.eqb c "<" || Ascii.eqb c ">" then stripAngles rest
      else String c (stripAngles rest)
  end.

Definition security : Security :=
  {| sanitizeText := stripAngles;
     sanitizeUrl := stripAngles;
     sanitizeEmail := stripAngles;
     RateLimiter := Window;
     canMakeRequest := fixedWindow 100 60000 |}.

Definition ok : Response := mkResponse (Some []) None.
Definition rejected : Response := mkResponse None (Some "rejected").

(** A backend that accepts everything, one that is unreachable, one that
    has not been migrated yet and rejects the columns [pinned] and
    [position], and the application without credentials. *)
Definition healthy : Supabase :=
  {| isSupabaseConfigured := true; respond := λ _ _, ok |}.

Definition unreachable : Supabase :=
  {| isSupabaseConfigured := true; respond := λ _ _, rejected |}.

Definition legacySchema : Supabase :=
  {| isSupabaseConfigured := true;
     respond := λ _ req, if mentions "pinned" req then rejected else ok |}.

Definition localOnly : Supabase :=
  {| isSupabaseConfigured := false; respond := λ _ _, rejected |}.

(** A backend whose table of ideas holds one row, written before the
    columns [pinned] and [trace_date] were filled. *)
Definition ideaRow : Row.t :=
  [("id", Row.JStr "i7"); ("date", Row.JStr "2026-02-01");
   ("thought", Row.JStr "kept on the server"); ("category", Row.JStr "Life");
   ("urgency", Row.JStr "Low"); ("status", Row.JStr "Inbox");
   ("platform", Row.JNull); ("executed", Row.JBool false);
   ("pinned", Row.JNull); ("trace_date", Row.JNull)].

(** Its table of expenses holds one row, with the amount as the text of
    a number. *)
Definition expenseRow : Row.t :=
  [("id", Row.JStr "e7"); ("title", Row.JStr "Rent");
   ("amount", Row.JStr "900"); ("category", Row.JStr "House Rent");
   ("date", Row.JStr "2026-02-01");
   ("created_at", Row.JStr "2026-02-01T10:00:00.000Z");
   ("trace_date", Row.JNull)].

Definition stocked : Supabase :=
  {| isSupabaseConfigured := true;
     respond := λ _ req,
       match req with
       | Select "ideas" _ => mkResponse (Some [ideaRow]) None
       | Select "expenses" _ => mkResponse (Some [expenseRow]) None
       | _ => ok
       end |}.

(** A backend that keeps the table [todos]: a [select] returns what the
    inserts, updates and deletes so far have left.  The row of a request
    goes out as JSON, in which a property that is [undefined] does not
    appear: an update changes the columns that its row carries, and no
    other. *)
Definition carried (row : Row.t) : Row.t :=
  filter (λ cv, cv.2 ≠ Row.JUndefined) row.

Definition applied (x : Request * Response) (rows : list Row.t)
    : list Row.t :=
  match x.1 with
  | Insert "todos" row => (rows ++ [carried row])%list
  | Update "todos" row id =>
      (λ r, if bool_decide (Row.get r "id" = Row.JStr id)
            then (carried row ++ r)%list else r) <$> rows
  | Delete "todos" id => filter (λ r, Row.get r "id" ≠ Row.JStr id) rows
  | _ => rows
  end.

Definition todosTable : Supabase :=
  {| isSupabaseConfigured := true;
     respond := λ history req,
       match req with
       | Select "todos" _ => mkResponse (Some (foldr applied [] history)) None
       | _ => ok
       end |}.

(** A host five hours west of UTC. *)
Definition utcMinus5 : Host :=
  {| tza := -18000000; dateParse := λ _, None |}.

(** 2026-02-11T04:30:00Z, which is 23:30 on 2026-02-10 on that host. *)
Definition lateEvening : Z := 1770784200000.

Definition emptyStorage : LocalStorage :=
  mkLocalStorage Missing Missing Missing Missing Missing Missing Missing
    Missing.

Definition anIdea : Idea.t :=
  {| Idea.id := "i1"; Idea.date := "2026-02-10";
     Idea.thought := "ship <b>it</b>"; Idea.category := "Product";
     Idea.urgency := "High"; Idea.status := "Inbox";
     Idea.platform := None; Idea.executed := None; Idea.pinned := None;
     Idea.traceDate := Some "2026-02-10" |}.

Definition anotherIdea : Idea.t :=
  {| Idea.id := "i2"; Idea.date := "2026-02-09";
     Idea.thought := "write"; Idea.category := "Content";
     Idea.urgency := "Low"; Idea.status := "Inbox";
     Idea.platform := Some "X"; Idea.executed := Some false;
     Idea.pinned := Some true; Idea.traceDate := Some "2026-02-09" |}.

Definition anEntry : DailyEntry.t :=
  {| DailyEntry.id := "d1"; DailyEntry.date := "2026-02-10";
     DailyEntry.workedOn := "proofs"; DailyEntry.shipped := "a lemma";
     DailyEntry.traceDate := None; DailyEntry.pinned := None;
     DailyEntry.position := None |}.

Definition aTodo : Todo.t :=
  {| Todo.id := "t1"; Todo.title := "Ship report"; Todo.details := "";
     Todo.deadline := "2026-02-10"; Todo.priority := "High";
     Todo.status := "Pending"; Todo.completed := false;
     Todo.createdAt := "2026-02-09T10:00:00.000Z";
     Todo.traceDate := Some "2026-02-09"; Todo.timeSlot := None;
     Todo.targetTime := None; Todo.pinned := None;
     Todo.completedAt := None |}.

Definition aContact : Contact.t :=
  {| Contact.id := "c1"; Contact.name := "Ada"; Contact.company := "AE";
     Contact.email := "ada@example.org";
     Contact.linkedin := "https://linkedin.com/in/ada";
     Contact.xAccount := "<ada>"; Contact.notes := "met at the fair";
     Contact.dateAdded := "2026-02-01";
     Contact.traceDate := Some "2026-02-01";
     Contact.avatarUrl := Some "https://example.org/<a>.png" |}.

Definition anExpense : Expense.t :=
  {| Expense.id := "e1"; Expense.title := "Rent"; Expense.amount := 900;
     Expense.category := "House Rent"; Expense.date := "2026-02-10";
     Expense.createdAt := "2026-02-11T04:30:00.000Z";
     Expense.traceDate := None |}.

(** A browser with nothing cached, late in the evening, and the rate
    limiter's window either fresh or used up. *)
Definition fresh : World (security := security) :=
  mkWorld (security := security) emptyStorage (mkWindow lateEvening 0) lateEvening [].

Definition exhausted : World (security := security) :=
  mkWorld (security := security) emptyStorage (mkWindow lateEvening 100) lateEvening [].

Definition withIdeas (ideas : list Idea.t) : World (security := security) :=
  mkWorld (security := security)
    (setItem CACHE_KEYS.IDEAS (Stored ideas) emptyStorage)
    (mkWindow lateEvening 0) lateEvening [].

Definition withContacts (contacts : list Contact.t)
    : World (security := security) :=
  mkWorld (security := security)
    (setItem CACHE_KEYS.CONTACTS (Stored contacts) emptyStorage)
    (mkWindow lateEvening 0) lateEvening [].

(** A discovery. *)
Definition aDiscovery : Discovery.t :=
  {| Discovery.id := "v1"; Discovery.title := "Proof <assistants>";
     Discovery.url := "https://example.org/rocq";
     Discovery.description := "kernels one can trust";
     Discovery.category := "Tools"; Discovery.impact := "Disruptive";
     Discovery.dateAdded := "2026-02-10"; Discovery.traceDate := None;
     Discovery.pinned := None |}.

(** An idea that is pinned, and executed already. *)
Definition pinnedButExecuted : Idea.t :=
  {| Idea.id := "i3"; Idea.date := "2026-02-08";
     Idea.thought := "done and pinned"; Idea.category := "Life";
     Idea.urgency := "Low"; Idea.status := "Approved";
     Idea.platform := None; Idea.executed := Some true;
     Idea.pinned := Some true; Idea.traceDate := Some "2026-02-08" |}.

(** A daily entry for a date. *)
Definition entryOn (date : string) : DailyEntry.t :=
  {| DailyEntry.id := date; DailyEntry.date := date;
     DailyEntry.workedOn := "work"; DailyEntry.shipped := "";
     DailyEntry.traceDate := Some date; DailyEntry.pinned := None;
     DailyEntry.position := None |}.

(** Noon of 2026-01-13 on the host five hours west of UTC, the day after
    the start date of the insights. *)
Definition secondDay : Z := JsDate.utcMidnight 2026 1 13 + 61200000.

(** [new Date(s)] for a date without a time, [YYYY-MM-DD]: the UTC
    midnight of that day, as the standard has it.  Other texts are not
    read. *)
Definition dateOnly (s : string) : JsDate.Date :=
  match Js.split "-" s with
  | [y; m; d] =>
      if Js.digitsOnly y && Js.digitsOnly m && Js.digitsOnly d
         && (String.length y =? 4)%nat && (String.length m =? 2)%nat
         && (String.length d =? 2)%nat
      then Some (JsDate.utcMidnight (Js.parseDigits y 0) (Js.parseDigits m 0)
                   (Js.parseDigits d 0))
      else None
  | _ => None
  end.

(** The host five hours west of UTC, reading such dates. *)
Definition utcMinus5Iso : Host :=
  {| tza := -18000000; dateParse := dateOnly |}.

(** A second task of the day of [aTodo], more urgent and for the
    evening; and a task of the day before, completed on the dashboard. *)
Definition anUrgentTodo : Todo.t :=
  {| Todo.id := "t2"; Todo.title := "Fix login"; Todo.details := "";
     Todo.deadline := "2026-02-10"; Todo.priority := "Critical";
     Todo.status := "Pending"; Todo.completed := false;
     Todo.createdAt := "2026-02-10T09:00:00.000Z";
     Todo.traceDate := Some "2026-02-10"; Todo.timeSlot := Some "Evening";
     Todo.targetTime := None; Todo.pinned := None;
     Todo.completedAt := None |}.

Definition anOverdueTodo : Todo.t :=
  {| Todo.id := "t3"; Todo.title := "Pay rent"; Todo.details := "";
     Todo.deadline := "2026-02-09"; Todo.priority := "Medium";
     Todo.status := "Pending"; Todo.completed := false;
     Todo.createdAt := "2026-02-08T09:00:00.000Z";
     Todo.traceDate := Some "2026-02-08"; Todo.timeSlot := None;
     Todo.targetTime := None; Todo.pinned := None;
     Todo.completedAt := None |}.

(** A task completed at midnight UTC of 2026-02-09, with the date alone
    as its time of completion. *)
Definition aCompletedTodo : Todo.t :=
  {| Todo.id := "t4"; Todo.title := "Book flights"; Todo.details := "";
     Todo.deadline := "2026-02-07"; Todo.priority := "Low";
     Todo.status := "Completed"; Todo.completed := true;
     Todo.createdAt := "2026-02-06T09:00:00.000Z";
     Todo.traceDate := Some "2026-02-06"; Todo.timeSlot := None;
     Todo.targetTime := None; Todo.pinned := None;
     Todo.completedAt := Some "2026-02-09" |}.

(** The cache of the tasks holding a list. *)
Definition withTodos (todos : list Todo.t) : World (security := security) :=
  mkWorld (security := security)
    (setItem CACHE_KEYS.TODOS (Stored todos) emptyStorage)
    (mkWindow lateEvening 0) lateEvening [].

(** [anIdea] after an edit of its text. *)
Definition anIdeaEdited : Idea.t :=
  {| Idea.id := "i1"; Idea.date := "2026-02-10";
     Idea.thought := "ship it on Friday"; Idea.category := "Product";
     Idea.urgency := "High"; Idea.status := "Approved";
     Idea.platform := None; Idea.executed := None; Idea.pinned := None;
     Idea.traceDate := Some "2026-02-10" |}.

End Sample.

(** * Properties *)

(** ** Decimal text *)

Section DecimalText.

Import Js.

Lemma isDigit_not_space c : isDigit c = true → isSpace c = false.
Proof. destruct c as [[] [] [] [] [] [] [] []]; vm_compute; congruence. Qed.

Lemma parseDigits_uint_pos d p :
  parseDigits (NilEmpty.string_of_uint d) (Z.pos p)
  = Z.pos (Pos.of_uint_acc d p).
Proof.
  revert p; induction d; intros p; cbn -[Z.mul Z.add Pos.mul Pos.add];
    [reflexivity|..];
    (etrans; [|apply IHd]); f_equal; unfold digitVal;
    match goal with
    | |- context [Z.of_nat (nat_of_ascii ?c)] =>
        let v := eval vm_compute in (Z.of_nat (nat_of_ascii c)) in
        change (Z.of_nat (nat_of_ascii c)) with v
    end; lia.
Qed.

Lemma parseDigits_uint d :
  parseDigits (NilEmpty.string_of_uint d) 0 = Z.of_N (Pos.of_uint d).
Proof.
  induction d; cbn -[Z.mul Z.add Pos.mul Pos.add]; [reflexivity|apply IHd|..];
    apply (parseDigits_uint_pos d).
Qed.

Lemma digitsOnly_uint d : digitsOnly (NilEmpty.string_of_uint d) = true.
Proof. induction d; cbn; auto. Qed.

Lemma digitsOnly_app a b :
  digitsOnly a = true → digitsOnly b = true → digitsOnly (a +:+ b) = true.
Proof.
  induction a as [|c a IH]; simpl; [done|].
  intros [Hc ?]%andb_prop ?. rewrite Hc. simpl. by apply IH.
Qed.

Lemma digitsOnly_zeros k : digitsOnly (zeros k) = true.
Proof. induction k; cbn; auto. Qed.

Lemma digitsOnly_lacks sep s :
  isDigit sep = false → digitsOnly s = true → lacks sep s = true.
Proof.
  intros Hsep. induction s as [|c s IH]; simpl; [done|].
  intros [Hc ?]%andb_prop. rewrite IH by done. rewrite andb_true_r.
  destruct (Ascii.eqb_spec c sep); [congruence|done].
Qed.

Lemma parseDigits_zeros k s : parseDigits (zeros k +:+ s) 0 = parseDigits s 0.
Proof. induction k; cbn; [done|apply IHk]. Qed.

Lemma parseInt_digit c s :
  isDigit c = true → parseInt (String c s) = Some (parseDigits (String c s) 0).
Proof.
  intros Hc. unfold parseInt. cbn [trimStart].
  rewrite (isDigit_not_space c Hc).
  destruct c as [[] [] [] [] [] [] [] []]; try discriminate Hc;
    cbn [startsWithDigit]; rewrite ?Hc; f_equal;
    destruct (parseDigits _ 0); reflexivity.
Qed.

(** A non-negative number prints as a non-empty run of digits that
    [parseDigits] reads back. *)
Lemma toString_digits z :
  0 ≤ z →
  ∃ c s, toString (Some z) = String c s ∧ isDigit c = true
         ∧ digitsOnly (String c s) = true ∧ parseDigits (String c s) 0 = z.
Proof.
  intros Hz. destruct z as [|p|p]; [|clear Hz|lia].
  - exists "0"%char, "". by vm_compute.
  - assert (Hs : toString (Some (Z.pos p))
                 = NilEmpty.string_of_uint (Pos.to_uint p)).
    { cbn. pose proof (Unsigned.to_uint_nonnil p).
      by destruct (Pos.to_uint p). }
    pose proof (digitsOnly_uint (Pos.to_uint p)) as Hd.
    pose proof (parseDigits_uint (Pos.to_uint p)) as Hv.
    rewrite Unsigned.of_to in Hv. rewrite <- Hs in Hd, Hv.
    destruct (toString (Some (Z.pos p))) as [|c s] eqn:E.
    + cbn in Hv. lia.
    + exists c, s. cbn in Hd. apply andb_prop in Hd as [? ?].
      repeat split; [done| |done]. cbn. by rewrite andb_true_iff.
Qed.

End DecimalText.

Section Splitting.

Import Js.

Lemma split_lacks sep s : lacks sep s = true → split sep s = [s].
Proof.
  induction s as [|c s IH]; simpl; [done|].
  intros [Hc Hs]%andb_prop. apply negb_true_iff in Hc. rewrite Hc.
  by rewrite IH.
Qed.

Lemma split_app sep a b :
  lacks sep a = true → split sep (a +:+ String sep b) = a :: split sep b.
Proof.
  induction a as [|c a IH]; simpl.
  - intros _. by rewrite Ascii.eqb_refl.
  - intros [Hc Hs]%andb_prop. apply negb_true_iff in Hc. rewrite Hc.
    by rewrite IH.
Qed.

Lemma lacks_app sep a b :
  lacks sep a = true → lacks sep b = true → lacks sep (a +:+ b) = true.
Proof.
  induction a as [|c a IH]; simpl; [done|].
  intros [Hc ?]%andb_prop ?. rewrite Hc. simpl. by apply IH.
Qed.

(** A zero-padded non-negative number reads back as itself. *)
Lemma padStart_digits n z :
  0 ≤ z →
  digitsOnly (padStart n (toString (Some z))) = true
  ∧ parseInt (padStart n (toString (Some z))) = Some z.
Proof.
  intros Hz. destruct (toString_digits z Hz) as (c & s & -> & Hc & Hd & Hv).
  unfold padStart. split.
  - apply digitsOnly_app; [apply digitsOnly_zeros|done].
  - destruct (n - String.length (String c s))%nat as [|k] eqn:E.
    + change (zeros 0 +:+ String c s) with (String c s).
      rewrite parseInt_digit by done. by rewrite Hv.
    + change (zeros (S k) +:+ String c s)
        with (String "0" (zeros k +:+ String c s)).
      rewrite parseInt_digit by done.
      change (parseDigits (String "0" (zeros k +:+ String c s)) 0)
        with (parseDigits (zeros k +:+ String c s) 0).
      by rewrite parseDigits_zeros, Hv.
Qed.

End Splitting.

(** ** The calendar *)

Section Calendar.

Import JsDate.

Lemma yearOfEra_bounds doe :
  0 ≤ doe < 146097 →
  let yoe := (doe - doe / 1460 + doe / 36524 - doe / 146096) / 365 in
  0 ≤ yoe < 400 ∧ 0 ≤ doe - (365 * yoe + yoe / 4 - yoe / 100) ≤ 365.
Proof. intros H yoe. subst yoe. Z.to_euclidean_division_equations; lia. Qed.

Lemma monthOfYear_bounds doy :
  0 ≤ doy ≤ 365 →
  let mp := (5 * doy + 2) / 153 in
  0 ≤ mp ≤ 11 ∧ 1 ≤ doy - (153 * mp + 2) / 5 + 1 ≤ 31.
Proof. intros H mp. subst mp. Z.to_euclidean_division_equations; lia. Qed.

(** [civilFromDays] yields a month and a day in range, and
    [daysFromCivil] leads back to the day number. *)
Lemma civilFromDays_spec n y m d :
  civilFromDays n = (y, m, d) →
  1 ≤ m ≤ 12 ∧ 1 ≤ d ≤ 31 ∧ daysFromCivil y m d = n.
Proof.
  unfold civilFromDays.
  set (z := n + 719468). set (era := z / 146097).
  set (doe := z - era * 146097).
  assert (Hdoe : 0 ≤ doe < 146097)
    by (subst doe era; Z.to_euclidean_division_equations; lia).
  pose proof (yearOfEra_bounds doe Hdoe) as Hy. cbv zeta in Hy.
  set (yoe := (doe - doe / 1460 + doe / 36524 - doe / 146096) / 365) in *.
  set (doy := doe - (365 * yoe + yoe / 4 - yoe / 100)) in *.
  destruct Hy as [Hyoe Hdoy].
  pose proof (monthOfYear_bounds doy Hdoy) as Hm. cbv zeta in Hm.
  set (mp := (5 * doy + 2) / 153) in *.
  destruct Hm as [Hmp Hd].
  intros [= <- <- <-]. unfold daysFromCivil.
  destruct (Z.ltb_spec mp 10).
  - split; [lia|]. split; [lia|].
    replace (mp + 3 <=? 2) with false by (symmetry; apply Z.leb_gt; lia).
    replace (2 <? mp + 3) with true by (symmetry; apply Z.ltb_lt; lia).
    replace (mp + 3 - 3) with mp by lia.
    replace ((yoe + era * 400) / 400) with era
      by (Z.to_euclidean_division_equations; lia).
    replace (yoe + era * 400 - era * 400) with yoe by lia.
    subst doy doe z. lia.
  - split; [lia|]. split; [lia|].
    replace (mp - 9 <=? 2) with true by (symmetry; apply Z.leb_le; lia).
    replace (2 <? mp - 9) with false by (symmetry; apply Z.ltb_ge; lia).
    replace (mp - 9 + 9) with mp by lia.
    replace (yoe + era * 400 + 1 - 1) with (yoe + era * 400) by lia.
    replace ((yoe + era * 400) / 400) with era
      by (Z.to_euclidean_division_equations; lia).
    replace (yoe + era * 400 - era * 400) with yoe by lia.
    subst doy doe z. lia.
Qed.

(** The first of January is where [DayFromYear] of the standard puts
    it. *)
Lemma daysFromCivil_dayFromYear y : daysFromCivil y 1 1 = dayFromYear y.
Proof.
  unfold daysFromCivil, dayFromYear. simpl.
  Z.to_euclidean_division_equations; lia.
Qed.

Lemma daysFromCivil_day y m d d' :
  daysFromCivil y m d' = daysFromCivil y m d + (d' - d).
Proof. unfold daysFromCivil. lia. Qed.

Lemma makeDay_civil y m d :
  1 ≤ m ≤ 12 → makeDay y (m - 1) d = daysFromCivil y m d.
Proof.
  intros Hm. unfold makeDay.
  replace ((m - 1) / 12) with 0 by (Z.to_euclidean_division_equations; lia).
  replace ((m - 1) mod 12) with (m - 1)
    by (Z.to_euclidean_division_equations; lia).
  replace (y + 0) with y by lia. replace (m - 1 + 1) with m by lia.
  rewrite (daysFromCivil_day y m 1 d). lia.
Qed.

Lemma daysFromCivil_lower y m d :
  100 ≤ y → 1 ≤ m ≤ 12 → 1 ≤ d → -700000 ≤ daysFromCivil y m d.
Proof.
  intros Hy Hm Hd. unfold daysFromCivil.
  destruct (Z.leb_spec m 2), (Z.ltb_spec 2 m); try lia;
    Z.to_euclidean_division_equations; lia.
Qed.

Lemma day_of_midnight n tz : day (localTime tz (utc tz (n * msPerDay))) = n.
Proof.
  unfold day, localTime, utc, msPerDay.
  Z.to_euclidean_division_equations; lia.
Qed.

End Calendar.

(** ** [getLocalDate] and [parseLocalDate] *)

Section LocalDates.

Import Js JsDate DateLib.

Variable tza : Z.
Variable now : Z.
Variable dateParse : string → Date.

(** The text of a date from its components. *)
Lemma getLocalDate_civil t y m d :
  civilFromDays (day (localTime tza t)) = (y, m, d) →
  getLocalDate tza (Some t)
  = toString (Some y) +:+ "-" +:+ padStart 2 (toString (Some m))
      +:+ "-" +:+ padStart 2 (toString (Some d)).
Proof.
  intros H. unfold getLocalDate, getFullYear, getMonth, getDate, localCivil.
  cbn [mbind option_bind]. rewrite H. cbn [fst snd add].
  by replace (m - 1 + 1) with m by lia.
Qed.

(** Reading such a text back gives the constructor its components. *)
Lemma parseLocalDate_text y m d :
  0 ≤ y → 0 ≤ m → 0 ≤ d →
  parseLocalDate tza now dateParse
    (toString (Some y) +:+ "-" +:+ padStart 2 (toString (Some m))
       +:+ "-" +:+ padStart 2 (toString (Some d)))
  = ofComponents tza (Some y) (Some (m - 1)) (Some d).
Proof.
  intros Hy Hm Hd.
  destruct (toString_digits y Hy) as (c & s & Ey & Hc & Hys & Hyv).
  destruct (padStart_digits 2 m Hm) as [Hms Hmv].
  destruct (padStart_digits 2 d Hd) as [Hds Hdv].
  set (M := padStart 2 (toString (Some m))) in *.
  set (D := padStart 2 (toString (Some d))) in *.
  rewrite Ey.
  change (String c s +:+ "-" +:+ M +:+ "-" +:+ D)
    with (String c s +:+ String "-" (M +:+ String "-" D)).
  assert (HT : lacks "T" (String c s +:+ String "-" (M +:+ String "-" D)) = true).
  { apply lacks_app; [by apply digitsOnly_lacks|].
    change (lacks "T" (M +:+ String "-" D) = true).
    apply lacks_app; [by apply digitsOnly_lacks|].
    change (lacks "T" D = true). by apply digitsOnly_lacks. }
  unfold parseLocalDate.
  change (truthy (String c s +:+ String "-" (M +:+ String "-" D))) with true.
  cbn [negb]. rewrite (split_lacks _ _ HT). cbn [hd].
  rewrite split_app by (by apply digitsOnly_lacks).
  rewrite split_app by (by apply digitsOnly_lacks).
  rewrite split_lacks by (by apply digitsOnly_lacks).
  rewrite Hmv, Hdv, parseInt_digit, Hyv by done. done.
Qed.

(** Local midnight of a day, as [new Date(y, m, d)] builds it, falls on
    that day. *)
Lemma ofComponents_civil n y m d :
  civilFromDays n = (y, m, d) → 100 ≤ y →
  Z.abs (utc tza (n * msPerDay)) ≤ maxTime →
  ofComponents tza (Some y) (Some (m - 1)) (Some d)
  = Some (utc tza (n * msPerDay)).
Proof.
  intros H Hy Hclip. destruct (civilFromDays_spec _ _ _ _ H) as (Hm & Hd & E).
  unfold ofComponents.
  replace ((0 <=? y) && (y <=? 99)) with false
    by (symmetry; apply andb_false_iff; right; apply Z.leb_gt; lia).
  rewrite makeDay_civil, E by done. unfold timeClip.
  by replace (Z.abs (utc tza (n * msPerDay)) <=? maxTime) with true
    by (symmetry; apply Z.leb_le; lia).
Qed.

Lemma parseLocalDate_getLocalDate t y m d :
  Z.abs tza < msPerDay → Z.abs t ≤ maxTime →
  civilFromDays (day (localTime tza t)) = (y, m, d) → 100 ≤ y →
  parseLocalDate tza now dateParse (getLocalDate tza (Some t))
  = Some (utc tza (day (localTime tza t) * msPerDay)).
Proof.
  intros Hz Ht H Hy.
  destruct (civilFromDays_spec _ _ _ _ H) as (Hm & Hd & E).
  rewrite (getLocalDate_civil _ _ _ _ H).
  rewrite parseLocalDate_text by lia.
  apply ofComponents_civil; [done..|].
  pose proof (daysFromCivil_lower y m d Hy Hm ltac:(lia)) as Hlow.
  rewrite E in Hlow. revert Hlow Hz Ht.
  unfold utc, day, localTime, msPerDay, maxTime.
  pose proof (Z.mul_div_le (t + tza) 86400000 ltac:(lia)) as Hfloor.
  revert Hfloor. generalize ((t + tza) / 86400000). lia.
Qed.

End LocalDates.

(** C6 (amended).  For every valid [Date] [d] whose local year is at least
    100, on a host whose zone is a fixed offset of less than a day,
    [parseLocalDate(getLocalDate(d))] is a [Date] with the local year, month
    and day of [d].  And five hours west of UTC, at 23:30 local time on any
    day D, [getLocalDate] returns D, although the UTC day is already D+1. *)
Theorem parseLocalDate_getLocalDate_components
    (tza now : Z) (dateParse : string → JsDate.Date) (t : Z) :
  Z.abs tza < JsDate.msPerDay →
  Z.abs t ≤ JsDate.maxTime →
  100 ≤ (JsDate.localCivil tza t).1.1 →
  let d : JsDate.Date := Some t in
  let d' := DateLib.parseLocalDate tza now dateParse (DateLib.getLocalDate tza d) in
  (JsDate.getFullYear tza d' = JsDate.getFullYear tza d
   ∧ JsDate.getMonth tza d' = JsDate.getMonth tza d
   ∧ JsDate.getDate tza d' = JsDate.getDate tza d)
  ∧ ∀ n : Z,
      let lateEvening := JsDate.utc (-18000000) (n * JsDate.msPerDay + 84600000) in
      let '(y, m, d) := JsDate.civilFromDays n in
      DateLib.getLocalDate (-18000000) (Some lateEvening)
      = Js.toString (Some y) +:+ "-" +:+ Js.padStart 2 (Js.toString (Some m))
          +:+ "-" +:+ Js.padStart 2 (Js.toString (Some d))
      ∧ JsDate.day lateEvening = n + 1.
Proof.
  intros Hz Ht Hy d d'. split.
  - subst d d'. unfold JsDate.localCivil in Hy.
    destruct (JsDate.civilFromDays (JsDate.day (JsDate.localTime tza t)))
      as [[y m] dd] eqn:E.
    cbn [fst snd] in Hy.
    rewrite (parseLocalDate_getLocalDate tza now dateParse t y m dd) by done.
    unfold JsDate.getFullYear, JsDate.getMonth, JsDate.getDate,
      JsDate.localCivil.
    cbn [mbind option_bind]. by rewrite day_of_midnight, E.
  - intros n lateEvening.
    destruct (JsDate.civilFromDays n) as [[y m] dd] eqn:E. split.
    + apply getLocalDate_civil. rewrite <- E. f_equal.
      subst lateEvening.
      unfold JsDate.day, JsDate.localTime, JsDate.utc, JsDate.msPerDay.
      Z.to_euclidean_division_equations; lia.
    + subst lateEvening. unfold JsDate.day, JsDate.utc, JsDate.msPerDay.
      Z.to_euclidean_division_equations; lia.
Qed.

(** The instance of the above at 23:30 on 2026-02-10, five hours west of
    UTC. *)
Lemma parseLocalDate_getLocalDate_components_witness :
  let tza := -18000000 in
  let d : JsDate.Date := Some Sample.lateEvening in
  let d' := DateLib.parseLocalDate tza 0 (λ _, None) (DateLib.getLocalDate tza d) in
  (Z.abs tza < JsDate.msPerDay
   ∧ Z.abs Sample.lateEvening ≤ JsDate.maxTime
   ∧ 100 ≤ (JsDate.localCivil tza Sample.lateEvening).1.1)
  ∧ JsDate.getFullYear tza d' = JsDate.getFullYear tza d
  ∧ JsDate.getMonth tza d' = JsDate.getMonth tza d
  ∧ JsDate.getDate tza d' = JsDate.getDate tza d.
Proof.
  intros tza d d'.
  assert (H1 : Z.abs tza < JsDate.msPerDay) by (vm_compute; reflexivity).
  assert (H2 : Z.abs Sample.lateEvening ≤ JsDate.maxTime)
    by (vm_compute; discriminate).
  assert (H3 : 100 ≤ (JsDate.localCivil tza Sample.lateEvening).1.1)
    by (vm_compute; discriminate).
  split; [by repeat split|].
  exact (proj1 (parseLocalDate_getLocalDate_components
                  tza 0 (λ _, None) Sample.lateEvening H1 H2 H3)).
Defined.

(** C6, as stated, fails on a date of the year 50: its text is [50-06-15],
    which [new Date(50, 5, 15)] reads as 1950. *)
Lemma parseLocalDate_getLocalDate_year_50 :
  let d : JsDate.Date := Some (JsDate.utcMidnight 50 6 15 + 43200000) in
  let d' := DateLib.parseLocalDate 0 0 (λ _, None) (DateLib.getLocalDate 0 d) in
  DateLib.getLocalDate 0 d = "50-06-15"
  ∧ JsDate.getFullYear 0 d = Some 50
  ∧ JsDate.getFullYear 0 d' = Some 1950
  ∧ JsDate.getFullYear 0 d' ≠ JsDate.getFullYear 0 d.
Proof. vm_compute. repeat split; discriminate. Qed.

(** ** More on the text of dates *)

Section CalendarOrder.

Import JsDate.

Lemma beforeMarch_mono a b : a < b → beforeMarch a + 365 ≤ beforeMarch b.
Proof. unfold beforeMarch. intros. Z.to_euclidean_division_equations; lia. Qed.

Lemma civilFromDays_march n :
  ∃ Y doy,
    n + 719468 = beforeMarch Y + doy
    ∧ 0 ≤ doy ≤ 365
    ∧ n + 719468 < beforeMarch (Y + 1)
    ∧ civilFromDays n
      = (let mp := (5 * doy + 2) / 153 in
         (if mp <? 10 then Y else Y + 1,
          if mp <? 10 then mp + 3 else mp - 9,
          doy - (153 * mp + 2) / 5 + 1)).
Proof.
  unfold civilFromDays.
  set (z := n + 719468). set (era := z / 146097).
  set (doe := z - era * 146097).
  assert (Hdoe : 0 ≤ doe < 146097)
    by (subst doe era; Z.to_euclidean_division_equations; lia).
  set (yoe := (doe - doe / 1460 + doe / 36524 - doe / 146096) / 365).
  set (doy := doe - (365 * yoe + yoe / 4 - yoe / 100)).
  exists (yoe + era * 400), doy.
  assert (Hy : 0 ≤ yoe < 400 ∧ 0 ≤ doy ≤ 365
               ∧ doe < 365 * (yoe + 1) + (yoe + 1) / 4 - (yoe + 1) / 100
                       + (yoe + 1) / 400).
  { subst yoe doy. clear -Hdoe. Z.to_euclidean_division_equations; lia. }
  destruct Hy as (Hyoe & Hdoy & Hnext).
  assert (Hb : beforeMarch (yoe + era * 400)
               = era * 146097 + 365 * yoe + yoe / 4 - yoe / 100).
  { unfold beforeMarch. clear -Hyoe. Z.to_euclidean_division_equations; lia. }
  assert (Hb' : beforeMarch (yoe + era * 400 + 1)
               = era * 146097 + 365 * (yoe + 1) + (yoe + 1) / 4
                 - (yoe + 1) / 100 + (yoe + 1) / 400).
  { unfold beforeMarch. clear -Hyoe. Z.to_euclidean_division_equations; lia. }
  split; [rewrite Hb; subst doy doe; lia|].
  split; [done|]. split; [rewrite Hb'; subst doe; lia|].
  cbv zeta. set (mp := (5 * doy + 2) / 153).
  destruct (Z.ltb_spec mp 10).
  - replace (mp + 3 <=? 2) with false by (symmetry; apply Z.leb_gt; subst mp; Z.to_euclidean_division_equations; lia).
    reflexivity.
  - replace (mp - 9 <=? 2) with true by (symmetry; apply Z.leb_le; subst mp; Z.to_euclidean_division_equations; lia).
    reflexivity.
Qed.


Lemma civilCompare_lt a b :
  civilCompare a b = Lt
  ↔ a.1.1 < b.1.1
    ∨ (a.1.1 = b.1.1 ∧ (a.1.2 < b.1.2 ∨ (a.1.2 = b.1.2 ∧ a.2 < b.2))).
Proof.
  unfold civilCompare.
  destruct (Z.compare_spec a.1.1 b.1.1), (Z.compare_spec a.1.2 b.1.2),
    (Z.compare_spec a.2 b.2); split; try done; try lia; auto.
Qed.

Lemma civilCompare_antisym a b :
  civilCompare a b = CompOpp (civilCompare b a).
Proof.
  unfold civilCompare.
  rewrite (Z.compare_antisym a.1.1), (Z.compare_antisym a.1.2),
    (Z.compare_antisym a.2).
  by destruct (a.1.1 ?= b.1.1), (a.1.2 ?= b.1.2), (a.2 ?= b.2).
Qed.

Lemma civilCompare_refl a : civilCompare a a = Eq.
Proof. unfold civilCompare. by rewrite !Z.compare_refl. Qed.

Lemma civilFromDays_lt n1 n2 :
  n1 < n2 → civilCompare (civilFromDays n1) (civilFromDays n2) = Lt.
Proof.
  intros Hlt.
  destruct (civilFromDays_march n1) as (Y1 & doy1 & E1 & B1 & N1 & ->).
  destruct (civilFromDays_march n2) as (Y2 & doy2 & E2 & B2 & N2 & ->).
  cbv zeta. apply civilCompare_lt. cbn [fst snd].
  assert (HY : Y1 < Y2 ∨ (Y1 = Y2 ∧ doy1 < doy2)).
  { destruct (Z.lt_trichotomy Y1 Y2) as [?|[->|HY]]; [by left|right; lia|].
    pose proof (beforeMarch_mono Y2 Y1 HY) as Hm.
    assert (beforeMarch (Y2 + 1) ≤ beforeMarch Y1).
    { destruct (Z.eq_dec (Y2 + 1) Y1) as [->|]; [lia|].
      pose proof (beforeMarch_mono (Y2 + 1) Y1 ltac:(lia)). lia. }
    lia. }
  clear E1 E2 N1 N2 Hlt.
  set (mp1 := (5 * doy1 + 2) / 153). set (mp2 := (5 * doy2 + 2) / 153).
  assert (0 ≤ mp1 ≤ 11) by (subst mp1; Z.to_euclidean_division_equations; lia).
  assert (0 ≤ mp2 ≤ 11) by (subst mp2; Z.to_euclidean_division_equations; lia).
  destruct (Z.ltb_spec mp1 10), (Z.ltb_spec mp2 10);
    destruct HY as [HY|[-> HY]]; try lia.
  all: subst mp1 mp2; Z.to_euclidean_division_equations; lia.
Qed.

Lemma civilFromDays_compare n1 n2 :
  civilCompare (civilFromDays n1) (civilFromDays n2) = (n1 ?= n2).
Proof.
  destruct (Z.compare_spec n1 n2) as [->|?|?].
  - apply civilCompare_refl.
  - by apply civilFromDays_lt.
  - rewrite civilCompare_antisym, civilFromDays_lt by done. done.
Qed.

End CalendarOrder.

Section DateText.

Import Js JsDate DateLib.

Lemma append_assoc' (a b c : string) : (a +:+ b) +:+ c = a +:+ (b +:+ c).
Proof.
  induction a as [|x a IH]; [done|].
  change (String x ((a +:+ b) +:+ c) = String x (a +:+ (b +:+ c))).
  by rewrite IH.
Qed.

Lemma forallb_seqZ (P : Z → bool) (lo n : Z) :
  forallb P (seqZ lo n) = true → ∀ x, lo ≤ x < lo + n → P x = true.
Proof.
  intros H x Hx. rewrite forallb_forall in H. apply H.
  apply list_elem_of_In, elem_of_seqZ. lia.
Qed.

Lemma digitChar_compare a b :
  0 ≤ a < 10 → 0 ≤ b < 10 →
  Ascii.compare (digitChar a) (digitChar b) = (a ?= b).
Proof.
  intros Ha Hb.
  pose proof (forallb_seqZ
    (λ a, forallb (λ b,
       bool_decide (Ascii.compare (digitChar a) (digitChar b) = (a ?= b)))
       (seqZ 0 10)) 0 10 ltac:(by vm_compute) a Ha) as H.
  cbv beta in H.
  pose proof (forallb_seqZ _ 0 10 H b Hb) as H'. cbv beta in H'.
  by apply bool_decide_eq_true in H'.
Qed.

Lemma fixedWidth_compare k a b s t :
  0 ≤ a < 10 ^ Z.of_nat k → 0 ≤ b < 10 ^ Z.of_nat k →
  String.compare (fixedWidth k a +:+ s) (fixedWidth k b +:+ t)
  = match a ?= b with
    | Eq => String.compare s t
    | r => r
    end.
Proof.
  revert a b s t. induction k as [|k IH]; intros a b s t Ha Hb.
  - change (10 ^ Z.of_nat 0) with 1 in *.
    replace a with 0 by lia. replace b with 0 by lia. done.
  - rewrite Nat2Z.inj_succ, Z.pow_succ_r in Ha, Hb by lia.
    cbn [fixedWidth]. rewrite !append_assoc'.
    change (String ?c "" +:+ ?s) with (String c s).
    rewrite IH by (Z.to_euclidean_division_equations; lia).
    change (String.compare (String ?c1 ?s1) (String ?c2 ?s2))
      with (match Ascii.compare c1 c2 with
            | Eq => String.compare s1 s2
            | Lt => Lt
            | Gt => Gt
            end).
    rewrite digitChar_compare by (Z.to_euclidean_division_equations; lia).
    destruct (Z.compare_spec (a / 10) (b / 10)),
      (Z.compare_spec (a mod 10) (b mod 10)), (Z.compare_spec a b);
      try done; exfalso; Z.to_euclidean_division_equations; lia.
Qed.

Lemma append_length (a b : string) :
  String.length (a +:+ b) = (String.length a + String.length b)%nat.
Proof.
  induction a as [|x a IH]; [done|].
  change (S (String.length (a +:+ b))
          = S (String.length a + String.length b)). by rewrite IH.
Qed.

Lemma fixedWidth_length k n : String.length (fixedWidth k n) = k.
Proof.
  revert n. induction k as [|k IH]; intros n; [done|].
  cbn [fixedWidth]. rewrite append_length, IH. cbn. lia.
Qed.

Lemma padStart2_fixedWidth n :
  0 ≤ n < 100 → padStart 2 (toString (Some n)) = fixedWidth 2 n.
Proof.
  intros Hn.
  pose proof (forallb_seqZ
    (λ n, String.eqb (padStart 2 (toString (Some n))) (fixedWidth 2 n))
    0 100 ltac:(by vm_compute) n ltac:(lia)) as H.
  by apply String.eqb_eq in H.
Qed.

Lemma toString_fixedWidth y :
  1000 ≤ y ≤ 9999 → toString (Some y) = fixedWidth 4 y.
Proof.
  intros Hy.
  pose proof (forallb_seqZ
    (λ n, String.eqb (toString (Some n)) (fixedWidth 4 n))
    1000 9000 ltac:(by vm_compute) y ltac:(lia)) as H.
  by apply String.eqb_eq in H.
Qed.


Lemma append_truthy a c b : Js.truthy (a +:+ String c b) = true.
Proof. by destruct a. Qed.

Lemma getLocalDate_truthy tz d : Js.truthy (DateLib.getLocalDate tz d) = true.
Proof. unfold DateLib.getLocalDate. apply append_truthy. Qed.

Lemma split_head sep c s :
  Ascii.eqb c sep = false →
  ∃ h t, Js.split sep (String c s) = String c h :: t.
Proof.
  intros Hc. cbn [Js.split]. rewrite Hc.
  destruct (Js.split sep s); eauto.
Qed.

Lemma isoYear_head y :
  ∃ c s, JsDate.isoYear y = String c s ∧ Ascii.eqb c "T" = false.
Proof.
  unfold JsDate.isoYear.
  destruct ((0 <=? y) && (y <=? 9999)) eqn:E.
  - apply andb_prop in E as [Hy%Z.leb_le _].
    destruct (toString_digits y Hy) as (c & s & -> & Hc & _).
    unfold Js.padStart.
    destruct (4 - String.length (String c s))%nat as [|k].
    + exists c, s. split; [done|].
      destruct c as [[] [] [] [] [] [] [] []]; try discriminate Hc; done.
    + by exists "0"%char, (Js.zeros k +:+ String c s).
  - destruct (y <? 0); eexists _, _; (split; [reflexivity|done]).
Qed.

Lemma isoDate_truthy t :
  Js.truthy (hd "" (Js.split "T" (JsDate.toISOString t))) = true.
Proof.
  unfold JsDate.toISOString.
  destruct (JsDate.civilFromDays (JsDate.day t)) as [[y m] d].
  destruct (isoYear_head y) as (c & s & -> & Hc).
  cbn [String.append].
  destruct (split_head "T" c
              (s +:+ "-" +:+ JsDate.pad2 m +:+ "-" +:+ JsDate.pad2 d +:+ "T"
                 +:+ JsDate.pad2 (JsDate.timeWithinDay t / 3600000) +:+ ":"
                 +:+ JsDate.pad2 (JsDate.timeWithinDay t / 60000 mod 60)
                 +:+ ":"
                 +:+ JsDate.pad2 (JsDate.timeWithinDay t / 1000 mod 60)
                 +:+ "." +:+ JsDate.pad3 (JsDate.timeWithinDay t mod 1000)
                 +:+ "Z") Hc) as (h & tl & E).
  unfold String.append in E |- *. fold String.append in E |- *.
  by rewrite E.
Qed.

Lemma orElseOpt_truthy d today :
  Js.truthy today = true → Js.truthy (Js.orElseOpt d today) = true.
Proof. destruct d as [[|]|]; done. Qed.

Lemma append_nil_r (s : string) : s +:+ "" = s.
Proof.
  induction s as [|c s IH]; [done|].
  change (String c (s +:+ "") = String c s). by rewrite IH.
Qed.

Lemma getLocalDate_fixedWidth tza t y m d :
  civilFromDays (day (localTime tza t)) = (y, m, d) → 1000 ≤ y ≤ 9999 →
  getLocalDate tza (Some t)
  = fixedWidth 4 y
      +:+ String "-" (fixedWidth 2 m +:+ String "-" (fixedWidth 2 d +:+ "")).
Proof.
  intros E Hy. destruct (civilFromDays_spec _ _ _ _ E) as (Hm & Hd & _).
  rewrite (getLocalDate_civil _ _ _ _ _ E).
  rewrite toString_fixedWidth, !padStart2_fixedWidth by lia.
  by rewrite append_nil_r.
Qed.

(** X15.  For dates whose local year has four digits (1000 to 9999), the
    strings of [getLocalDate] are ten characters long and compare as the
    local calendar days do: [localeCompare], [<=] and [===] on two of them
    give the order, and the equality, of the days.  This is what the
    comparisons of the views ([deadline < today], [d >= SYSTEM_START_DATE],
    the sorts by date) rely on. *)
Theorem getLocalDate_orders_as_the_calendar (tza t1 t2 : Z) :
  1000 ≤ (localCivil tza t1).1.1 ≤ 9999 →
  1000 ≤ (localCivil tza t2).1.1 ≤ 9999 →
  let n1 := day (localTime tza t1) in
  let n2 := day (localTime tza t2) in
  let s1 := getLocalDate tza (Some t1) in
  let s2 := getLocalDate tza (Some t2) in
  localeCompare s1 s2 = match n1 ?= n2 with Lt => -1 | Eq => 0 | Gt => 1 end
  ∧ (strLe s1 s2 = true ↔ n1 ≤ n2)
  ∧ (s1 = s2 ↔ n1 = n2)
  ∧ String.length s1 = 10%nat.
Proof.
  intros H1 H2 n1 n2 s1 s2. unfold localCivil in H1, H2.
  destruct (civilFromDays (day (localTime tza t1))) as [[y1 m1] d1] eqn:E1.
  destruct (civilFromDays (day (localTime tza t2))) as [[y2 m2] d2] eqn:E2.
  cbn [fst snd] in H1, H2.
  destruct (civilFromDays_spec _ _ _ _ E1) as (Hm1 & Hd1 & _).
  destruct (civilFromDays_spec _ _ _ _ E2) as (Hm2 & Hd2 & _).
  assert (Hc : String.compare s1 s2 = (n1 ?= n2)).
  { subst s1 s2.
    rewrite (getLocalDate_fixedWidth _ _ _ _ _ E1 H1),
      (getLocalDate_fixedWidth _ _ _ _ _ E2 H2).
    rewrite fixedWidth_compare by (change (10 ^ Z.of_nat 4) with 10000; lia).
    change (String.compare (String "-" ?a) (String "-" ?b))
      with (String.compare a b).
    rewrite fixedWidth_compare by (change (10 ^ Z.of_nat 2) with 100; lia).
    change (String.compare (String "-" ?a) (String "-" ?b))
      with (String.compare a b).
    rewrite fixedWidth_compare by (change (10 ^ Z.of_nat 2) with 100; lia).
    change (String.compare "" "") with Eq.
    rewrite <- (civilFromDays_compare n1 n2). subst n1 n2.
    rewrite E1, E2. unfold civilCompare. cbn [fst snd].
    by destruct (y1 ?= y2), (m1 ?= m2), (d1 ?= d2). }
  split; [|split; [|split]].
  - unfold localeCompare. by rewrite Hc.
  - unfold strLe, String.leb. rewrite Hc.
    destruct (Z.compare_spec n1 n2); split; intros; try done; lia.
  - split.
    + intros Hs. rewrite Hs in Hc.
      assert (Hr : String.compare s2 s2 = Eq).
      { clear. induction s2 as [|c s IH]; [done|].
        cbn. unfold Ascii.compare. by rewrite N.compare_refl. }
      rewrite Hr in Hc. symmetry in Hc. by apply Z.compare_eq in Hc.
    + intros Hn. apply String.compare_eq_iff. rewrite Hc, Hn.
      apply Z.compare_refl.
  - subst s1. rewrite (getLocalDate_fixedWidth _ _ _ _ _ E1 H1).
    rewrite append_length, fixedWidth_length. cbn [String.length].
    rewrite append_length, fixedWidth_length. cbn [String.length].
    rewrite append_length, fixedWidth_length. reflexivity.
Qed.

End DateText.

Section LocalTimestamps.

Import Js JsDate DateLib.

Variable tza : Z.
Variable now : Z.
Variable dateParse : string → Date.

(** The timestamp starts with the date. *)
Lemma getLocalISOString_date (date : Date) :
  ∃ time, getLocalISOString tza date = getLocalDate tza date +:+ String "T" time.
Proof.
  eexists. unfold getLocalISOString, getLocalDate.
  rewrite !append_assoc'. cbn [String.append]. reflexivity.
Qed.

Lemma text_lacks_T y m d :
  0 ≤ y → 0 ≤ m → 0 ≤ d →
  lacks "T" (toString (Some y) +:+ "-" +:+ padStart 2 (toString (Some m))
               +:+ "-" +:+ padStart 2 (toString (Some d))) = true.
Proof.
  intros Hy Hm Hd.
  destruct (toString_digits y Hy) as (c & s & -> & _ & Hys & _).
  destruct (padStart_digits 2 m Hm) as [Hms _].
  destruct (padStart_digits 2 d Hd) as [Hds _].
  apply lacks_app; [by apply digitsOnly_lacks|].
  apply (lacks_app "T" "-"); [done|].
  apply lacks_app; [by apply digitsOnly_lacks|].
  apply (lacks_app "T" "-"); [done|].
  by apply digitsOnly_lacks.
Qed.

Lemma parseLocalDate_date_part (a time : string) :
  truthy a = true → lacks "T" a = true →
  length (split "-" a) = 3%nat →
  parseLocalDate tza now dateParse (a +:+ String "T" time)
  = parseLocalDate tza now dateParse a.
Proof.
  intros Ha HT Hlen. unfold parseLocalDate.
  rewrite Ha, append_truthy.
  cbn [negb]. rewrite split_app, (split_lacks "T" a) by done. cbn [hd].
  destruct (split "-" a) as [|? [|? [|? [|]]]]; try discriminate Hlen.
  done.
Qed.


(** X14.  For a valid date [d] whose local year is at least 100, on a host
    whose zone is a fixed offset of less than a day: the part of
    [getLocalISOString(d)] before the [T] is [getLocalDate(d)];
    [parseLocalDate] reads the timestamp as it reads the date, as local
    midnight of the day of [d]; and the timestamp of that midnight is the
    date followed by [T00:00:00.000]. *)
Theorem getLocalISOString_parses_to_local_midnight t :
  Z.abs tza < msPerDay →
  Z.abs t ≤ maxTime →
  100 ≤ (localCivil tza t).1.1 →
  let d : Date := Some t in
  let midnight : Date := Some (utc tza (day (localTime tza t) * msPerDay)) in
  hd "" (split "T" (getLocalISOString tza d)) = getLocalDate tza d
  ∧ parseLocalDate tza now dateParse (getLocalISOString tza d) = midnight
  ∧ parseLocalDate tza now dateParse (getLocalDate tza d) = midnight
  ∧ getLocalISOString tza midnight = getLocalDate tza d +:+ "T00:00:00.000".
Proof.
  intros Hz Ht Hy d midnight. subst d midnight.
  unfold localCivil in Hy.
  destruct (civilFromDays (day (localTime tza t))) as [[y m] dd] eqn:E.
  cbn [fst snd] in Hy.
  destruct (civilFromDays_spec _ _ _ _ E) as (Hm & Hd & _).
  pose proof (parseLocalDate_getLocalDate tza now dateParse t y m dd
                Hz Ht E Hy) as Hparse.
  destruct (getLocalISOString_date (Some t)) as [time Htime].
  assert (HT : lacks "T" (getLocalDate tza (Some t)) = true).
  { rewrite (getLocalDate_civil _ _ _ _ _ E). apply text_lacks_T; lia. }
  split; [|split; [|split; [exact Hparse|]]].
  - rewrite Htime, split_app by done. done.
  - rewrite Htime, parseLocalDate_date_part; [exact Hparse| |done|].
    + apply getLocalDate_truthy.
    + rewrite (getLocalDate_civil _ _ _ _ _ E).
      destruct (toString_digits y ltac:(lia)) as (c & s & -> & _ & Hys & _).
      destruct (padStart_digits 2 m ltac:(lia)) as [Hms _].
      destruct (padStart_digits 2 dd ltac:(lia)) as [Hds _].
      change (String c s +:+ "-" +:+ padStart 2 (toString (Some m)) +:+ "-"
                +:+ padStart 2 (toString (Some dd)))
        with (String c s +:+ String "-" (padStart 2 (toString (Some m))
                +:+ String "-" (padStart 2 (toString (Some dd))))).
      rewrite split_app by (by apply digitsOnly_lacks).
      rewrite split_app by (by apply digitsOnly_lacks).
      by rewrite split_lacks by (by apply digitsOnly_lacks).
  - unfold getLocalISOString, getLocalDate, getFullYear, getMonth, getDate,
      getHours, getMinutes, getSeconds, getMilliseconds, localCivil.
    cbn [mbind option_bind].
    rewrite day_of_midnight.
    replace (timeWithinDay
               (localTime tza (utc tza (day (localTime tza t) * msPerDay))))
      with 0
      by (unfold timeWithinDay, localTime, utc, msPerDay;
          Z.to_euclidean_division_equations; lia).
    change (0 / 3600000) with 0. change (0 / 60000 mod 60) with 0.
    change (0 / 1000 mod 60) with 0. change (0 mod 1000) with 0.
    change (padStart 2 (toString (Some 0))) with "00".
    change (padStart 3 (toString (Some 0))) with "000".
    rewrite !append_assoc'. reflexivity.
Qed.

End LocalTimestamps.


Section LocalTimestampsSample.

Import Js JsDate DateLib.

(** 23:30 on 2026-02-10, five hours west of UTC. *)
Lemma getLocalISOString_parses_to_local_midnight_witness :
  let tza := -18000000 in
  let t := Sample.lateEvening in
  let midnight : Date := Some (utc tza (day (localTime tza t) * msPerDay)) in
  (Z.abs tza < msPerDay ∧ Z.abs t ≤ maxTime ∧ 100 ≤ (localCivil tza t).1.1)
  ∧ hd "" (split "T" (getLocalISOString tza (Some t)))
    = getLocalDate tza (Some t)
  ∧ parseLocalDate tza 0 (λ _, None) (getLocalISOString tza (Some t))
    = midnight
  ∧ parseLocalDate tza 0 (λ _, None) (getLocalDate tza (Some t)) = midnight
  ∧ getLocalISOString tza midnight
    = getLocalDate tza (Some t) +:+ "T00:00:00.000".
Proof.
  intros tza t midnight.
  assert (H1 : Z.abs tza < msPerDay) by (vm_compute; reflexivity).
  assert (H2 : Z.abs t ≤ maxTime) by (vm_compute; discriminate).
  assert (H3 : 100 ≤ (localCivil tza t).1.1) by (vm_compute; discriminate).
  split; [by repeat split|].
  exact (getLocalISOString_parses_to_local_midnight tza 0 (λ _, None) t
           H1 H2 H3).
Defined.

(** Noon of 2026-01-13 and the late evening of 2026-02-10. *)
Lemma getLocalDate_orders_as_the_calendar_witness :
  let tza := -18000000 in
  let t1 := Sample.secondDay in
  let t2 := Sample.lateEvening in
  (1000 ≤ (localCivil tza t1).1.1 ≤ 9999
   ∧ 1000 ≤ (localCivil tza t2).1.1 ≤ 9999)
  ∧ localeCompare (getLocalDate tza (Some t1)) (getLocalDate tza (Some t2))
    = -1.
Proof.
  intros tza t1 t2.
  assert (H1 : 1000 ≤ (localCivil tza t1).1.1 ≤ 9999)
    by (vm_compute; split; discriminate).
  assert (H2 : 1000 ≤ (localCivil tza t2).1.1 ≤ 9999)
    by (vm_compute; split; discriminate).
  split; [by split|].
  exact (proj1 (getLocalDate_orders_as_the_calendar tza t1 t2 H1 H2)).
Defined.

End LocalTimestampsSample.

(** ** The storage façade *)

Section Facade.

Import Store.

Context `{security : Security, supabase : Supabase, host : Host}.

Lemma take_new {A} (new old : list A) :
  take (length (new ++ old) - length old) (new ++ old) = new.
Proof.
  rewrite length_app. replace (length new + length old - length old)%nat
    with (length new) by lia.
  by rewrite take_app_length.
Qed.

Lemma take_new_0 {A} (old : list A) : take (length old - length old) old = [].
Proof. apply (take_new [] old). Qed.

Lemma take_new_1 {A} (x : A) (old : list A) :
  take (length (x :: old) - length old) (x :: old) = [x].
Proof. apply (take_new [x] old). Qed.

Lemma take_new_2 {A} (x y : A) (old : list A) :
  take (length (x :: y :: old) - length old) (x :: y :: old) = [x; y].
Proof. apply (take_new [x; y] old). Qed.

(** Symbolic execution of a call: [run c w] is named, computed apart from
    the goal down to the three things it depends on (the rate limiter's
    verdict, the configuration, the backend's answers), and put back. *)
Ltac unfold_store_in E :=
  cbv beta iota zeta delta [run
    fetchDailyEntries saveDailyEntry updateDailyEntry deleteDailyEntry
    fetchIdeas saveIdea updateIdea deleteIdea
    fetchWeeklyOutcomes saveWeeklyOutcome updateWeeklyOutcome
    deleteWeeklyOutcome
    fetchTodos saveTodo updateTodo deleteTodo
    fetchDecisions saveDecision updateDecision deleteDecision
    fetchContacts saveContact updateContact deleteContact
    fetchDiscoveries saveDiscovery updateDiscovery deleteDiscovery
    fetchExpenses saveExpense deleteExpense
    getDailyEntries getIdeas getWeeklyOutcomes getTodos getDecisions
    getContacts getDiscoveries getExpenses
    refused checkRateLimit ensureConfigured await updateCache getCache
    Store.getLocalDate isoDate bind return_] in E;
  cbn [negb fst snd journal localStorage rateLimiter clock Row.optStr
    DailyEntry.id DailyEntry.date DailyEntry.workedOn DailyEntry.shipped
    DailyEntry.traceDate DailyEntry.pinned DailyEntry.position
    Idea.id Idea.date Idea.thought Idea.category Idea.urgency Idea.status
    Idea.platform Idea.executed Idea.pinned Idea.traceDate
    WeeklyOutcome.id WeeklyOutcome.weekStarting WeeklyOutcome.build
    WeeklyOutcome.ship WeeklyOutcome.learn WeeklyOutcome.status
    WeeklyOutcome.reviewGenerated WeeklyOutcome.traceDate
    Todo.id Todo.title Todo.details Todo.deadline Todo.priority Todo.status
    Todo.completed Todo.createdAt Todo.traceDate Todo.timeSlot
    Todo.targetTime Todo.pinned Todo.completedAt
    DecisionGate.id DecisionGate.date DecisionGate.decision
    DecisionGate.outcome DecisionGate.status DecisionGate.traceDate
    Contact.id Contact.name Contact.company Contact.email Contact.linkedin
    Contact.xAccount Contact.notes Contact.dateAdded Contact.traceDate
    Contact.avatarUrl
    Discovery.id Discovery.title Discovery.url Discovery.description
    Discovery.category Discovery.impact Discovery.dateAdded
    Discovery.traceDate Discovery.pinned
    Expense.id Expense.title Expense.amount Expense.category Expense.date
    Expense.createdAt Expense.traceDate] in E.

Ltac step_store_in E :=
  match type of E with
  | context [canMakeRequest ?t ?l] =>
      let ok := fresh "ok" in
      let Hlimit := fresh "Hlimit" in
      destruct (canMakeRequest t l) as [ok ?] eqn:Hlimit; destruct ok
  | context [isSupabaseConfigured] =>
      let Hconf := fresh "Hconf" in
      destruct isSupabaseConfigured eqn:Hconf
  | context [failed ?r] =>
      let Hfail := fresh "Hfail" in
      destruct (failed r) eqn:Hfail
  end;
  cbn [negb fst snd journal localStorage rateLimiter clock] in *.

Ltac run_store c w :=
  unfold remoteFailed, exchanges in *;
  let w' := fresh "w'" in
  let E := fresh "E" in
  remember (run c w) as w' eqn:E in *;
  unfold_store_in E;
  repeat step_store_in E;
  subst w'; cbn [journal localStorage rateLimiter clock] in *;
  rewrite ?take_new_0, ?take_new_1, ?take_new_2 in *.

(** C1.  For every [saveX], [updateX] and [deleteX] and every state of the
    cache: if the remote write fails (the call's last exchange with the
    backend, which for a daily entry is the legacy retry, comes back with an
    error) then, once the call has settled, every [getX()] returns what it
    returned before the call; in particular the cache of the call's entity
    is what it was. *)
Theorem failed_write_reverts_cache (c : Call) (w : World) :
  isWrite c = true →
  remoteFailed c w = true →
  getAll (run c w) = getAll w.
Proof.
  intros Hw Hf. destruct c; try discriminate Hw; clear Hw.
  all: run_store ltac:(match goal with |- context [run ?c _] => c end) w.
  all: try discriminate; try congruence.
  all: destruct w as [[] ? ? ?]; reflexivity.
Qed.

(** When every key holds a parsed list, the revert restores [localStorage]
    itself; a key that was missing or unparsable ends up holding the empty
    list, which reads the same. *)
Lemma failed_write_restores_storage (c : Call) (w : World) a b c' d e f g h :
  localStorage w
  = mkLocalStorage (Stored a) (Stored b) (Stored c') (Stored d) (Stored e)
      (Stored f) (Stored g) (Stored h) →
  isWrite c = true →
  remoteFailed c w = true →
  localStorage (run c w) = localStorage w.
Proof.
  intros Hs Hw Hf. destruct c; try discriminate Hw; clear Hw.
  all: run_store ltac:(match goal with |- context [run ?c _] => c end) w.
  all: try discriminate; try congruence.
  all: by rewrite Hs.
Qed.

Lemma admitted_inv (w : World) :
  admitted w = true →
  (canMakeRequest (clock w) (rateLimiter w)).1 = true
  ∧ isSupabaseConfigured = true.
Proof. unfold admitted. by intros ?%andb_prop. Qed.

(** C2 (amended).  For every entity with an [updateX] and every cached
    collection: when the rate limiter grants the request, the backend is
    configured and the remote update does not fail, [getX()] after
    [updateX(r)] is the former collection with every record of [r]'s
    identifier replaced by [r], field for field, and every other record
    left as it was, in place. *)
Theorem update_replaces_by_id (c : Call) (r : AnyRecord) (w : World) :
  operationOf c = OpUpdate →
  argument c = Some r →
  admitted w = true →
  remoteFailed c w = false →
  cached (entityOf c) (run c w)
  = (λ x, if String.eqb (recordId x) (recordId r) then r else x)
      <$> cached (entityOf c) w
  ∧ ∀ (i : nat) (x : AnyRecord),
      cached (entityOf c) w !! i = Some x →
      cached (entityOf c) (run c w) !! i
      = Some (if String.eqb (recordId x) (recordId r) then r else x).
Proof.
  intros Hop Harg [Hlimit Hconf]%admitted_inv Hok.
  assert (H : cached (entityOf c) (run c w)
              = (λ x, if String.eqb (recordId x) (recordId r) then r else x)
                  <$> cached (entityOf c) w).
  { destruct c; try discriminate Hop; clear Hop;
      injection Harg as <-.
    all: run_store ltac:(match goal with |- context [run ?c _] => c end) w.
    all: try discriminate; try congruence.
    all: try discriminate Hlimit.
    all: unfold cached, entityOf, getDailyEntries, getIdeas,
           getWeeklyOutcomes, getTodos, getDecisions, getContacts,
           getDiscoveries, getExpenses, getCache;
         destruct w as [[] ? ? ?];
         cbn [fst localStorage getItem setItem CACHE_KEYS.DAILY
              CACHE_KEYS.IDEAS CACHE_KEYS.WEEKLY CACHE_KEYS.TODOS
              CACHE_KEYS.DECISIONS CACHE_KEYS.CONTACTS
              CACHE_KEYS.DISCOVERIES CACHE_KEYS.EXPENSES
              aj26_daily_logs aj26_ideas aj26_weekly_engine aj26_todos
              aj26_decisions aj26_contacts aj26_discoveries aj26_expenses];
         rewrite <- !list_fmap_compose; apply list_fmap_ext;
         intros ? x _; cbn [compose recordId];
         by destruct (String.eqb _ _). }
  split; [exact H|].
  intros i x Hi. by rewrite H, list_lookup_fmap, Hi.
Qed.


(** C9.  When the rate limiter refuses the request, [saveIdea] returns
    before any exchange with the backend and [localStorage] is exactly what
    it was, so [getIdeas()] too. *)
Theorem rate_limited_saveIdea_is_dropped (idea : Idea.t) (w : World) :
  (canMakeRequest (clock w) (rateLimiter w)).1 = false →
  exchanges (SaveIdea idea) w = []
  ∧ journal (run (SaveIdea idea) w) = journal w
  ∧ localStorage (run (SaveIdea idea) w) = localStorage w
  ∧ (getIdeas (run (SaveIdea idea) w)).1 = (getIdeas w).1.
Proof.
  intros Hlimit.
  run_store (SaveIdea idea) w; try discriminate Hlimit.
  done.
Qed.

(** X12.  A write that its guard refuses, for the rate limiter or for the
    missing configuration, makes no exchange with the backend and leaves
    [localStorage] as it was. *)
Lemma refused_write_is_dropped (c : Call) (w : World) :
  isWrite c = true →
  admitted w = false →
  exchanges c w = [] ∧ localStorage (run c w) = localStorage w.
Proof.
  intros Hw Ha. unfold admitted in Ha.
  destruct c; try discriminate Hw; clear Hw.
  all: run_store ltac:(match goal with |- context [run ?c _] => c end) w.
  all: try done.
  all: rewrite Hlimit, Hconf in Ha; discriminate Ha.
Qed.

(** The trace date is absent: the property is missing or the empty
    string, the two cases that [||] replaces. *)
Lemma orElseOpt_absent (d : option string) (today : string) :
  d = None ∨ d = Some "" → Js.orElseOpt d today = today.
Proof. by intros [-> | ->]. Qed.

(** X13.  All [saveX] but [saveExpense]: an absent trace date becomes the
    local calendar date, in the row sent and in the record cached. *)
Lemma save_assigns_local_date (c : Call) (r : AnyRecord) (w : World) :
  operationOf c = OpSave →
  entityOf c ≠ Expenses →
  argument c = Some r →
  recordTraceDate r = None ∨ recordTraceDate r = Some "" →
  admitted w = true →
  let today := DateLib.getLocalDate tza (Some (clock w)) in
  (∃ first, last (exchanges c w) = Some first
            ∧ Row.get (payload first.1) "trace_date" = Row.JStr today)
  ∧ (remoteFailed c w = false →
     ∃ saved, cached (entityOf c) (run c w) = saved :: cached (entityOf c) w
              ∧ recordTraceDate saved = Some today).
Proof.
  intros Hop Hent Harg Habsent [Hlimit Hconf]%admitted_inv today.
  destruct c; try discriminate Hop; try (by destruct Hent);
    clear Hop Hent; injection Harg as <-; cbn [recordTraceDate] in Habsent.
  all: run_store ltac:(match goal with |- context [run ?c _] => c end) w.
  all: try discriminate Hlimit; try discriminate Hconf.
  all: rewrite (orElseOpt_absent _ _ Habsent) in *.
  all: split; [eexists; split; [reflexivity|by cbn]|].
  all: try (intros; congruence).
  all: intros _; destruct w as [[] ? ? ?]; eexists; split; reflexivity.
Qed.

(** [saveExpense] takes the date of [toISOString], the UTC date. *)
Lemma saveExpense_assigns_utc_date (expense : Expense.t) (w : World) :
  Expense.traceDate expense = None ∨ Expense.traceDate expense = Some "" →
  admitted w = true →
  let today := hd "" (Js.split "T" (JsDate.toISOString (clock w))) in
  (∃ first, last (exchanges (SaveExpense expense) w) = Some first
            ∧ Row.get (payload first.1) "trace_date" = Row.JStr today)
  ∧ (remoteFailed (SaveExpense expense) w = false →
     ∃ saved, (getExpenses (run (SaveExpense expense) w)).1
              = saved :: (getExpenses w).1
              ∧ Expense.traceDate saved = Some today).
Proof.
  intros Habsent [Hlimit Hconf]%admitted_inv today.
  run_store (SaveExpense expense) w.
  all: try discriminate Hlimit; try discriminate Hconf.
  all: rewrite (orElseOpt_absent _ _ Habsent) in *.
  all: split; [eexists; split; [reflexivity|by cbn]|].
  all: try (intros; congruence).
  all: intros _; destruct w as [[] ? ? ?]; eexists; split; reflexivity.
Qed.

(** [updateContact]: what is sent, column by column. *)
Lemma updateContact_payload (updated : Contact.t) (w : World) :
  admitted w = true →
  ∃ row answer,
    exchanges (UpdateContact updated) w
    = [(Update "contacts" row (Contact.id updated), answer)]
    ∧ Row.get row "name" = Row.JStr (sanitizeText (Contact.name updated))
    ∧ Row.get row "company" = Row.JStr (sanitizeText (Contact.company updated))
    ∧ Row.get row "email" = Row.JStr (sanitizeEmail (Contact.email updated))
    ∧ Row.get row "linkedin" = Row.JStr (sanitizeUrl (Contact.linkedin updated))
    ∧ Row.get row "notes" = Row.JStr (sanitizeText (Contact.notes updated))
    ∧ Row.get row "x_account" = Row.JStr (Contact.xAccount updated)
    ∧ Row.get row "avatar_url" = Row.optStr (Contact.avatarUrl updated).
Proof.
  intros [Hlimit Hconf]%admitted_inv.
  run_store (UpdateContact updated) w.
  all: try discriminate Hlimit; try discriminate Hconf.
  all: eexists _, _; split; [reflexivity|]; by repeat split.
Qed.

(** *** Reads, and what a write leaves in the cache *)

Ltac unfold_caches :=
  unfold cached, stored, entityOf, getDailyEntries, getIdeas,
    getWeeklyOutcomes, getTodos, getDecisions, getContacts,
    getDiscoveries, getExpenses, getCache;
  cbn [fst snd localStorage getItem setItem CACHE_KEYS.DAILY
       CACHE_KEYS.IDEAS CACHE_KEYS.WEEKLY CACHE_KEYS.TODOS
       CACHE_KEYS.DECISIONS CACHE_KEYS.CONTACTS
       CACHE_KEYS.DISCOVERIES CACHE_KEYS.EXPENSES
       aj26_daily_logs aj26_ideas aj26_weekly_engine aj26_todos
       aj26_decisions aj26_contacts aj26_discoveries aj26_expenses].

Ltac unfold_fetch :=
  cbv beta iota zeta delta [fetched fetchOf run
    fetchDailyEntries fetchIdeas fetchWeeklyOutcomes fetchTodos
    fetchDecisions fetchContacts fetchDiscoveries fetchExpenses
    ensureConfigured await updateCache getCache Store.getLocalDate
    bind return_];
  cbn [negb fst snd journal localStorage rateLimiter clock].

Lemma fetched_cached (e : Entity) (w : World) :
  fetched e w = cached e (run (fetchOf e) w).
Proof.
  destruct e; unfold_fetch.
  all: destruct isSupabaseConfigured; cbn [negb fst snd].
  all: repeat match goal with
         | |- context [failed ?r] => destruct (failed r)
         end; cbn [negb fst snd journal localStorage rateLimiter clock].
  all: reflexivity.
Qed.

(** X1.  Whatever happens to a [fetchX()] (no configuration, an error of
    the backend, rows), the array it resolves to is the one that [getX()]
    returns once it has settled: the views that show the result of a fetch
    show the cache.  For the expenses this asks that the amount of every
    row received is one that [Number] reads as a number: a [NaN] is in the
    array and is [null] in the cache. *)
Theorem fetch_returns_the_cache_it_leaves (e : Entity) (w : World) :
  (∀ req resp,
     head (exchanges (fetchOf e) w) = Some (req, resp) →
     Forall (λ row, amountReads e row = true) (default [] (data resp))) →
  fetched e w = cached e (run (fetchOf e) w).
Proof. intros _. apply fetched_cached. Qed.

(** X2.  A [fetchX()] without configuration, or one whose last [select]
    came back with an error, resolves to the cached collection and leaves
    [localStorage] untouched; without configuration it does not reach the
    backend at all. *)
Theorem fetch_falls_back_to_the_cache (e : Entity) (w : World) :
  isSupabaseConfigured = false ∨ remoteFailed (fetchOf e) w = true →
  fetched e w = cached e w
  ∧ localStorage (run (fetchOf e) w) = localStorage w
  ∧ (isSupabaseConfigured = false → run (fetchOf e) w = w).
Proof.
  intros H. rewrite fetched_cached.
  destruct e; cbn [fetchOf] in *.
  all: run_store ltac:(match goal with |- context [run ?c _] => c end) w.
  all: try (destruct H as [H|H]; discriminate H).
  all: try (destruct H as [H|H]; congruence).
  all: repeat split; try done; try (by destruct w).
Qed.

(** X3.  A [fetchX()] whose last [select] succeeded with rows that carry
    the types of their columns ([wellTyped]: texts, flags and numbers where
    the record has them, an amount that [Number] reads, a decision with
    its text) resolves to the rows of the answer, each mapped to a record
    ([null] for the rows counts as no row), and the cache key of the
    entity then holds exactly that list: what was cached before, records
    that never reached the backend and unreadable text included, is
    replaced. *)
Theorem fetch_replaces_the_cache (e : Entity) (w : World) req resp :
  head (exchanges (fetchOf e) w) = Some (req, resp) →
  failed resp = false →
  Forall (λ row, wellTyped e row = true) (default [] (data resp)) →
  let today := DateLib.getLocalDate tza (Some (clock w)) in
  fetched e w = ofRow e today <$> default [] (data resp)
  ∧ stored e (localStorage (run (fetchOf e) w)) = Stored (fetched e w)
  ∧ isSelect req = true.
Proof.
  intros Hhead Hok _ today. rewrite fetched_cached.
  destruct e; cbn [fetchOf] in *.
  all: run_store ltac:(match goal with |- context [run ?c _] => c end) w.
  all: try discriminate Hhead.
  all: injection Hhead as <- <-; try congruence.
  all: unfold_caches; cbn [ofRow]; rewrite <- ?list_fmap_compose.
  all: by repeat split.
Qed.

(** X4.  A [saveX(r)] that passes its guard and whose insert does not fail
    puts one record at the head of the cached collection and keeps the
    rest as it was: the collection grows by one whether or not a record of
    that identifier is cached already.  The record has the identifier of
    [r], and its trace date when [r] brings one. *)
Theorem save_puts_the_record_first (c : Call) (r : AnyRecord) (w : World) :
  operationOf c = OpSave →
  argument c = Some r →
  admitted w = true →
  remoteFailed c w = false →
  ∃ saved,
    cached (entityOf c) (run c w) = saved :: cached (entityOf c) w
    ∧ recordId saved = recordId r
    ∧ (∀ d, recordTraceDate r = Some d → d ≠ "" →
            recordTraceDate saved = Some d).
Proof.
  intros Hop Harg [Hlimit Hconf]%admitted_inv Hok.
  destruct c; try discriminate Hop; clear Hop; injection Harg as <-.
  all: run_store ltac:(match goal with |- context [run ?c _] => c end) w.
  all: try discriminate Hlimit; try discriminate Hconf; try congruence.
  all: destruct w as [[] ? ? ?]; eexists; split; [reflexivity|].
  all: split; [reflexivity|].
  all: cbn [recordTraceDate DailyEntry.traceDate Idea.traceDate
            WeeklyOutcome.traceDate Todo.traceDate DecisionGate.traceDate
            Contact.traceDate Discovery.traceDate Expense.traceDate].
  all: intros d -> Hd; by destruct d.
Qed.

(** X5.  The row that [saveX] inserts and the record that it caches are
    the same data: read through the row mapper of [fetchX], the row of the
    first insert is the cached record, with its optional flags at the
    defaults that the row carries ([false], 0).  For a decision this asks
    that its status, its decision text as sanitized and, when the status
    is [Decided], its outcome as sanitized are not the empty string, and
    for a discovery that its impact is not: the mapper replaces an empty
    status or impact, and reads an empty decision text or outcome as
    [undefined]. *)
Theorem saved_row_reads_back (c : Call) (r : AnyRecord) (w : World)
    (today : string) :
  operationOf c = OpSave →
  argument c = Some r →
  admitted w = true →
  remoteFailed c w = false →
  "" ∉ fallbackFields r →
  ∃ saved row answer,
    head (cached (entityOf c) (run c w)) = Some saved
    ∧ last (exchanges c w) = Some (Insert (tableOf (entityOf c)) row, answer)
    ∧ ofRow (entityOf c) today row = withDefaults saved.
Proof.
  intros Hop Harg [Hlimit Hconf]%admitted_inv Hok Hfields.
  pose proof (getLocalDate_truthy tza (Some (clock w))) as Hlocal.
  pose proof (isoDate_truthy (clock w)) as Hiso.
  destruct c; try discriminate Hop; clear Hop; injection Harg as <-.
  all: run_store ltac:(match goal with |- context [run ?c _] => c end) w.
  all: try discriminate Hlimit; try discriminate Hconf; try congruence.
  all: match goal with
       | |- context [Js.orElseOpt ?d ?t] =>
           let td := fresh "td" in
           let Htd := fresh "Htd" in
           assert (Htd : Js.truthy (Js.orElseOpt d t) = true)
             by (by apply orElseOpt_truthy);
           set (td := Js.orElseOpt d t) in *; clearbody td;
           destruct td; [discriminate Htd|]
       end.
  all: eexists _, _, _.
  all: (split; [unfold_caches; reflexivity|]).
  all: (split; [reflexivity|]).
  all: cbn [ofRow entityOf withDefaults].
  all: unfold dailyEntryOfRow, ideaOfRow, weeklyOutcomeOfRow, todoOfRow,
         decisionOfRow, contactOfRow, discoveryOfRow, expenseOfRow.
  all: cbn.
  all: try reflexivity.
  all: repeat match goal with
         | |- context [Row.strOpt (Row.optStr ?o)] =>
             destruct o; cbn [Row.strOpt Row.optStr]
         end; try reflexivity.
  - destruct (sanitizeText (DecisionGate.decision decision)),
      (sanitizeText (DecisionGate.outcome decision)),
      (DecisionGate.status decision) eqn:E;
      try (exfalso; apply Hfields; cbn; rewrite E; left);
      cbn; by repeat case_bool_decide.
  - destruct (Discovery.impact discovery) eqn:E;
      [exfalso; apply Hfields; cbn; rewrite E; left|done].
Qed.

Lemma fmap_filter_recordId {T} (inj : T → AnyRecord) (idOf : T → string)
    (id : string) (l : list T) :
  (∀ x, recordId (inj x) = idOf x) →
  inj <$> filter (λ x, idOf x ≠ id) l
  = filter (λ x, recordId x ≠ id) (inj <$> l).
Proof.
  intros Hid. induction l as [|x l IH]; [reflexivity|].
  rewrite fmap_cons, !filter_cons, Hid.
  destruct (decide (idOf x ≠ id)); [|exact IH].
  by rewrite fmap_cons, IH.
Qed.

Lemma filter_recordId_fresh (id : string) (l : list AnyRecord) :
  id ∉ recordId <$> l → filter (λ x, recordId x ≠ id) l = l.
Proof.
  induction l as [|x l IH]; [reflexivity|].
  rewrite fmap_cons, not_elem_of_cons. intros [? ?].
  rewrite filter_cons_True by congruence. f_equal. by apply IH.
Qed.

(** X6.  A [deleteX(id)] that passes its guard and whose remote delete
    does not fail leaves the cached collection without any record of that
    identifier, duplicates included, and with every other record in place;
    it sends one request, the delete of that identifier in the table of
    the entity, also when no cached record has it. *)
Theorem delete_drops_every_record_of_the_id (c : Call) (id : string)
    (w : World) :
  target c = Some id →
  admitted w = true →
  remoteFailed c w = false →
  cached (entityOf c) (run c w)
  = filter (λ x, recordId x ≠ id) (cached (entityOf c) w)
  ∧ (∀ x, x ∈ cached (entityOf c) (run c w) → recordId x ≠ id)
  ∧ ∃ answer,
      exchanges c w = [(Delete (tableOf (entityOf c)) id, answer)].
Proof.
  intros Hid [Hlimit Hconf]%admitted_inv Hok.
  assert (H : cached (entityOf c) (run c w)
              = filter (λ x, recordId x ≠ id) (cached (entityOf c) w)
              ∧ ∃ answer,
                  exchanges c w = [(Delete (tableOf (entityOf c)) id, answer)]).
  { destruct c; try discriminate Hid; injection Hid as ->.
    all: run_store ltac:(match goal with |- context [run ?c _] => c end) w.
    all: try discriminate Hlimit; try discriminate Hconf; try congruence.
    all: (split; [|by eexists]).
    all: unfold_caches; destruct w as [[] ? ? ?];
      cbn [localStorage aj26_daily_logs aj26_ideas aj26_weekly_engine
           aj26_todos aj26_decisions aj26_contacts aj26_discoveries
           aj26_expenses]; try reflexivity.
    all: by apply fmap_filter_recordId. }
  destruct H as [H1 H2]. split; [exact H1|]. split; [|exact H2].
  intros x. rewrite H1. by intros [? _]%list_elem_of_filter.
Qed.

(** X7.  No call of the module, read or write, successful or not, changes
    what [localStorage] holds under the key of another entity. *)
Theorem call_leaves_other_entities_alone (c : Call) (e : Entity) (w : World) :
  e ≠ entityOf c →
  stored e (localStorage (run c w)) = stored e (localStorage w).
Proof.
  intros He.
  destruct c.
  all: run_store ltac:(match goal with |- context [run ?c _] => c end) w.
  all: try reflexivity.
  all: destruct e; try (by destruct He); reflexivity.
Qed.

(** X8.  Every [saveX], [updateX] and [deleteX] asks the rate limiter
    exactly once, before it looks at the configuration, so that a write
    without configuration uses up a request of the window all the same;
    a [fetchX] never asks it.  The clock is only read. *)
Theorem rate_limiter_is_asked_once_per_write (c : Call) (w : World) :
  rateLimiter (run c w)
  = (if isWrite c then (canMakeRequest (clock w) (rateLimiter w)).2
     else rateLimiter w)
  ∧ clock (run c w) = clock w.
Proof.
  destruct c.
  all: run_store ltac:(match goal with |- context [run ?c _] => c end) w.
  all: cbn [isWrite operationOf]; rewrite ?Hlimit; by split.
Qed.

(** The exchanges of a [fetchX()]: one [select], or two for the daily
    entries. *)
Lemma fetch_journal (e : Entity) (w : World) :
  isSupabaseConfigured = true →
  ∃ new,
    journal (run (fetchOf e) w) = (new ++ journal w)%list
    ∧ (1 ≤ length new ≤ 2)%nat
    ∧ (e ≠ DailyEntries → length new = 1%nat)
    ∧ Forall (λ x, isSelect x.1 = true) new
    ∧ rateLimiter (run (fetchOf e) w) = rateLimiter w.
Proof.
  intros Hconf0.
  destruct e; cbn [fetchOf].
  all: run_store ltac:(match goal with |- context [run ?c _] => c end) w.
  all: try discriminate Hconf0.
  all: try (eexists [_]; cbn [app length];
            repeat split; [lia..|by repeat constructor]).
  all: eexists [_; _]; cbn [app length];
    repeat split; [lia..|done|by repeat constructor].
Qed.

(** X9.  [syncAll()] only reads from the backend: each of its exchanges is
    a [select], eight of them or nine (the second attempt for the daily
    entries), and the rate limiter is not asked; without configuration it
    does nothing at all. *)
Theorem syncAll_only_reads (w : World) :
  rateLimiter (syncAll w).2 = rateLimiter w
  ∧ (∀ x, x ∈ syncExchanges w → isSelect x.1 = true)
  ∧ (isSupabaseConfigured = false → (syncAll w).2 = w)
  ∧ (isSupabaseConfigured = true → (8 ≤ length (syncExchanges w) ≤ 9)%nat).
Proof.
  cbv beta iota zeta delta
    [syncExchanges syncAll bind return_ ensureConfigured].
  destruct isSupabaseConfigured eqn:Hconf; cbn [negb snd].
  2: { rewrite take_new_0. repeat split; try done.
       by intros x ?%elem_of_nil. }
  destruct (fetchDailyEntries w) as [x1 w1] eqn:E1.
  destruct (fetchIdeas w1) as [x2 w2] eqn:E2.
  destruct (fetchWeeklyOutcomes w2) as [x3 w3] eqn:E3.
  destruct (fetchTodos w3) as [x4 w4] eqn:E4.
  destruct (fetchDecisions w4) as [x5 w5] eqn:E5.
  destruct (fetchContacts w5) as [x6 w6] eqn:E6.
  destruct (fetchDiscoveries w6) as [x7 w7] eqn:E7.
  destruct (fetchExpenses w7) as [x8 w8] eqn:E8.
  cbn [snd].
  destruct (fetch_journal DailyEntries w Hconf) as (n1 & J1 & L1 & _ & S1 & R1).
  destruct (fetch_journal Ideas w1 Hconf) as (n2 & J2 & _ & L2 & S2 & R2).
  destruct (fetch_journal WeeklyOutcomes w2 Hconf)
    as (n3 & J3 & _ & L3 & S3 & R3).
  destruct (fetch_journal Todos w3 Hconf) as (n4 & J4 & _ & L4 & S4 & R4).
  destruct (fetch_journal Decisions w4 Hconf) as (n5 & J5 & _ & L5 & S5 & R5).
  destruct (fetch_journal Contacts w5 Hconf) as (n6 & J6 & _ & L6 & S6 & R6).
  destruct (fetch_journal Discoveries w6 Hconf)
    as (n7 & J7 & _ & L7 & S7 & R7).
  destruct (fetch_journal Expenses w7 Hconf) as (n8 & J8 & _ & L8 & S8 & R8).
  cbn [run fetchOf] in *.
  rewrite E1 in J1, R1. rewrite E2 in J2, R2. rewrite E3 in J3, R3.
  rewrite E4 in J4, R4. rewrite E5 in J5, R5. rewrite E6 in J6, R6.
  rewrite E7 in J7, R7. rewrite E8 in J8, R8. cbn [snd] in *.
  specialize (L2 ltac:(done)). specialize (L3 ltac:(done)).
  specialize (L4 ltac:(done)). specialize (L5 ltac:(done)).
  specialize (L6 ltac:(done)). specialize (L7 ltac:(done)).
  specialize (L8 ltac:(done)).
  assert (J : journal w8
              = ((n8 ++ n7 ++ n6 ++ n5 ++ n4 ++ n3 ++ n2 ++ n1)
                   ++ journal w)%list).
  { rewrite J8, J7, J6, J5, J4, J3, J2, J1. by rewrite <- !app_assoc. }
  rewrite J, take_new.
  split; [congruence|]. split; [|split; [done|]].
  - intros x Hx. revert x Hx. apply Forall_forall.
    by repeat apply Forall_app_2.
  - intros _. rewrite !length_app. lia.
Qed.

(** X10.  An [updateX(r)] never adds, removes or moves a record: whether
    it is refused, fails or succeeds, the cached collection has the same
    identifiers in the same order afterwards.  An update of an identifier
    that is not cached changes nothing in the cache. *)
Theorem update_keeps_the_identifiers (c : Call) (r : AnyRecord) (w : World) :
  operationOf c = OpUpdate →
  argument c = Some r →
  recordId <$> cached (entityOf c) (run c w)
  = recordId <$> cached (entityOf c) w.
Proof.
  intros Hop Harg.
  destruct c; try discriminate Hop; clear Hop; injection Harg as <-.
  all: run_store ltac:(match goal with |- context [run ?c _] => c end) w.
  all: try reflexivity.
  all: unfold_caches; destruct w as [[] ? ? ?];
    cbn [localStorage aj26_daily_logs aj26_ideas aj26_weekly_engine
         aj26_todos aj26_decisions aj26_contacts aj26_discoveries
         aj26_expenses]; try reflexivity.
  all: rewrite <- !list_fmap_compose; apply list_fmap_ext; intros ? x _;
    cbn [compose recordId];
    match goal with
    | |- context [String.eqb ?a ?b] =>
        destruct (String.eqb_spec a b); cbn [recordId]; congruence
    end.
Qed.

(** X11.  Saving a record and then deleting its identifier, both calls
    passing their guard and neither failing remotely, leaves the cached
    collection as it was before the save, less every record that already
    had that identifier; when the identifier was new, exactly as it
    was. *)
Theorem delete_after_save_drops_the_record (save delete : Call)
    (r : AnyRecord) (w : World) :
  operationOf save = OpSave →
  argument save = Some r →
  target delete = Some (recordId r) →
  entityOf delete = entityOf save →
  admitted w = true →
  remoteFailed save w = false →
  admitted (run save w) = true →
  remoteFailed delete (run save w) = false →
  cached (entityOf save) (run delete (run save w))
  = filter (λ x, recordId x ≠ recordId r) (cached (entityOf save) w)
  ∧ (recordId r ∉ recordId <$> cached (entityOf save) w →
     cached (entityOf save) (run delete (run save w))
     = cached (entityOf save) w).
Proof.
  intros Hop Harg Hid Hent [Hlimit Hconf]%admitted_inv Hok Hadm Hok'.
  assert (H : cached (entityOf save) (run delete (run save w))
              = filter (λ x, recordId x ≠ recordId r)
                  (cached (entityOf save) w)).
  { destruct save; try discriminate Hop; clear Hop; injection Harg as <-.
    all: destruct delete; try discriminate Hent; try discriminate Hid;
      clear Hent; injection Hid as ->.
    all: apply admitted_inv in Hadm as [Hlimit' _].
    all: match goal with
         | |- context [run _ (run ?c ?w0)] => run_store c w0
         end.
    all: try discriminate Hlimit; try discriminate Hconf; try congruence.
    all: match goal with
         | |- context [run ?c ?w0] => run_store c w0
         end.
    all: try discriminate Hlimit'; try discriminate Hconf; try congruence.
    all: unfold_caches; destruct w as [[] ? ? ?];
      cbn [localStorage aj26_daily_logs aj26_ideas aj26_weekly_engine
           aj26_todos aj26_decisions aj26_contacts aj26_discoveries
           aj26_expenses recordId DailyEntry.id Idea.id WeeklyOutcome.id
           Todo.id DecisionGate.id Contact.id Discovery.id Expense.id].
    all: rewrite filter_cons;
      cbn [recordId DailyEntry.id Idea.id WeeklyOutcome.id
           Todo.id DecisionGate.id Contact.id Discovery.id Expense.id].
    all: destruct (decide _) as [Hne|_]; [by destruct Hne|].
    all: try reflexivity.
    all: by apply fmap_filter_recordId. }
  split; [exact H|].
  intros Hfresh. rewrite H. by apply filter_recordId_fresh.
Qed.

(** *** The dashboard's lists of tasks after a completion *)

Lemma filter_replaced {T} (P : T → Prop) `{∀ x, Decision (P x)}
    (id : T → string) (r : T) (l : list T) :
  ¬ P r →
  filter P ((λ t, if String.eqb (id t) (id r) then r else t) <$> l)
  = filter (λ t, id t ≠ id r) (filter P l).
Proof.
  intros Hr. induction l as [|x l IH]; [done|].
  cbn [fmap list_fmap]. rewrite !filter_cons.
  destruct (String.eqb_spec (id x) (id r)) as [E|E].
  - rewrite decide_False by done. destruct (decide (P x)); [|done].
    rewrite filter_cons, decide_False by tauto. done.
  - destruct (decide (P x)); [|done].
    rewrite filter_cons, decide_True by done. by rewrite IH.
Qed.

(** X28.  When the dashboard completes a pending task and the update goes
    through (the guard lets it pass and the backend does not fail), the
    three lists of tasks it then shows, made by dropping the task from the
    old lists, are the lists it would compute from the cache as the update
    left it. *)
Theorem dashboard_lists_follow_the_cache
    (lists : Dashboard.TaskLists) (todo : Todo.t) (w : World) :
  Todo.completed todo = false →
  admitted w = true →
  remoteFailed (UpdateTodo (Dashboard.toggled todo)) w = false →
  Dashboard.todayTodos lists
  = Dashboard.todayTasks (Store.getLocalDate w).1 (getTodos w).1 →
  Dashboard.overdueTodos lists
  = Dashboard.overdueTasks (Store.getLocalDate w).1 (getTodos w).1 →
  Dashboard.pinnedTodos lists = Dashboard.pinnedTasks (getTodos w).1 →
  let result := Dashboard.toggleComplete lists todo w in
  Dashboard.todayTodos result.1
  = Dashboard.todayTasks (Store.getLocalDate w).1 (getTodos result.2).1
  ∧ Dashboard.overdueTodos result.1
    = Dashboard.overdueTasks (Store.getLocalDate w).1 (getTodos result.2).1
  ∧ Dashboard.pinnedTodos result.1
    = Dashboard.pinnedTasks (getTodos result.2).1.
Proof.
  intros Hpending [Hlimit Hconf]%admitted_inv Hok Htoday Hoverdue Hpinned.
  assert (Hrun : ∀ lists,
            Dashboard.toggleComplete lists todo w
            = (Dashboard.mkTaskLists
                 (filter (λ t, Todo.id t ≠ Todo.id todo)
                    (Dashboard.todayTodos lists))
                 (filter (λ t, Todo.id t ≠ Todo.id todo)
                    (Dashboard.overdueTodos lists))
                 (filter (λ t, Todo.id t ≠ Todo.id todo)
                    (Dashboard.pinnedTodos lists)),
               run (UpdateTodo (Dashboard.toggled todo)) w)).
  { intros l. unfold Dashboard.toggleComplete, bind, return_, run.
    destruct (updateTodo _ w) as [[] w1]. cbn [fst snd].
    unfold Store.getLocalDate. done. }
  assert (Hcache : (getTodos (run (UpdateTodo (Dashboard.toggled todo)) w)).1
                   = (λ t, if String.eqb (Todo.id t) (Todo.id todo)
                           then Dashboard.toggled todo else t)
                       <$> (getTodos w).1).
  { run_store (UpdateTodo (Dashboard.toggled todo)) w.
    all: try discriminate Hlimit; try discriminate Hconf; try congruence.
    destruct w as [[] ? ? ?]; reflexivity. }
  cbv zeta. rewrite Hrun. cbn [fst snd Dashboard.todayTodos
    Dashboard.overdueTodos Dashboard.pinnedTodos].
  rewrite Hcache, Htoday, Hoverdue, Hpinned.
  unfold Dashboard.todayTasks, Dashboard.overdueTasks, Dashboard.pinnedTasks.
  change (Todo.id todo) with (Todo.id (Dashboard.toggled todo)).
  rewrite !filter_replaced; [done|..]; cbn; rewrite Hpending; cbn; intuition congruence.
Qed.

(*BEGIN*)
(** What [updateTodo] does once its guard lets it pass: one request, the
    update of the row of the identifier, with the columns below; and the
    cache holds the record in the place of those of its identifier, unless
    the backend answers with an error. *)
Lemma updateTodo_admitted (updated : Todo.t) (w : World) :
  admitted w = true →
  ∃ resp,
    exchanges (UpdateTodo updated) w
    = [(Update "todos"
          [("title", Row.JStr (sanitizeText (Todo.title updated)));
           ("details", Row.JStr (sanitizeText (Todo.details updated)));
           ("deadline", Row.JStr (Todo.deadline updated));
           ("priority", Row.JStr (Todo.priority updated));
           ("status", Row.JStr (Todo.status updated));
           ("completed", Row.JBool (Todo.completed updated));
           ("trace_date", Row.optStr (Todo.traceDate updated));
           ("time_slot", Row.optStr (Todo.timeSlot updated));
           ("target_time", Row.optStr (Todo.targetTime updated));
           ("pinned", Row.JBool (Js.orFalse (Todo.pinned updated)));
           ("completed_at", Row.optStr (Todo.completedAt updated))]
          (Todo.id updated), resp)]
    ∧ (getTodos (run (UpdateTodo updated) w)).1
      = if failed resp then (getTodos w).1
        else TodoList.replaceById (getTodos w).1 (Todo.id updated) updated.
Proof.
  intros [Hlimit Hconf]%admitted_inv.
  run_store (UpdateTodo updated) w.
  all: try discriminate Hlimit; try discriminate Hconf.
  all: eexists; split; [reflexivity|].
  all: rewrite Hfail; destruct w as [[] ? ? ?]; reflexivity.
Qed.

End Facade.

(** The fixed window refuses once its allowance is granted and the window
    has not run out. *)
Lemma fixedWindow_exhausted maxRequests windowMs now s :
  now < Sample.windowStart s + windowMs →
  (maxRequests ≤ Sample.granted s)%nat →
  Sample.fixedWindow maxRequests windowMs now s = (false, s).
Proof.
  intros Hnow Hmax. unfold Sample.fixedWindow.
  destruct (Z.leb_spec (Sample.windowStart s + windowMs) now); [lia|].
  destruct (Nat.ltb_spec (Sample.granted s) maxRequests); [lia|done].
Qed.

(** ** The façade on concrete backends *)

Section Unreachable.

Import Store.
#[local] Existing Instances Sample.security Sample.unreachable Sample.utcMinus5.

(** The backend is unreachable while an idea is saved over a cache that
    holds another one. *)
Lemma failed_write_reverts_cache_witness :
  let c := SaveIdea Sample.anIdea in
  let w := Sample.withIdeas [Sample.anotherIdea] in
  (isWrite c = true ∧ remoteFailed c w = true)
  ∧ getAll (run c w) = getAll w.
Proof.
  intros c w.
  assert (H1 : isWrite c = true) by reflexivity.
  assert (H2 : remoteFailed c w = true) by (vm_compute; reflexivity).
  split; [by split|]. exact (failed_write_reverts_cache c w H1 H2).
Defined.


End Unreachable.

Section LegacySchema.

Import Store.
#[local] Existing Instances Sample.security Sample.legacySchema Sample.utcMinus5.

(** On a backend without the columns [pinned] and [position], the second
    attempt of [saveDailyEntry] is the one that goes through, and the cache
    keeps the new entry. *)
Lemma saveDailyEntry_legacy_retry :
  exchanges (SaveDailyEntry Sample.anEntry) Sample.fresh
  = [(Insert "daily_entries"
        [("id", Row.JStr "d1"); ("date", Row.JStr "2026-02-10");
         ("worked_on", Row.JStr "proofs"); ("shipped", Row.JStr "a lemma");
         ("trace_date", Row.JStr "2026-02-10")], Sample.ok);
     (Insert "daily_entries"
        [("id", Row.JStr "d1"); ("date", Row.JStr "2026-02-10");
         ("worked_on", Row.JStr "proofs"); ("shipped", Row.JStr "a lemma");
         ("trace_date", Row.JStr "2026-02-10");
         ("pinned", Row.JBool false); ("position", Row.JNum 0)],
      Sample.rejected)]
  ∧ DailyEntry.id <$> (getDailyEntries (run (SaveDailyEntry Sample.anEntry) Sample.fresh)).1
    = ["d1"].
Proof. vm_compute. by split. Qed.

End LegacySchema.

Section LocalOnly.

Import Store.
#[local] Existing Instances Sample.security Sample.localOnly Sample.utcMinus5.

(** C2, as stated, fails without backend credentials: [updateIdea] returns
    at its guard and the cached idea of that identifier is not the
    argument. *)
Lemma updateIdea_local_only :
  let w := Sample.withIdeas [Sample.anIdea] in
  Idea.id Sample.anIdeaEdited = Idea.id Sample.anIdea
  ∧ (getIdeas w).1 = [Sample.anIdea]
  ∧ (getIdeas (run (UpdateIdea Sample.anIdeaEdited) w)).1 = [Sample.anIdea]
  ∧ Sample.anIdea ≠ Sample.anIdeaEdited.
Proof. vm_compute. by repeat split. Qed.

End LocalOnly.

Section Healthy.

Import Store.
#[local] Existing Instances Sample.security Sample.healthy Sample.utcMinus5.

(** An idea is edited while the backend answers. *)
Lemma update_replaces_by_id_witness :
  let c := UpdateIdea Sample.anIdeaEdited in
  let r := AnIdea Sample.anIdeaEdited in
  let w := Sample.withIdeas [Sample.anotherIdea; Sample.anIdea] in
  (operationOf c = OpUpdate ∧ argument c = Some r ∧ admitted w = true
   ∧ remoteFailed c w = false)
  ∧ cached (entityOf c) (run c w)
    = (λ x, if String.eqb (recordId x) (recordId r) then r else x)
        <$> cached (entityOf c) w.
Proof.
  intros c r w.
  assert (H1 : operationOf c = OpUpdate) by reflexivity.
  assert (H2 : argument c = Some r) by reflexivity.
  assert (H3 : admitted w = true) by (vm_compute; reflexivity).
  assert (H4 : remoteFailed c w = false) by (vm_compute; reflexivity).
  split; [by repeat split|].
  exact (proj1 (update_replaces_by_id c r w H1 H2 H3 H4)).
Defined.

(** The window of the rate limiter is used up when an idea is saved. *)
Lemma rate_limited_saveIdea_is_dropped_witness :
  let w := Sample.exhausted in
  (canMakeRequest (clock w) (rateLimiter w)).1 = false
  ∧ exchanges (SaveIdea Sample.anIdea) w = []
  ∧ journal (run (SaveIdea Sample.anIdea) w) = journal w
  ∧ localStorage (run (SaveIdea Sample.anIdea) w) = localStorage w
  ∧ (getIdeas (run (SaveIdea Sample.anIdea) w)).1 = (getIdeas w).1.
Proof.
  intros w.
  assert (H : (canMakeRequest (clock w) (rateLimiter w)).1 = false)
    by (vm_compute; reflexivity).
  split; [exact H|].
  exact (rate_limited_saveIdea_is_dropped Sample.anIdea w H).
Defined.

(** C7 on [saveExpense], at 23:30 on 2026-02-10 five hours west of UTC: the
    expense without a trace date is cached and sent with 2026-02-11, the
    date in UTC, while the local calendar date, which [saveDailyEntry]
    assigns at the same instant, is 2026-02-10. *)
Theorem saveExpense_assigns_the_utc_date :
  let w := Sample.fresh in
  Expense.traceDate Sample.anExpense = None
  ∧ DateLib.getLocalDate tza (Some (clock w)) = "2026-02-10"
  ∧ Expense.traceDate <$> (getExpenses (run (SaveExpense Sample.anExpense) w)).1
    = [Some "2026-02-11"]
  ∧ (λ x, Row.get (payload x.1) "trace_date")
      <$> exchanges (SaveExpense Sample.anExpense) w
    = [Row.JStr "2026-02-11"]
  ∧ DailyEntry.traceDate <$> (getDailyEntries (run (SaveDailyEntry Sample.anEntry) w)).1
    = [Some "2026-02-10"].
Proof. vm_compute. by repeat split. Qed.

(** C10 on [updateContact]: the handle and the avatar address go out as
    they came in, angle brackets included, so that the row sent is the
    cached record column for column, although sanitization alters both
    fields and [saveContact] applies it to both. *)
Theorem updateContact_sends_unsanitized_fields :
  let w := Sample.withContacts [Sample.aContact] in
  sanitizeText (Contact.xAccount Sample.aContact) = "ada"
  ∧ sanitizeUrl (default "" (Contact.avatarUrl Sample.aContact))
    = "https://example.org/a.png"
  ∧ (getContacts (run (UpdateContact Sample.aContact) w)).1 = [Sample.aContact]
  ∧ (λ x, payload x.1) <$> exchanges (UpdateContact Sample.aContact) w
    = [[("name", Row.JStr "Ada"); ("company", Row.JStr "AE");
        ("email", Row.JStr "ada@example.org");
        ("linkedin", Row.JStr "https://linkedin.com/in/ada");
        ("x_account", Row.JStr "<ada>");
        ("notes", Row.JStr "met at the fair");
        ("date_added", Row.JStr "2026-02-01");
        ("trace_date", Row.JStr "2026-02-01");
        ("avatar_url", Row.JStr "https://example.org/<a>.png")]]
  ∧ (λ x, (Row.get (payload x.1) "x_account",
           Row.get (payload x.1) "avatar_url"))
      <$> exchanges (SaveContact Sample.aContact) Sample.fresh
    = [(Row.JStr "ada", Row.JStr "https://example.org/a.png")].
Proof. vm_compute. by repeat split. Qed.

End Healthy.

(** ** Reads and writes on concrete backends *)

Section OutOfReach.

Import Store.
#[local] Existing Instances Sample.security Sample.unreachable Sample.utcMinus5.

(** The ideas are fetched while the backend is unreachable. *)
Lemma fetch_falls_back_to_the_cache_witness :
  let e := Ideas in
  let w := Sample.withIdeas [Sample.anIdea] in
  (isSupabaseConfigured = false ∨ remoteFailed (fetchOf e) w = true)
  ∧ fetched e w = cached e w
  ∧ localStorage (run (fetchOf e) w) = localStorage w
  ∧ (isSupabaseConfigured = false → run (fetchOf e) w = w).
Proof.
  intros e w.
  assert (H : isSupabaseConfigured = false ∨ remoteFailed (fetchOf e) w = true)
    by (right; vm_compute; reflexivity).
  split; [exact H|]. exact (fetch_falls_back_to_the_cache e w H).
Defined.

End OutOfReach.

Section Stocked.

Import Store.
#[local] Existing Instances Sample.security Sample.stocked Sample.utcMinus5.

(** The ideas are fetched from a backend that holds one, over a cache that
    holds another. *)
Lemma fetch_replaces_the_cache_witness :
  let e := Ideas in
  let w := Sample.withIdeas [Sample.anIdea] in
  let req := Select "ideas" [("trace_date", false)] in
  let resp := mkResponse (Some [Sample.ideaRow]) None in
  (head (exchanges (fetchOf e) w) = Some (req, resp) ∧ failed resp = false
   ∧ Forall (λ row, wellTyped e row = true) (default [] (data resp)))
  ∧ fetched e w
    = ofRow e (DateLib.getLocalDate tza (Some (clock w)))
        <$> default [] (data resp)
  ∧ stored e (localStorage (run (fetchOf e) w)) = Stored (fetched e w)
  ∧ isSelect req = true.
Proof.
  intros e w req resp.
  assert (H1 : head (exchanges (fetchOf e) w) = Some (req, resp))
    by (vm_compute; reflexivity).
  assert (H2 : failed resp = false) by (vm_compute; reflexivity).
  assert (H3 : Forall (λ row, wellTyped e row = true) (default [] (data resp)))
    by (repeat constructor).
  split; [by repeat split|].
  exact (fetch_replaces_the_cache e w req resp H1 H2 H3).
Defined.

(** The expenses are fetched from the same backend, whose row has the
    amount as the text 900. *)
Lemma fetch_returns_the_cache_it_leaves_witness :
  let e := Expenses in
  let w := Sample.fresh in
  (∀ req resp,
     head (exchanges (fetchOf e) w) = Some (req, resp) →
     Forall (λ row, amountReads e row = true) (default [] (data resp)))
  ∧ fetched e w = cached e (run (fetchOf e) w).
Proof.
  intros e w.
  assert (H : ∀ req resp,
            head (exchanges (fetchOf e) w) = Some (req, resp) →
            Forall (λ row, amountReads e row = true)
              (default [] (data resp))).
  { intros req resp Hhead. vm_compute in Hhead.
    injection Hhead as <- <-. repeat constructor. }
  split; [exact H|]. exact (fetch_returns_the_cache_it_leaves e w H).
Defined.

(** There [Number] reads the text as the number 900, for the array and
    for the cache; the row carries the types of its columns. *)
Lemma amount_text_reads_as_number :
  wellTyped Expenses Sample.expenseRow = true
  ∧ (fetchExpenses Sample.fresh).1
    = [{| Expense.id := "e7"; Expense.title := "Rent";
          Expense.amount := 900; Expense.category := "House Rent";
          Expense.date := "2026-02-01";
          Expense.createdAt := "2026-02-01T10:00:00.000Z";
          Expense.traceDate := Some "2026-02-01" |}]
  ∧ (getExpenses (fetchExpenses Sample.fresh).2).1
    = (fetchExpenses Sample.fresh).1.
Proof. vm_compute. by repeat split. Qed.

End Stocked.

Section Unconfigured.

Import Store.
#[local] Existing Instances Sample.security Sample.localOnly Sample.utcMinus5.

(** An idea is deleted in an application without credentials. *)
Lemma refused_write_is_dropped_witness :
  let c := DeleteIdea "i1" in
  let w := Sample.withIdeas [Sample.anIdea] in
  (isWrite c = true ∧ admitted w = false)
  ∧ exchanges c w = [] ∧ localStorage (run c w) = localStorage w.
Proof.
  intros c w.
  assert (H1 : isWrite c = true) by reflexivity.
  assert (H2 : admitted w = false) by (vm_compute; reflexivity).
  split; [by split|]. exact (refused_write_is_dropped c w H1 H2).
Defined.

End Unconfigured.

Section Answering.

Import Store.
#[local] Existing Instances Sample.security Sample.healthy Sample.utcMinus5.

(** An idea is saved a second time. *)
Lemma save_puts_the_record_first_witness :
  let c := SaveIdea Sample.anIdea in
  let r := AnIdea Sample.anIdea in
  let w := Sample.withIdeas [Sample.anIdea] in
  (operationOf c = OpSave ∧ argument c = Some r ∧ admitted w = true
   ∧ remoteFailed c w = false)
  ∧ ∃ saved,
      cached (entityOf c) (run c w) = saved :: cached (entityOf c) w
      ∧ recordId saved = recordId r
      ∧ (∀ d, recordTraceDate r = Some d → d ≠ "" →
              recordTraceDate saved = Some d).
Proof.
  intros c r w.
  assert (H1 : operationOf c = OpSave) by reflexivity.
  assert (H2 : argument c = Some r) by reflexivity.
  assert (H3 : admitted w = true) by (vm_compute; reflexivity).
  assert (H4 : remoteFailed c w = false) by (vm_compute; reflexivity).
  split; [by repeat split|].
  exact (save_puts_the_record_first c r w H1 H2 H3 H4).
Defined.

(** A discovery is saved. *)
Lemma saved_row_reads_back_witness :
  let c := SaveDiscovery Sample.aDiscovery in
  let r := ADiscovery Sample.aDiscovery in
  let w := Sample.fresh in
  (operationOf c = OpSave ∧ argument c = Some r ∧ admitted w = true
   ∧ remoteFailed c w = false ∧ "" ∉ fallbackFields r)
  ∧ ∃ saved row answer,
      head (cached (entityOf c) (run c w)) = Some saved
      ∧ last (exchanges c w)
        = Some (Insert (tableOf (entityOf c)) row, answer)
      ∧ ofRow (entityOf c) "2026-02-10" row = withDefaults saved.
Proof.
  intros c r w.
  assert (H1 : operationOf c = OpSave) by reflexivity.
  assert (H2 : argument c = Some r) by reflexivity.
  assert (H3 : admitted w = true) by (vm_compute; reflexivity).
  assert (H4 : remoteFailed c w = false) by (vm_compute; reflexivity).
  assert (H5 : "" ∉ fallbackFields r)
    by (by intros [=]%list_elem_of_singleton).
  split; [by repeat split|].
  exact (saved_row_reads_back c r w "2026-02-10" H1 H2 H3 H4 H5).
Defined.

(** An identifier that two cached ideas carry is deleted. *)
Lemma delete_drops_every_record_of_the_id_witness :
  let c := DeleteIdea "i1" in
  let w :=
    Sample.withIdeas [Sample.anIdea; Sample.anotherIdea; Sample.anIdeaEdited] in
  (target c = Some "i1" ∧ admitted w = true ∧ remoteFailed c w = false)
  ∧ cached (entityOf c) (run c w)
    = filter (λ x, recordId x ≠ "i1") (cached (entityOf c) w)
  ∧ (∀ x, x ∈ cached (entityOf c) (run c w) → recordId x ≠ "i1")
  ∧ ∃ answer,
      exchanges c w = [(Delete (tableOf (entityOf c)) "i1", answer)].
Proof.
  intros c w.
  assert (H1 : target c = Some "i1") by reflexivity.
  assert (H2 : admitted w = true) by (vm_compute; reflexivity).
  assert (H3 : remoteFailed c w = false) by (vm_compute; reflexivity).
  split; [by repeat split|].
  exact (delete_drops_every_record_of_the_id c "i1" w H1 H2 H3).
Defined.

(** An idea is saved while contacts are cached. *)
Lemma call_leaves_other_entities_alone_witness :
  let c := SaveIdea Sample.anIdea in
  let w := Sample.withContacts [Sample.aContact] in
  Contacts ≠ entityOf c
  ∧ stored Contacts (localStorage (run c w))
    = stored Contacts (localStorage w).
Proof.
  intros c w.
  assert (H : Contacts ≠ entityOf c) by discriminate.
  split; [exact H|].
  exact (call_leaves_other_entities_alone c Contacts w H).
Defined.

(** An idea that is not cached is updated. *)
Lemma update_keeps_the_identifiers_witness :
  let c := UpdateIdea Sample.anIdeaEdited in
  let r := AnIdea Sample.anIdeaEdited in
  let w := Sample.withIdeas [Sample.anotherIdea] in
  (operationOf c = OpUpdate ∧ argument c = Some r)
  ∧ recordId <$> cached (entityOf c) (run c w)
    = recordId <$> cached (entityOf c) w.
Proof.
  intros c r w.
  assert (H1 : operationOf c = OpUpdate) by reflexivity.
  assert (H2 : argument c = Some r) by reflexivity.
  split; [by split|].
  exact (update_keeps_the_identifiers c r w H1 H2).
Defined.

(** An idea is saved and deleted again. *)
Lemma delete_after_save_drops_the_record_witness :
  let save := SaveIdea Sample.anIdea in
  let delete := DeleteIdea "i1" in
  let r := AnIdea Sample.anIdea in
  let w := Sample.withIdeas [Sample.anotherIdea] in
  (operationOf save = OpSave ∧ argument save = Some r
   ∧ target delete = Some (recordId r) ∧ entityOf delete = entityOf save
   ∧ admitted w = true ∧ remoteFailed save w = false
   ∧ admitted (run save w) = true
   ∧ remoteFailed delete (run save w) = false)
  ∧ cached (entityOf save) (run delete (run save w))
    = filter (λ x, recordId x ≠ recordId r) (cached (entityOf save) w)
  ∧ (recordId r ∉ recordId <$> cached (entityOf save) w →
     cached (entityOf save) (run delete (run save w))
     = cached (entityOf save) w).
Proof.
  intros save delete r w.
  assert (H1 : operationOf save = OpSave) by reflexivity.
  assert (H2 : argument save = Some r) by reflexivity.
  assert (H3 : target delete = Some (recordId r)) by reflexivity.
  assert (H4 : entityOf delete = entityOf save) by reflexivity.
  assert (H5 : admitted w = true) by (vm_compute; reflexivity).
  assert (H6 : remoteFailed save w = false) by (vm_compute; reflexivity).
  assert (H7 : admitted (run save w) = true) by (vm_compute; reflexivity).
  assert (H8 : remoteFailed delete (run save w) = false)
    by (vm_compute; reflexivity).
  split; [by repeat split|].
  exact (delete_after_save_drops_the_record save delete r w
           H1 H2 H3 H4 H5 H6 H7 H8).
Defined.

(** A daily entry without a trace date is saved late in the evening. *)
Lemma save_assigns_local_date_witness :
  let c := SaveDailyEntry Sample.anEntry in
  let r := ADailyEntry Sample.anEntry in
  let w := Sample.fresh in
  let today := DateLib.getLocalDate tza (Some (clock w)) in
  (operationOf c = OpSave ∧ entityOf c ≠ Expenses ∧ argument c = Some r
   ∧ (recordTraceDate r = None ∨ recordTraceDate r = Some "")
   ∧ admitted w = true)
  ∧ (∃ first, last (exchanges c w) = Some first
              ∧ Row.get (payload first.1) "trace_date" = Row.JStr today)
  ∧ (remoteFailed c w = false →
     ∃ saved, cached (entityOf c) (run c w) = saved :: cached (entityOf c) w
              ∧ recordTraceDate saved = Some today).
Proof.
  intros c r w today.
  assert (H1 : operationOf c = OpSave) by reflexivity.
  assert (H2 : entityOf c ≠ Expenses) by discriminate.
  assert (H3 : argument c = Some r) by reflexivity.
  assert (H4 : recordTraceDate r = None ∨ recordTraceDate r = Some "")
    by (left; reflexivity).
  assert (H5 : admitted w = true) by (vm_compute; reflexivity).
  split; [by repeat split|].
  exact (save_assigns_local_date c r w H1 H2 H3 H4 H5).
Defined.

(** The task of today is completed on the dashboard. *)
Lemma dashboard_lists_follow_the_cache_witness :
  let todo := Sample.aTodo in
  let w := Sample.withTodos [Sample.aTodo; Sample.anOverdueTodo] in
  let lists :=
    Dashboard.mkTaskLists
      (Dashboard.todayTasks (Store.getLocalDate w).1 (getTodos w).1)
      (Dashboard.overdueTasks (Store.getLocalDate w).1 (getTodos w).1)
      (Dashboard.pinnedTasks (getTodos w).1) in
  let result := Dashboard.toggleComplete lists todo w in
  (Todo.completed todo = false ∧ admitted w = true
   ∧ remoteFailed (UpdateTodo (Dashboard.toggled todo)) w = false
   ∧ Dashboard.todayTodos lists
     = Dashboard.todayTasks (Store.getLocalDate w).1 (getTodos w).1
   ∧ Dashboard.overdueTodos lists
     = Dashboard.overdueTasks (Store.getLocalDate w).1 (getTodos w).1
   ∧ Dashboard.pinnedTodos lists = Dashboard.pinnedTasks (getTodos w).1)
  ∧ Dashboard.todayTodos result.1
    = Dashboard.todayTasks (Store.getLocalDate w).1 (getTodos result.2).1
  ∧ Dashboard.overdueTodos result.1
    = Dashboard.overdueTasks (Store.getLocalDate w).1 (getTodos result.2).1
  ∧ Dashboard.pinnedTodos result.1
    = Dashboard.pinnedTasks (getTodos result.2).1.
Proof.
  intros todo w lists result.
  assert (H1 : Todo.completed todo = false) by reflexivity.
  assert (H2 : admitted w = true) by (vm_compute; reflexivity).
  assert (H3 : remoteFailed (UpdateTodo (Dashboard.toggled todo)) w = false)
    by (vm_compute; reflexivity).
  split; [by repeat split|].
  exact (dashboard_lists_follow_the_cache lists todo w H1 H2 H3
           eq_refl eq_refl eq_refl).
Defined.

End Answering.

(** ** Sorting with a comparator *)

Section SortByRank.

Context {A : Type}.
Variable cmp : A → A → Z.

(** A coarse order that the comparator respects: whenever two elements
    differ in [rank], the comparator puts the one of lower rank first. *)
Variable rank : A → nat.
Hypothesis cmp_lower : ∀ a b, (rank a < rank b)%nat → cmp a b ≤ 0.
Hypothesis cmp_higher : ∀ a b, (rank b < rank a)%nat → 0 < cmp a b.

Lemma insertBy_perm x l : Js.insertBy cmp x l ≡ₚ x :: l.
Proof.
  induction l as [|y l IH]; simpl; [done|].
  destruct (cmp x y <=? 0); [done|]. by rewrite IH, Permutation_swap.
Qed.

Lemma sort_perm l : Js.sort cmp l ≡ₚ l.
Proof.
  induction l as [|x l IH]; simpl; [done|].
  unfold Js.sort in *. simpl. by rewrite insertBy_perm, IH.
Qed.

Lemma insertBy_byRank x l :
  StronglySorted (Js.byRank rank) l → StronglySorted (Js.byRank rank) (Js.insertBy cmp x l).
Proof.
  induction 1 as [|y l Hl IH Hy]; simpl; [repeat constructor|].
  destruct (Z.leb_spec (cmp x y) 0) as [Hle|Hgt].
  - assert (Hxy : Js.byRank rank x y).
    { unfold Js.byRank. destruct (decide (rank x ≤ rank y)%nat); [done|].
      pose proof (cmp_higher x y ltac:(lia)). lia. }
    constructor; [by constructor|]. constructor; [done|].
    eapply Forall_impl; [exact Hy|]. unfold Js.byRank in *. intros; lia.
  - assert (Hyx : Js.byRank rank y x).
    { unfold Js.byRank. destruct (decide (rank y ≤ rank x)%nat); [done|].
      pose proof (cmp_lower x y ltac:(lia)). lia. }
    constructor; [done|].
    rewrite insertBy_perm. by constructor.
Qed.

Lemma sort_byRank l : StronglySorted (Js.byRank rank) (Js.sort cmp l).
Proof.
  induction l as [|x l IH]; [constructor|]. by apply insertBy_byRank.
Qed.

(** In the sorted array an element of lower rank stands before every
    element of higher rank. *)
Lemma sort_lower_rank_first l (i j : nat) (a b : A) :
  Js.sort cmp l !! i = Some a → Js.sort cmp l !! j = Some b →
  (rank a < rank b)%nat → (i < j)%nat.
Proof.
  intros Hi Hj Hab. pose proof (sort_byRank l) as Hs.
  destruct (decide (i < j)%nat) as [|Hge]; [done|exfalso].
  destruct (decide (i = j)) as [->|Hne]; [simplify_eq; lia|].
  assert (Hji : (j < i)%nat) by lia. clear Hge Hne.
  revert Hs i j Hi Hj Hji. generalize (Js.sort cmp l). clear l.
  induction 1 as [|y l Hl IH Hy]; intros i j Hi Hj Hji; [done|].
  destruct j as [|j], i as [|i]; try lia; simplify_eq/=.
  - rewrite Forall_forall in Hy.
    pose proof (Hy a (list_elem_of_lookup_2 _ _ _ Hi)) as H. unfold Js.byRank in H. lia.
  - eapply IH; [done..|lia].
Qed.

End SortByRank.

(** ** The orderings of the views *)

Lemma compareIdeas_rank_lower a b :
  (IdeaInbox.rank a < IdeaInbox.rank b)%nat → IdeaInbox.compareIdeas a b ≤ 0.
Proof.
  unfold IdeaInbox.rank, IdeaInbox.compareIdeas.
  destruct (Js.orFalse (Idea.executed a)), (Js.orFalse (Idea.executed b)),
    (Js.orFalse (Idea.pinned a)), (Js.orFalse (Idea.pinned b)); simpl; lia.
Qed.

Lemma compareIdeas_rank_higher a b :
  (IdeaInbox.rank b < IdeaInbox.rank a)%nat → 0 < IdeaInbox.compareIdeas a b.
Proof.
  unfold IdeaInbox.rank, IdeaInbox.compareIdeas.
  destruct (Js.orFalse (Idea.executed a)), (Js.orFalse (Idea.executed b)),
    (Js.orFalse (Idea.pinned a)), (Js.orFalse (Idea.pinned b)); simpl; lia.
Qed.

Lemma compareDiscoveries_rank_lower a b :
  (Dashboard.pinRank Discovery.pinned a < Dashboard.pinRank Discovery.pinned b)%nat →
  Discoveries.compareDiscoveries a b ≤ 0.
Proof.
  unfold Dashboard.pinRank, Discoveries.compareDiscoveries.
  destruct (Js.orFalse (Discovery.pinned a)),
    (Js.orFalse (Discovery.pinned b)); simpl; lia.
Qed.

Lemma compareDiscoveries_rank_higher a b :
  (Dashboard.pinRank Discovery.pinned b < Dashboard.pinRank Discovery.pinned a)%nat →
  0 < Discoveries.compareDiscoveries a b.
Proof.
  unfold Dashboard.pinRank, Discoveries.compareDiscoveries.
  destruct (Js.orFalse (Discovery.pinned a)),
    (Js.orFalse (Discovery.pinned b)); simpl; lia.
Qed.

(** C4 (amended).  In the idea inbox, of two ideas with the same executed
    flag the pinned one stands before the unpinned one (an unexecuted idea
    stands before an executed one whatever the pins); the sorted list holds
    the same ideas; in the discoveries list and after the dashboard's
    [sortByPinned] every pinned record stands before every unpinned one; in
    particular, of two unexecuted ideas with [pinned] true and false the
    pinned one comes first in either input order, whatever the trace
    dates. *)
Theorem pinned_first_within_execution_status
    (ideas : list Idea.t) (i j : nat) (a b : Idea.t) :
  IdeaInbox.sorted ideas !! i = Some a →
  IdeaInbox.sorted ideas !! j = Some b →
  Js.orFalse (Idea.executed a) = Js.orFalse (Idea.executed b) →
  Js.orFalse (Idea.pinned a) = true →
  Js.orFalse (Idea.pinned b) = false →
  (i < j)%nat
  ∧ IdeaInbox.sorted ideas ≡ₚ ideas
  ∧ (∀ (discoveries : list Discovery.t) (i' j' : nat) (x y : Discovery.t),
       Discoveries.sorted discoveries !! i' = Some x →
       Discoveries.sorted discoveries !! j' = Some y →
       Js.orFalse (Discovery.pinned x) = true →
       Js.orFalse (Discovery.pinned y) = false →
       (i' < j')%nat)
  ∧ (∀ (T : Type) (pinned : T → option bool) (items : list T)
       (i' j' : nat) (x y : T),
       Dashboard.sortByPinned pinned items !! i' = Some x →
       Dashboard.sortByPinned pinned items !! j' = Some y →
       Js.orFalse (pinned x) = true →
       Js.orFalse (pinned y) = false →
       (i' < j')%nat)
  ∧ (Js.orFalse (Idea.executed a) = false →
     IdeaInbox.sorted [a; b] = [a; b] ∧ IdeaInbox.sorted [b; a] = [a; b]).
Proof.
  intros Hi Hj Hexe Ha Hb. repeat split.
  - eapply (sort_lower_rank_first _ IdeaInbox.rank
              compareIdeas_rank_lower compareIdeas_rank_higher); [done..|].
    unfold IdeaInbox.rank. rewrite Hexe, Ha, Hb.
    destruct (Js.orFalse (Idea.executed b)); simpl; lia.
  - apply sort_perm.
  - intros discoveries i' j' x y Hx Hy Hpx Hpy.
    eapply (sort_lower_rank_first _ (Dashboard.pinRank Discovery.pinned)
              compareDiscoveries_rank_lower compareDiscoveries_rank_higher);
      [done..|].
    unfold Dashboard.pinRank. rewrite Hpx, Hpy. lia.
  - intros T pinned items i' j' x y Hx Hy Hpx Hpy.
    unfold Dashboard.sortByPinned in *.
    eapply (sort_lower_rank_first _ (Dashboard.pinRank pinned)); [| |done..|].
    + intros u v. unfold Dashboard.pinRank.
      destruct (Js.orFalse (pinned u)), (Js.orFalse (pinned v)); simpl; lia.
    + intros u v. unfold Dashboard.pinRank.
      destruct (Js.orFalse (pinned u)), (Js.orFalse (pinned v)); simpl; lia.
    + unfold Dashboard.pinRank. rewrite Hpx, Hpy. lia.
  - unfold IdeaInbox.sorted, Js.sort. simpl.
    unfold IdeaInbox.compareIdeas. rewrite <- Hexe, H, Ha, Hb. done.
  - unfold IdeaInbox.sorted, Js.sort. simpl.
    unfold IdeaInbox.compareIdeas. rewrite <- Hexe, H, Ha, Hb. done.
Qed.

(** The inbox with a plain idea of 2026-02-10 and a pinned one of
    2026-02-09. *)
Lemma pinned_first_within_execution_status_witness :
  let ideas := [Sample.anIdea; Sample.anotherIdea] in
  (IdeaInbox.sorted ideas !! 0%nat = Some Sample.anotherIdea
   ∧ IdeaInbox.sorted ideas !! 1%nat = Some Sample.anIdea
   ∧ Js.orFalse (Idea.executed Sample.anotherIdea)
     = Js.orFalse (Idea.executed Sample.anIdea)
   ∧ Js.orFalse (Idea.pinned Sample.anotherIdea) = true
   ∧ Js.orFalse (Idea.pinned Sample.anIdea) = false)
  ∧ (0 < 1)%nat.
Proof.
  intros ideas.
  assert (H1 : IdeaInbox.sorted ideas !! 0%nat = Some Sample.anotherIdea)
    by reflexivity.
  assert (H2 : IdeaInbox.sorted ideas !! 1%nat = Some Sample.anIdea)
    by reflexivity.
  assert (H3 : Js.orFalse (Idea.executed Sample.anotherIdea)
               = Js.orFalse (Idea.executed Sample.anIdea)) by reflexivity.
  assert (H4 : Js.orFalse (Idea.pinned Sample.anotherIdea) = true)
    by reflexivity.
  assert (H5 : Js.orFalse (Idea.pinned Sample.anIdea) = false) by reflexivity.
  split; [by repeat split|].
  exact (proj1 (pinned_first_within_execution_status
                  ideas 0 1 _ _ H1 H2 H3 H4 H5)).
Defined.

(** C4, as stated, fails in the idea inbox: a pinned idea that is executed
    is placed after an unpinned one that is not. *)
Lemma executed_pinned_idea_sorts_last :
  Js.orFalse (Idea.pinned Sample.pinnedButExecuted) = true
  ∧ Js.orFalse (Idea.pinned Sample.anIdea) = false
  ∧ IdeaInbox.sorted [Sample.pinnedButExecuted; Sample.anIdea]
    = [Sample.anIdea; Sample.pinnedButExecuted].
Proof. by vm_compute. Qed.

(** ** Completing a task *)

Lemma toISOString_nonempty t : JsDate.toISOString t ≠ "".
Proof.
  unfold JsDate.toISOString.
  destruct (JsDate.civilFromDays (JsDate.day t)) as [[y m] d].
  destruct (JsDate.isoYear y); discriminate.
Qed.

Section TodoStates.

Import Store.
Context `{security : Security, supabase : Supabase, host : Host}.

Lemma replaceById_lookup todos id updated (i : nat) :
  TodoList.replaceById todos id updated !! i
  = (λ t, if String.eqb (Todo.id t) id then updated else t) <$> todos !! i.
Proof. unfold TodoList.replaceById. apply list_lookup_fmap. Qed.

(** What a handler of the task list does with the record [updated] that
    it builds for the task [todo]: the list for [setTodos] has [updated]
    in the place of every task of the identifier and the other tasks as
    they were, whatever becomes of the update; the store is asked to update
    the row of the identifier and, when the update goes through, its cache
    holds [updated] in the same places. *)
Lemma handler_reaches_list_and_cache
    (todos : list Todo.t) (todo updated : Todo.t) (w : World)
    (result : list Todo.t * World) :
  Todo.id updated = Todo.id todo →
  result = (TodoList.replaceById todos (Todo.id todo) updated,
            run (UpdateTodo updated) w) →
  length result.1 = length todos
  ∧ (∀ (i : nat) t, todos !! i = Some t →
       result.1 !! i
       = Some (if String.eqb (Todo.id t) (Todo.id todo) then updated else t))
  ∧ (admitted w = true →
     ∃ row resp,
       exchanges (UpdateTodo updated) w
       = [(Update "todos" row (Todo.id todo), resp)]
       ∧ Row.get row "status" = Row.JStr (Todo.status updated)
       ∧ Row.get row "completed" = Row.JBool (Todo.completed updated)
       ∧ Row.get row "completed_at" = Row.optStr (Todo.completedAt updated)
       ∧ (failed resp = false →
          ∀ (i : nat) t, (getTodos w).1 !! i = Some t →
            (getTodos result.2).1 !! i
            = Some (if String.eqb (Todo.id t) (Todo.id todo)
                    then updated else t))).
Proof.
  intros Hid ->. cbn [fst snd]. split; [|split].
  - unfold TodoList.replaceById. apply length_fmap.
  - intros i t Hi. by rewrite replaceById_lookup, Hi.
  - intros Hadm. destruct (updateTodo_admitted updated w Hadm)
      as (resp & Hx & Hcache).
    rewrite Hid in Hx. eexists _, resp. split; [exact Hx|].
    repeat split.
    intros Hok i t Hi. rewrite Hcache, Hok, Hid.
    by rewrite replaceById_lookup, Hi.
Qed.

(** The two handlers are such handlers, for the records [toggled] and
    [restated]. *)
Lemma toggleComplete_result todos todo (w : World) :
  TodoList.toggleComplete todos todo w
  = (TodoList.replaceById todos (Todo.id todo)
       (TodoList.toggled (clock w) todo),
     run (UpdateTodo (TodoList.toggled (clock w) todo)) w).
Proof.
  unfold TodoList.toggleComplete, bind, return_, run.
  by destruct (updateTodo _ w).
Qed.

Lemma updateStatus_result todos todo status (w : World) :
  TodoList.updateStatus todos todo status w
  = (TodoList.replaceById todos (Todo.id todo)
       (TodoList.restated (clock w) todo status),
     run (UpdateTodo (TodoList.restated (clock w) todo status)) w).
Proof.
  unfold TodoList.updateStatus, bind, return_, run.
  by destruct (updateTodo _ w).
Qed.

(** The records that the handlers build: [completed] and [status] agree;
    the time of completion is the non-empty timestamp of the moment on a
    transition into Completed, absent after a transition out of it, and
    kept otherwise. *)
Lemma completion_records (todo : Todo.t) (status : string) (now : Z) :
  let stamp := JsDate.toISOString now in
  let toggled := TodoList.toggled now todo in
  let restated := TodoList.restated now todo status in
  Todo.id toggled = Todo.id todo
  ∧ Todo.id restated = Todo.id todo
  ∧ TodoList.consistent toggled
  ∧ TodoList.consistent restated
  ∧ stamp ≠ ""
  ∧ Todo.status toggled
    = (if Todo.completed todo then "Pending" else "Completed")
  ∧ Todo.completedAt toggled
    = (if Todo.completed todo then None else Some stamp)
  ∧ Todo.status restated = status
  ∧ (TodoList.consistent todo →
     (Todo.status todo ≠ "Completed" → status = "Completed" →
      Todo.completedAt restated = Some stamp)
     ∧ (Todo.status todo = "Completed" → status ≠ "Completed" →
        Todo.completedAt restated = None)
     ∧ ((Todo.status todo = "Completed" ↔ status = "Completed") →
        Todo.completedAt restated = Todo.completedAt todo)).
Proof.
  intros stamp toggled restated.
  unfold TodoList.consistent.
  subst toggled restated. unfold TodoList.toggled, TodoList.restated.
  cbn [TodoList.withCompletion Todo.completed Todo.status Todo.completedAt
       Todo.id].
  split; [done|]. split; [done|].
  split; [by destruct (Todo.completed todo)|].
  split; [done|].
  split; [apply toISOString_nonempty|].
  split; [by destruct (Todo.completed todo)|].
  split; [by destruct (Todo.completed todo)|].
  split; [done|].
  intros Hc. rewrite Hc. repeat split.
  - intros Hs ->. by apply String.eqb_neq in Hs as ->.
  - intros -> Hs. by apply String.eqb_neq in Hs as ->.
  - intros Hiff. destruct (String.eqb_spec status "Completed") as [Hs|Hs],
      (String.eqb_spec (Todo.status todo) "Completed") as [Ht|Ht];
      try done; tauto.
Qed.

(** A task that is taken out of Completed goes to the backend without a
    time of completion: the column [completed_at] of the update is
    [undefined], which the JSON of the request leaves out. *)
Lemma uncompleting_sends_no_timestamp
    (todos : list Todo.t) (todo : Todo.t) (w : World) :
  Todo.completed todo = true →
  admitted w = true →
  ∃ row resp,
    exchanges (UpdateTodo (TodoList.toggled (clock w) todo)) w
    = [(Update "todos" row (Todo.id todo), resp)]
    ∧ (TodoList.toggleComplete todos todo w).2
      = run (UpdateTodo (TodoList.toggled (clock w) todo)) w
    ∧ Row.get row "status" = Row.JStr "Pending"
    ∧ Row.get row "completed" = Row.JBool false
    ∧ Row.get row "completed_at" = Row.JUndefined
    ∧ "completed_at" ∉ (Sample.carried row).*1.
Proof.
  intros Hc Hadm.
  destruct (updateTodo_admitted (TodoList.toggled (clock w) todo) w Hadm)
    as (resp & Hx & _).
  eexists _, resp. split; [exact Hx|].
  split; [by rewrite toggleComplete_result|].
  unfold TodoList.toggled. rewrite Hc.
  cbn [negb TodoList.withCompletion Todo.completed Todo.status
       Todo.completedAt Row.optStr].
  repeat split.
  unfold Sample.carried. intros Hin.
  apply list_elem_of_fmap in Hin as ([c v] & Hcol & Hin).
  apply list_elem_of_filter in Hin as [Hv Hin]. cbn [fst snd] in *. subst c.
  rewrite !elem_of_cons, elem_of_nil in Hin.
  repeat destruct Hin as [Hin|Hin]; try done; congruence.
Qed.

End TodoStates.

Section Persisting.

Import Store.
#[local] Existing Instances Sample.security Sample.todosTable Sample.utcMinus5.


End Persisting.

(** ** The logging streak *)

Section Streak.

Import Insights.

Lemma unique_elem x l seen : x ∈ Js.unique l seen ↔ x ∈ l ∧ x ∉ seen.
Proof.
  revert seen. induction l as [|y l IH]; intros seen; simpl.
  - split; [by intros ?%elem_of_nil|by intros [?%elem_of_nil _]].
  - unfold Js.includes. case_bool_decide as Hy.
    + rewrite IH, elem_of_cons.
      split; [tauto|]. intros [[-> | ?] ?]; [done|tauto].
    + rewrite !elem_of_cons, IH, not_elem_of_cons.
      destruct (decide (x = y)) as [-> | ?]; tauto.
Qed.

Lemma includes_logDates dailyLogs d :
  Js.includes (logDates dailyLogs) d = hasEntry dailyLogs d.
Proof.
  unfold Js.includes, hasEntry, logDates, Js.sortStrings.
  apply bool_decide_ext.
  rewrite elem_of_reverse, sort_perm, unique_elem.
  split; [by intros [? _]|]. intros ?. split; [done|]. by intros ?%elem_of_nil.
Qed.

(** Past its first round the loop adds the run of logged days at the
    front of what is left. *)
Lemma streakLoop_later dates days i n :
  (0 < i)%nat →
  streakLoop dates days i n = (n + loggedRun (Js.includes dates) days)%nat.
Proof.
  revert i n. induction days as [|d days IH]; intros i n Hi; simpl; [lia|].
  destruct (Js.includes dates d).
  - rewrite IH by lia. lia.
  - destruct (Nat.ltb_spec 0 i); lia.
Qed.

Lemma streakLoop_start dates days :
  streakLoop dates days 0 0
  = loggedRun (Js.includes dates)
      match days with
      | today :: earlier => if Js.includes dates today then days else earlier
      | [] => []
      end.
Proof.
  destruct days as [|d days]; simpl; [done|].
  destruct (Js.includes dates d) eqn:E; simpl; rewrite ?E;
    rewrite streakLoop_later by lia; done.
Qed.

Lemma loggedRun_ext f g days :
  (∀ d, f d = g d) → loggedRun f days = loggedRun g days.
Proof. intros H. induction days as [|d days IH]; simpl; [done|]. by rewrite H, IH. Qed.

(** The [i]-th day of the window is the local date of the instant [i]
    days before now. *)
Lemma dayBack_earlier tza now i :
  Z.abs (now - i * JsDate.msPerDay) ≤ JsDate.maxTime →
  dayBack tza now i = formatDate tza (Some (now - i * JsDate.msPerDay)).
Proof.
  intros Hclip. unfold dayBack, formatDate. f_equal.
  unfold JsDate.getDate, JsDate.localCivil. cbn [mbind option_bind Js.sub].
  unfold JsDate.setDate.
  destruct (JsDate.civilFromDays (JsDate.day (JsDate.localTime tza now)))
    as [[y m] d] eqn:E.
  destruct (civilFromDays_spec _ _ _ _ E) as (Hm & Hd & En).
  cbn [snd]. rewrite makeDay_civil by done.
  rewrite (daysFromCivil_day y m d (d - i)), En.
  replace (JsDate.utc tza
             ((JsDate.day (JsDate.localTime tza now) + (d - i - d))
                * JsDate.msPerDay
              + JsDate.timeWithinDay (JsDate.localTime tza now)))
    with (now - i * JsDate.msPerDay).
  - unfold JsDate.timeClip.
    by replace (Z.abs (now - i * JsDate.msPerDay) <=? JsDate.maxTime)
      with true by (symmetry; apply Z.leb_le; lia).
  - unfold JsDate.utc, JsDate.day, JsDate.timeWithinDay, JsDate.localTime,
      JsDate.msPerDay.
    Z.to_euclidean_division_equations; lia.
Qed.

End Streak.

Section Window.

Import Js JsDate DateLib Insights.

(** The year does not go down with the day. *)
Lemma year_mono n1 n2 :
  n1 ≤ n2 → (civilFromDays n1).1.1 ≤ (civilFromDays n2).1.1.
Proof.
  intros Hle. destruct (Z.eq_dec n1 n2) as [->|Hne]; [lia|].
  pose proof (civilFromDays_lt n1 n2 ltac:(lia)) as H.
  apply civilCompare_lt in H. lia.
Qed.

(** The texts of two days of years of four digits compare as the days
    do, whatever the zones in which they were taken. *)
Lemma getLocalDate_compare tza1 t1 tza2 t2 :
  1000 ≤ (localCivil tza1 t1).1.1 ≤ 9999 →
  1000 ≤ (localCivil tza2 t2).1.1 ≤ 9999 →
  String.compare (getLocalDate tza1 (Some t1)) (getLocalDate tza2 (Some t2))
  = (day (localTime tza1 t1) ?= day (localTime tza2 t2)).
Proof.
  intros H1 H2. unfold localCivil in H1, H2.
  destruct (civilFromDays (day (localTime tza1 t1))) as [[y1 m1] d1] eqn:E1.
  destruct (civilFromDays (day (localTime tza2 t2))) as [[y2 m2] d2] eqn:E2.
  cbn [fst snd] in H1, H2.
  destruct (civilFromDays_spec _ _ _ _ E1) as (Hm1 & Hd1 & _).
  destruct (civilFromDays_spec _ _ _ _ E2) as (Hm2 & Hd2 & _).
  rewrite (getLocalDate_fixedWidth _ _ _ _ _ E1 H1),
    (getLocalDate_fixedWidth _ _ _ _ _ E2 H2).
  rewrite fixedWidth_compare by (change (10 ^ Z.of_nat 4) with 10000; lia).
  change (String.compare (String "-" ?a) (String "-" ?b))
    with (String.compare a b).
  rewrite fixedWidth_compare by (change (10 ^ Z.of_nat 2) with 100; lia).
  change (String.compare (String "-" ?a) (String "-" ?b))
    with (String.compare a b).
  rewrite fixedWidth_compare by (change (10 ^ Z.of_nat 2) with 100; lia).
  change (String.compare "" "") with Eq.
  rewrite <- (civilFromDays_compare (day (localTime tza1 t1))
                (day (localTime tza2 t2))).
  rewrite E1, E2. unfold civilCompare. cbn [fst snd].
  by destruct (y1 ?= y2), (m1 ?= m2), (d1 ?= d2).
Qed.

Lemma day_of_dateOfDay n : day (localTime 0 (n * msPerDay)) = n.
Proof.
  unfold day, localTime, msPerDay. Z.to_euclidean_division_equations; lia.
Qed.

(** The text of a date is the text of its local day. *)
Lemma getLocalDate_dateOfDay tza t :
  getLocalDate tza (Some t) = dateOfDay (day (localTime tza t)).
Proof.
  unfold dateOfDay.
  destruct (civilFromDays (day (localTime tza t))) as [[y m] d] eqn:E.
  rewrite (getLocalDate_civil tza t y m d E).
  symmetry. apply getLocalDate_civil. by rewrite day_of_dateOfDay.
Qed.

Lemma dateOfDay_start : dateOfDay startDay = SYSTEM_START_DATE.
Proof. by vm_compute. Qed.

(** From the start date on, and only then, the text of a day passes the
    filter of the window. *)
Lemma dateOfDay_passes n :
  1000 ≤ (civilFromDays n).1.1 ≤ 9999 →
  strLe SYSTEM_START_DATE (dateOfDay n) = true ↔ startDay ≤ n.
Proof.
  intros Hy. rewrite <- dateOfDay_start. unfold strLe, String.leb, dateOfDay.
  rewrite getLocalDate_compare.
  - rewrite !day_of_dateOfDay.
    destruct (Z.compare_spec startDay n); split; intros; try done; lia.
  - unfold localCivil. rewrite day_of_dateOfDay. by vm_compute.
  - unfold localCivil. by rewrite day_of_dateOfDay.
Qed.

(** A filter that an index passes up to a bound keeps the front of a
    list made from the indices. *)
Lemma filter_front {A} (P : A → Prop) `{∀ x, Decision (P x)}
    (f : Z → A) (c m : Z) :
  0 ≤ m → (∀ i, 0 ≤ i < m → P (f i) ↔ i ≤ c) →
  filter P (f <$> seqZ 0 m) = f <$> seqZ 0 (Z.max 0 (Z.min m (c + 1))).
Proof.
  intros Hm. revert m Hm. apply (natlike_ind (λ m, _ → _)).
  - intros _. cbn. by replace (Z.max 0 (Z.min 0 (c + 1))) with 0 by lia.
  - intros m Hm IH HP. rewrite <- Z.add_1_r.
    rewrite (seqZ_app 0 m 1) by lia. rewrite fmap_app, filter_app.
    rewrite IH by (intros i Hi; apply HP; lia).
    change (seqZ (0 + m) 1) with [0 + m]. cbn [fmap list_fmap].
    rewrite filter_cons, filter_nil. rewrite Z.add_0_l.
    destruct (decide (P (f m))) as [Hp|Hp].
    + apply HP in Hp; [|lia].
      replace (Z.max 0 (Z.min (m + 1) (c + 1))) with (m + 1) by lia.
      replace (Z.max 0 (Z.min m (c + 1))) with m by lia.
      rewrite (seqZ_app 0 m 1) by lia. by rewrite fmap_app.
    + assert (¬ m ≤ c) by (intros ?; apply Hp, HP; lia).
      rewrite app_nil_r. f_equal. f_equal. lia.
Qed.

(** A run of logged days, read on the texts of consecutive days. *)
Lemma loggedRun_consecutive (logged : string → bool) (n : Z) (len : nat) :
  loggedRun logged ((λ i, dateOfDay (n - i)) <$> seqZ 0 (Z.of_nat len))
  = consecutiveLoggedDays (λ k, logged (dateOfDay k)) n len.
Proof.
  revert n. induction len as [|len IH]; intros n; [done|].
  rewrite Nat2Z.inj_succ, <- Z.add_1_l.
  rewrite (seqZ_app 0 1 (Z.of_nat len)) by lia.
  change (seqZ 0 1) with [0]. cbn [app fmap list_fmap loggedRun
    consecutiveLoggedDays].
  rewrite Z.sub_0_r. destruct (logged (dateOfDay n)); [|done]. f_equal.
  rewrite <- IH. f_equal.
  replace (seqZ (0 + 1) (Z.of_nat len))
    with (Z.add 1 <$> seqZ 0 (Z.of_nat len)) by (by rewrite fmap_add_seqZ).
  rewrite <- list_fmap_compose.
  apply list_fmap_ext. intros _ i _. cbn. f_equal. lia.
Qed.

End Window.

Section StreakWindow.

Import Insights.

Lemma day_bounds (n : Z) :
  1000 ≤ (JsDate.civilFromDays (n - 29)).1.1 →
  (JsDate.civilFromDays n).1.1 ≤ 9999 →
  -400000 ≤ n - 29 ∧ n ≤ 3000000.
Proof.
  intros Hlow Hhigh. split.
  - destruct (Z.le_gt_cases (-400000) (n - 29)) as [?|Hlt]; [done|].
    pose proof (year_mono (n - 29) (-400001) ltac:(lia)) as H.
    assert ((JsDate.civilFromDays (-400001)).1.1 < 1000) by (by vm_compute).
    lia.
  - destruct (Z.le_gt_cases n 3000000) as [?|Hgt]; [done|].
    pose proof (year_mono 3000001 n ltac:(lia)) as H.
    assert (9999 < (JsDate.civilFromDays 3000001).1.1) by (by vm_compute).
    lia.
Qed.

(** The window of the streak: the days from today backwards, as far as
    the cap of 30, the days since the start, and the start date allow. *)
Lemma last30Days_window (tza now : Z) :
  Z.abs tza ≤ JsDate.msPerDay →
  1000 ≤ (JsDate.civilFromDays
            (JsDate.day (JsDate.localTime tza now) - 29)).1.1 →
  (JsDate.localCivil tza now).1.1 ≤ 9999 →
  last30Days tza now
  = (λ i, dateOfDay (JsDate.day (JsDate.localTime tza now) - i))
      <$> seqZ 0 (Z.max 0
                    (Z.min (Z.min 30 (daysSinceStart now + 1))
                       (JsDate.day (JsDate.localTime tza now)
                        - startDay + 1))).
Proof.
  intros Htza Hlow Hhigh. unfold JsDate.localCivil in Hhigh.
  set (today := JsDate.day (JsDate.localTime tza now)) in *.
  destruct (day_bounds today Hlow Hhigh) as [Hlo Hhi].
  unfold last30Days. set (m := Z.min 30 (daysSinceStart now + 1)).
  assert (Hnow : - 400031 * JsDate.msPerDay ≤ now
                 ≤ 3000002 * JsDate.msPerDay).
  { subst today. revert Htza Hlo Hhi.
    unfold JsDate.day, JsDate.localTime, JsDate.msPerDay.
    intros. Z.to_euclidean_division_equations; lia. }
  assert (Hmap : dayBack tza now <$> seqZ 0 m
                 = (λ i, dateOfDay (today - i)) <$> seqZ 0 m).
  { apply list_fmap_ext. intros k i Hi.
    apply lookup_seqZ in Hi as [-> Hk].
    rewrite dayBack_earlier.
    - unfold formatDate. rewrite getLocalDate_dateOfDay. f_equal.
      subst today. unfold JsDate.day, JsDate.localTime, JsDate.msPerDay.
      Z.to_euclidean_division_equations; lia.
    - revert Hnow. unfold JsDate.msPerDay, JsDate.maxTime. lia. }
  rewrite Hmap.
  destruct (Z.le_gt_cases 0 m) as [Hm|Hm].
  - apply (filter_front (λ d, Js.strLe SYSTEM_START_DATE d = true)
             (λ i, dateOfDay (today - i)) (today - startDay) m Hm).
    intros i Hi. rewrite dateOfDay_passes; [lia|].
    pose proof (year_mono (today - 29) (today - i) ltac:(lia)).
    pose proof (year_mono (today - i) today ltac:(lia)). lia.
  - rewrite (seqZ_nil 0 m) by lia. cbn.
    by replace (Z.max 0 (Z.min m (today - startDay + 1))) with 0 by lia.
Qed.

(** C3 (amended).  The streak counts the consecutive local calendar days
    with at least one daily entry backward through the window
    [last30Days], which holds the days from today backward, at most 30 of
    them and none before the start date 2026-01-12; the count starts from
    today, or from yesterday when today has no entry yet, and the first
    other day without an entry ends it.  In particular, with entries on D,
    D-1 and D-2, all three in the window, and D-3 without an entry or out
    of the window, the streak on D is 3. *)
Theorem streak_counts_back_from_today
    (tza now : Z) (dailyLogs : list DailyEntry.t) :
  Z.abs tza ≤ JsDate.msPerDay →
  1000 ≤ (JsDate.civilFromDays
            (JsDate.day (JsDate.localTime tza now) - 29)).1.1 →
  (JsDate.localCivil tza now).1.1 ≤ 9999 →
  let today := JsDate.day (JsDate.localTime tza now) in
  let logged (n : Z) := hasEntry dailyLogs (dateOfDay n) in
  let size :=
    Z.to_nat (Z.min (Z.min 30 (daysSinceStart now + 1))
                (today - startDay + 1)) in
  DateLib.getLocalDate tza (Some now) = dateOfDay today
  ∧ last30Days tza now
    = (λ i, dateOfDay (today - i)) <$> seqZ 0 (Z.of_nat size)
  ∧ (size ≤ 30)%nat
  ∧ (∀ i, 0 ≤ i < Z.of_nat size → startDay ≤ today - i)
  ∧ streak tza now dailyLogs
    = (if logged today then consecutiveLoggedDays logged today size
       else consecutiveLoggedDays logged (today - 1) (size - 1))
  ∧ (logged today = true → logged (today - 1) = true →
     logged (today - 2) = true → (3 ≤ size)%nat →
     size = 3%nat ∨ logged (today - 3) = false →
     streak tza now dailyLogs = 3%nat).
Proof.
  intros Htza Hlow Hhigh today logged size.
  assert (Hwin : last30Days tza now
                 = (λ i, dateOfDay (today - i)) <$> seqZ 0 (Z.of_nat size)).
  { subst size. rewrite ZifyInst.of_nat_to_nat_eq. by apply last30Days_window. }
  assert (Hstreak : streak tza now dailyLogs
            = (if logged today then consecutiveLoggedDays logged today size
               else consecutiveLoggedDays logged (today - 1) (size - 1))).
  { unfold streak. rewrite streakLoop_start.
    rewrite (loggedRun_ext _ (hasEntry dailyLogs))
      by apply includes_logDates.
    rewrite Hwin. destruct size as [|k].
    - cbn. by destruct (logged today).
    - rewrite Nat2Z.inj_succ, <- Z.add_1_l.
      rewrite (seqZ_app 0 1 (Z.of_nat k)) by lia.
      change (seqZ 0 1) with [0]. cbn [app fmap list_fmap].
      rewrite Z.sub_0_r, includes_logDates.
      fold (logged today). destruct (logged today) eqn:Htoday.
      + etrans;
          [|exact (loggedRun_consecutive (hasEntry dailyLogs) today (S k))].
        f_equal. rewrite Nat2Z.inj_succ, <- Z.add_1_l.
        rewrite (seqZ_app 0 1 (Z.of_nat k)) by lia.
        change (seqZ 0 1) with [0]. cbn [app fmap list_fmap].
        by rewrite Z.sub_0_r.
      + replace (S k - 1)%nat with k by lia.
        etrans;
          [|exact (loggedRun_consecutive (hasEntry dailyLogs) (today - 1) k)].
        f_equal.
        replace (seqZ (0 + 1) (Z.of_nat k))
          with (Z.add 1 <$> seqZ 0 (Z.of_nat k)) by (by rewrite fmap_add_seqZ).
        rewrite <- list_fmap_compose.
        apply list_fmap_ext. intros _ i _. cbn. f_equal. lia. }
  split; [apply getLocalDate_dateOfDay|].
  split; [exact Hwin|]. split; [subst size; lia|]. split; [subst size; lia|].
  split; [exact Hstreak|].
  intros H0 H1 H2 Hsize Hend. rewrite Hstreak, H0.
  destruct size as [|[|[|k]]]; try lia.
  cbn [consecutiveLoggedDays]. rewrite H0, H1.
  replace (today - 1 - 1) with (today - 2) by lia. rewrite H2.
  destruct k as [|k]; [done|]. destruct Hend as [?|H3]; [lia|].
  cbn [consecutiveLoggedDays].
  replace (today - 2 - 1) with (today - 3) by lia. by rewrite H3.
Qed.

End StreakWindow.

(** Entries on 2026-02-10, -09 and -08, none on -07, seen at 23:30 on the
    10th, five hours west of UTC. *)
Lemma streak_counts_back_from_today_witness :
  let tza := -18000000 in
  let now := Sample.lateEvening in
  let logs := Sample.entryOn <$> ["2026-02-08"; "2026-02-10"; "2026-02-09"] in
  let today := JsDate.day (JsDate.localTime tza now) in
  (Z.abs tza ≤ JsDate.msPerDay
   ∧ 1000 ≤ (JsDate.civilFromDays (today - 29)).1.1
   ∧ (JsDate.localCivil tza now).1.1 ≤ 9999)
  ∧ Insights.dateOfDay today = "2026-02-10"
  ∧ Insights.streak tza now logs = 3%nat.
Proof.
  intros tza now logs today.
  assert (H1 : Z.abs tza ≤ JsDate.msPerDay) by (vm_compute; discriminate).
  assert (H2 : 1000 ≤ (JsDate.civilFromDays (today - 29)).1.1)
    by (vm_compute; discriminate).
  assert (H3 : (JsDate.localCivil tza now).1.1 ≤ 9999)
    by (vm_compute; discriminate).
  split; [by repeat split|]. split; [by vm_compute|].
  refine (proj2 (proj2 (proj2 (proj2 (proj2
            (streak_counts_back_from_today tza now logs H1 H2 H3)))))
            _ _ _ _ _); try (vm_compute; reflexivity).
  - vm_compute. lia.
  - right. vm_compute. reflexivity.
Defined.

(** C3, as stated, fails twice.  With entries on the two days before today
    and none today, the count backward from today is 0 and the streak is 2:
    a missing entry today does not end the count.  And on 2026-01-13, with
    entries on the 13th, 12th and 11th and none on the 10th, the streak is
    2 and not 3: the window does not reach before the start date. *)
Lemma streak_disagrees_with_count_from_today :
  let tza := -18000000 in
  let logs := Sample.entryOn <$> ["2026-02-09"; "2026-02-08"] in
  let logged (n : Z) :=
    Insights.hasEntry logs (DateLib.getLocalDate 0 (Some (n * JsDate.msPerDay))) in
  let today := JsDate.day (JsDate.localTime tza Sample.lateEvening) in
  let early := Sample.entryOn <$> ["2026-01-13"; "2026-01-12"; "2026-01-11"] in
  DateLib.getLocalDate 0 (Some (today * JsDate.msPerDay)) = "2026-02-10"
  ∧ Insights.consecutiveLoggedDays logged today 30 = 0%nat
  ∧ Insights.streak tza Sample.lateEvening logs = 2%nat
  ∧ DateLib.getLocalDate tza (Some Sample.secondDay) = "2026-01-13"
  ∧ Insights.hasEntry early "2026-01-10" = false
  ∧ Insights.loadDailyLogs early = [Sample.entryOn "2026-01-13"; Sample.entryOn "2026-01-12"]
  ∧ Insights.streak tza Sample.secondDay early = 2%nat.
Proof. vm_compute. by repeat split. Qed.

(** ** The task list: filters and groups *)

Section Groups.

Context {A : Type}.
Implicit Types (g : list (string * list A)) (l : list A).

Lemma concat_perm (a b : list (list A)) : a ≡ₚ b → concat a ≡ₚ concat b.
Proof.
  induction 1 as [|x a b _ IH|x y a|a b c _ IH1 _ IH2]; cbn.
  - done.
  - by rewrite IH.
  - rewrite !app_assoc. f_equiv. apply Permutation_app_comm.
  - by rewrite IH1.
Qed.

Lemma pushTo_perm key x g :
  concat (Js.pushTo key x g).*2 ≡ₚ x :: concat g.*2.
Proof.
  induction g as [|[k xs] g IH]; cbn; [done|].
  destruct (String.eqb k key); cbn.
  - rewrite <- app_assoc. cbn. by rewrite <- Permutation_middle.
  - rewrite IH. by rewrite <- Permutation_middle.
Qed.

Lemma foldl_pushTo_perm (key : A → string) l g :
  concat (foldl (λ groups x, Js.pushTo (key x) x groups) g l).*2
  ≡ₚ (concat g.*2 ++ l)%list.
Proof.
  revert g. induction l as [|x l IH]; intros g; cbn.
  - by rewrite app_nil_r.
  - rewrite IH, pushTo_perm. cbn. by rewrite <- Permutation_middle.
Qed.

Lemma groupBy_perm (key : A → string) l :
  concat (Js.groupBy key l).*2 ≡ₚ l.
Proof. unfold Js.groupBy. by rewrite foldl_pushTo_perm. Qed.

Lemma pushTo_keys key x g :
  Js.keys (Js.pushTo key x g)
  = if bool_decide (key ∈ Js.keys g) then Js.keys g
    else (Js.keys g ++ [key])%list.
Proof.
  unfold Js.keys. induction g as [|[k xs] g IH]; cbn; [done|].
  destruct (String.eqb_spec k key) as [->|Hne]; cbn.
  - rewrite bool_decide_eq_true_2 by left. done.
  - rewrite IH. case_bool_decide as H1; case_bool_decide as H2; try done.
    + destruct H2. by right.
    + apply elem_of_cons in H2 as [->|?]; done.
Qed.

Lemma pushTo_NoDup key x g : NoDup (Js.keys g) → NoDup (Js.keys (Js.pushTo key x g)).
Proof.
  intros H. rewrite pushTo_keys. case_bool_decide; [done|].
  apply NoDup_app. split; [done|]. split; [|apply NoDup_singleton].
  intros y Hy ->%list_elem_of_singleton. done.
Qed.

Lemma groupBy_NoDup (key : A → string) l : NoDup (Js.keys (Js.groupBy key l)).
Proof.
  unfold Js.groupBy.
  assert (H : ∀ g, NoDup (Js.keys g) →
    NoDup (Js.keys (foldl (λ groups x, Js.pushTo (key x) x groups) g l))).
  { induction l as [|x l IH]; intros g Hg; cbn; [done|].
    by apply IH, pushTo_NoDup. }
  apply H. constructor.
Qed.



Lemma at_keys g : NoDup (Js.keys g) → Js.at_ g <$> Js.keys g = g.*2.
Proof.
  unfold Js.keys. induction g as [|[k xs] g IH]; cbn; [done|].
  intros [Hk Hg]%NoDup_cons. rewrite String.eqb_refl. f_equal.
  rewrite <- IH by done. apply list_fmap_ext. intros i k' Hk'. cbn.
  destruct (String.eqb_spec k k') as [->|?]; [|done].
  destruct Hk. by eapply list_elem_of_lookup_2.
Qed.

Lemma at_elem g key :
  key ∈ Js.keys g → (key, Js.at_ g key) ∈ g.
Proof.
  unfold Js.keys. induction g as [|[k xs] g IH]; cbn.
  - by intros ?%elem_of_nil.
  - destruct (String.eqb_spec k key) as [->|?]; [left|].
    intros [?|?]%elem_of_cons; [done|]. right. by apply IH.
Qed.

Lemma at_perm g ks :
  NoDup (Js.keys g) → ks ≡ₚ Js.keys g →
  concat (Js.at_ g <$> ks) ≡ₚ concat g.*2.
Proof.
  intros Hg Hks. rewrite <- (at_keys g Hg). apply concat_perm.
  by rewrite Hks.
Qed.

End Groups.

Section SortByOrder.

Context {A : Type}.
Variable cmp : A → A → Z.
Variable R : relation A.
Variable P : A → Prop.
Hypothesis R_trans : ∀ a b c, P a → P b → P c → R a b → R b c → R a c.
Hypothesis cmp_le : ∀ a b, P a → P b → cmp a b ≤ 0 → R a b.
Hypothesis cmp_gt : ∀ a b, P a → P b → 0 < cmp a b → R b a.

Lemma insertBy_P x l : P x → Forall P l → Forall P (Js.insertBy cmp x l).
Proof.
  intros Hx Hl. eapply Forall_forall. intros y Hy.
  rewrite (insertBy_perm cmp x l) in Hy.
  apply elem_of_cons in Hy as [->|Hy]; [done|].
  by eapply Forall_forall in Hl.
Qed.

Lemma insertBy_sorted x l :
  P x → Forall P l →
  StronglySorted R l → StronglySorted R (Js.insertBy cmp x l).
Proof.
  intros Hx Hl Hs. induction Hs as [|y l Hs IH Hy]; cbn.
  - by repeat constructor.
  - apply Forall_cons in Hl as [Py Pl].
    destruct (Z.leb_spec (cmp x y) 0) as [Hle|Hgt].
    + constructor; [by constructor|]. constructor; [by apply cmp_le|].
      eapply Forall_forall. intros z Hz.
      pose proof (proj1 (Forall_forall _ _) Hy z Hz).
      pose proof (proj1 (Forall_forall _ _) Pl z Hz).
      eapply (R_trans x y z); auto.
    + constructor; [by apply IH|].
      eapply Forall_forall. intros z Hz.
      rewrite (insertBy_perm cmp x l) in Hz.
      apply elem_of_cons in Hz as [->|Hz]; [by apply cmp_gt|].
      by eapply Forall_forall in Hy.
Qed.

Lemma sort_P l : Forall P l → Forall P (Js.sort cmp l).
Proof.
  intros Hl. eapply Forall_forall. intros y Hy.
  rewrite (sort_perm cmp l) in Hy. by eapply Forall_forall in Hl.
Qed.

Lemma sort_sorted l : Forall P l → StronglySorted R (Js.sort cmp l).
Proof.
  induction l as [|x l IH]; intros Hl; cbn; [constructor|].
  apply Forall_cons in Hl as [Px Pl].
  apply insertBy_sorted; [done|by apply sort_P|by apply IH].
Qed.

End SortByOrder.

Section StringOrder.

Lemma ascii_compare_refl c : Ascii.compare c c = Eq.
Proof. unfold Ascii.compare. apply N.compare_refl. Qed.

Lemma ascii_compare_eq a b : Ascii.compare a b = Eq → a = b.
Proof.
  unfold Ascii.compare. intros H%N.compare_eq.
  by rewrite <- (ascii_N_embedding a), <- (ascii_N_embedding b), H.
Qed.

Lemma string_compare_refl s : String.compare s s = Eq.
Proof. induction s as [|c s IH]; cbn; [done|]. by rewrite ascii_compare_refl. Qed.

Lemma string_compare_lt_trans a b c :
  String.compare a b = Lt → String.compare b c = Lt → String.compare a c = Lt.
Proof.
  revert b c. induction a as [|x a IH]; intros [|y b] [|z c]; cbn; try done.
  unfold Ascii.compare.
  destruct (N.compare_spec (N_of_ascii x) (N_of_ascii y)) as [Exy|Hxy|Hxy];
    destruct (N.compare_spec (N_of_ascii y) (N_of_ascii z)) as [Eyz|Hyz|Hyz];
    try done.
  - rewrite Exy, Eyz, N.compare_refl. apply IH.
  - intros _ _. rewrite Exy. apply N.compare_lt_iff in Hyz. by rewrite Hyz.
  - intros _ _. rewrite <- Eyz. apply N.compare_lt_iff in Hxy. by rewrite Hxy.
  - intros _ _.
    assert (H : (N_of_ascii x < N_of_ascii z)%N) by lia.
    apply N.compare_lt_iff in H. by rewrite H.
Qed.

Lemma strLe_iff a b :
  Js.strLe a b = true ↔ String.compare a b = Lt ∨ a = b.
Proof.
  unfold Js.strLe, String.leb.
  destruct (String.compare a b) eqn:E; split; try done; auto.
  - intros _. right. by apply String.compare_eq_iff.
  - intros [? | ->]; [done|]. by rewrite string_compare_refl in E.
Qed.


Lemma strLe_trans a b c :
  Js.strLe a b = true → Js.strLe b c = true → Js.strLe a c = true.
Proof.
  rewrite !strLe_iff. intros [H1 | ->] [H2 | ->]; auto.
  left. by eapply string_compare_lt_trans.
Qed.





End StringOrder.

Section TaskGroups.

Import Store TodoList.

Context `{host : Host}.

Lemma filter_split {T} (P Q : T → Prop) `{∀ x, Decision (P x)}
    `{∀ x, Decision (Q x)} (l : list T) :
  (∀ x, Q x ↔ ¬ P x) → (filter P l ++ filter Q l)%list ≡ₚ l.
Proof.
  intros HQ. rewrite (list_filter_iff Q (λ x, ¬ P x) l HQ).
  apply filter_app_complement.
Qed.

Lemma flag_false_iff (b : bool) : b = false ↔ ¬ b = true.
Proof. by destruct b. Qed.

(** The tasks of the groups, group after group. *)
Lemma groupTodosByDate_perm today filter todoList :
  base.filter (λ t, Todo.completed t = true) todoList = []
  ∨ filter = "all" ∨ filter = "completed" →
  concat (todos <$> groupTodosByDate today filter todoList) ≡ₚ todoList.
Proof.
  intros Hfilter. unfold groupTodosByDate.
  set (pendingTodos := base.filter (λ t, Todo.completed t = false) todoList).
  set (completedTodos := base.filter (λ t, Todo.completed t = true) todoList)
    in *.
  set (pinnedTodos :=
         base.filter (λ t, Js.orFalse (Todo.pinned t) = true) pendingTodos).
  set (unpinnedTodos :=
         base.filter (λ t, Js.orFalse (Todo.pinned t) = false) pendingTodos).
  rewrite !fmap_app, !concat_app.
  assert (H1 : concat (todos <$>
                 (if (0 <? length pinnedTodos)%nat
                  then [mkGroup "pinned" (Js.sort comparePinned pinnedTodos)
                          false false false true None]
                  else [])) ≡ₚ pinnedTodos).
  { destruct pinnedTodos; cbn [length Nat.ltb Nat.leb fmap list_fmap concat];
      [done|]. cbn [todos]. rewrite app_nil_r. apply sort_perm. }
  assert (H2 : ∀ (cmp : Todo.t → Todo.t → Z) (mk : string → list Todo.t → Group)
                 g ks,
             (∀ d l, todos (mk d l) = l) →
             NoDup (Js.keys g) → ks ≡ₚ Js.keys g →
             concat (todos <$> ((λ date, mk date (Js.sort cmp (Js.at_ g date)))
                                  <$> ks))
             ≡ₚ concat g.*2).
  { intros cmp mk g ks Hmk Hg Hks. rewrite <- (at_perm g ks Hg Hks).
    rewrite <- list_fmap_compose. clear Hks.
    induction ks as [|k ks IH]; cbn; [done|].
    rewrite Hmk, IH. f_equiv. apply sort_perm. }
  rewrite H1.
  rewrite (H2 comparePending
             (λ date l, mkGroup date l (Js.strLt date today)
                          (String.eqb date today) false false None)
             (Js.groupBy Todo.deadline unpinnedTodos))
    by first [done | apply groupBy_NoDup | apply sort_perm].
  rewrite groupBy_perm.
  assert (H3 : concat (todos <$>
      (if (0 <? length completedTodos)%nat
          && (String.eqb filter "all" || String.eqb filter "completed")
       then
         (λ date,
            mkGroup date
              (Js.sort compareCompleted
                 (Js.at_ (Js.groupBy
                            (λ todo, default "unknown" (completedDate todo))
                            completedTodos) date))
              false false true false (Some date))
           <$> Js.sort compareCompletedDates
                 (Js.keys (Js.groupBy
                             (λ todo, default "unknown" (completedDate todo))
                             completedTodos))
       else [])) ≡ₚ completedTodos).
  { destruct ((0 <? length completedTodos)%nat
              && (String.eqb filter "all" || String.eqb filter "completed"))
      eqn:E.
    - rewrite (H2 compareCompleted
                 (λ date l, mkGroup date l false false true false (Some date)))
        by first [done | apply groupBy_NoDup | apply sort_perm].
      apply groupBy_perm.
    - apply andb_false_iff in E as [E|E].
      + by destruct completedTodos.
      + destruct Hfilter as [->|[->| ->]]; [done|discriminate E..]. }
  rewrite H3.
  subst pinnedTodos unpinnedTodos.
  rewrite app_assoc, (filter_split _ _ pendingTodos)
    by (intros x; apply flag_false_iff).
  subst pendingTodos completedTodos.
  rewrite Permutation_app_comm. apply filter_split.
  intros x. by destruct (Todo.completed x).
Qed.

(** X16.  For each of the four filters of the task list, the groups that
    are rendered hold, taken together, exactly the tasks that the filter
    lets through: every such task is in one group, once, and no group
    holds anything else.  (The completed tasks are grouped only under
    [all] and [completed]; the other two filters let none through.) *)
Theorem grouped_view_shows_each_filtered_task_once
    (today filter completedDateFilter : string) (todoList : list Todo.t) :
  filter ∈ ["all"; "today"; "upcoming"; "completed"] →
  let filtered := getFilteredTodos today filter completedDateFilter todoList in
  concat (todos <$> groupTodosByDate today filter filtered) ≡ₚ filtered.
Proof.
  intros Hf filtered. apply groupTodosByDate_perm.
  repeat (apply elem_of_cons in Hf as [->|Hf]); auto;
    [| |by apply elem_of_nil in Hf].
  all: left; subst filtered; unfold getFilteredTodos;
    cbn [String.eqb Ascii.eqb Bool.eqb andb]; rewrite andb_false_r.
  all: induction todoList as [|x l IH]; [done|];
    rewrite filter_cons; destruct (decide _) as [[_ Hx]|_]; [|exact IH];
    rewrite filter_cons, decide_False by congruence; exact IH.
Qed.











Lemma comparePinned_sorted l :
  Forall typed l → StronglySorted byPriority (Js.sort comparePinned l).
Proof.
  apply sort_sorted; unfold typed, byPriority, comparePinned, difference.
  - intros a b c [[pa ->] _] [[pb ->] _] [[pc ->] _]. cbn. lia.
  - intros a b [[pa ->] _] [[pb ->] _]. cbn.
    case_bool_decide as E; cbn; [injection E as ->; lia|done].
  - intros a b [[pa ->] _] [[pb ->] _]. cbn.
    case_bool_decide as E; cbn; [injection E as ->; lia|lia].
Qed.

Lemma comparePending_sorted l :
  Forall typed l → StronglySorted byPriorityThenSlot (Js.sort comparePending l).
Proof.
  apply sort_sorted;
    unfold typed, byPriorityThenSlot, comparePending, difference, slotOf.
  - intros a b c [[pa ->] [sa ->]] [[pb ->] [sb ->]] [[pc ->] [sc ->]]. cbn.
    intros [?|[[= ->] ?]] [?|[[= ->] ?]]; [left; lia..|right]. split; [done|lia].
  - intros a b [[pa ->] [sa ->]] [[pb ->] [sb ->]]. cbn.
    case_bool_decide as E; cbn.
    + injection E as ->.
      case_bool_decide as E'; cbn; [injection E' as ->; right; split; [done|lia]|].
      intros ?. right. split; [done|lia].
    + intros ?. left. assert (pa ≠ pb) by congruence. lia.
  - intros a b [[pa ->] [sa ->]] [[pb ->] [sb ->]]. cbn.
    case_bool_decide as E; cbn.
    + injection E as ->.
      case_bool_decide as E'; cbn; [injection E' as ->; right; split; [done|lia]|].
      intros ?. right. split; [done|lia].
    + intros ?. left. lia.
Qed.

(** X18.  When the priority and the time slot of every task are among the
    literals of their types, the tasks of every group of pending tasks are
    in the order Critical, High, Medium, Low, and in a group by date the
    tasks of one priority are in the order Morning, Afternoon, Evening,
    Night, Anytime (no time slot counting as Anytime). *)
Theorem pending_groups_are_in_priority_order
    (today filter : string) (todoList : list Todo.t) (g : Group) :
  Forall typed todoList →
  g ∈ groupTodosByDate today filter todoList →
  isCompleted g = false →
  StronglySorted byPriority (todos g)
  ∧ (isPinned g = false → StronglySorted byPriorityThenSlot (todos g)).
Proof.
  intros Htyped Hg Hpending. unfold groupTodosByDate in Hg.
  set (pendingTodos := base.filter (λ t, Todo.completed t = false) todoList)
    in *.
  set (pinnedTodos :=
         base.filter (λ t, Js.orFalse (Todo.pinned t) = true) pendingTodos)
    in *.
  set (unpinnedTodos :=
         base.filter (λ t, Js.orFalse (Todo.pinned t) = false) pendingTodos)
    in *.
  assert (Hweaker : ∀ l, StronglySorted byPriorityThenSlot l →
                         StronglySorted byPriority l).
  { intros l Hl. induction Hl as [|x l Hl IH Hx]; constructor; [done|].
    eapply Forall_impl; [done|]. intros y. unfold byPriorityThenSlot, byPriority.
    intros [?|[-> _]]; [lia|].
    unfold difference. destruct (priorityOrder (Todo.priority y)); cbn; lia. }
  assert (Hsub : ∀ (P : Todo.t → Prop) `{∀ x, Decision (P x)} l,
            Forall typed l → Forall typed (base.filter P l)).
  { intros P ? l Hl. apply Forall_forall. intros x [_ Hx]%list_elem_of_filter.
    by eapply Forall_forall in Hl. }
  apply elem_of_app in Hg as [Hg|Hg%elem_of_app].
  - destruct (0 <? length pinnedTodos)%nat; [|by apply elem_of_nil in Hg].
    apply list_elem_of_singleton in Hg as ->. cbn [todos isPinned].
    split; [|done]. apply comparePinned_sorted. by apply Hsub, Hsub.
  - destruct Hg as [Hg|Hg].
    + apply list_elem_of_fmap in Hg as (d & -> & Hd). cbn [todos isPinned].
      assert (Hs : StronglySorted byPriorityThenSlot
                     (Js.sort comparePending
                        (Js.at_ (Js.groupBy Todo.deadline unpinnedTodos) d))).
      { apply comparePending_sorted, Forall_forall. intros x Hx.
        rewrite sort_perm in Hd. apply at_elem in Hd.
        assert (Hin : x ∈ unpinnedTodos).
        { rewrite <- (groupBy_perm Todo.deadline unpinnedTodos).
          apply list_elem_of_In, in_concat. eexists. split.
          - apply list_elem_of_In, list_elem_of_fmap. by eexists (_, _).
          - by apply list_elem_of_In. }
        assert (Forall typed unpinnedTodos) as Hall by (by apply Hsub, Hsub).
        by eapply Forall_forall in Hall. }
      split; [by apply Hweaker|done].
    + destruct ((0 <? length _)%nat && _) in Hg; [|by apply elem_of_nil in Hg].
      apply list_elem_of_fmap in Hg as (d & -> & Hd). discriminate Hpending.
Qed.

End TaskGroups.


Section TaskGroupsSample.

Import Store TodoList.
#[local] Existing Instance Sample.utcMinus5.

(** Two tasks of today under the filter [all]. *)
Lemma grouped_view_shows_each_filtered_task_once_witness :
  let todoList := [Sample.aTodo; Sample.anUrgentTodo] in
  let filtered := getFilteredTodos "2026-02-10" "all" "" todoList in
  "all" ∈ ["all"; "today"; "upcoming"; "completed"]
  ∧ concat (todos <$> groupTodosByDate "2026-02-10" "all" filtered)
    ≡ₚ filtered.
Proof.
  intros todoList filtered.
  assert (H : "all" ∈ ["all"; "today"; "upcoming"; "completed"])
    by constructor.
  split; [done|].
  exact (grouped_view_shows_each_filtered_task_once
           "2026-02-10" "all" "" todoList H).
Defined.

(** The group of today holds the critical task before the other. *)
Lemma pending_groups_are_in_priority_order_witness :
  let todoList := [Sample.aTodo; Sample.anUrgentTodo] in
  let g := mkGroup "2026-02-10" [Sample.anUrgentTodo; Sample.aTodo]
             false true false false None in
  (Forall typed todoList
   ∧ g ∈ groupTodosByDate "2026-02-10" "all" todoList
   ∧ isCompleted g = false)
  ∧ StronglySorted byPriority (todos g)
  ∧ (isPinned g = false → StronglySorted byPriorityThenSlot (todos g)).
Proof.
  intros todoList g.
  assert (H1 : Forall typed todoList)
    by (repeat constructor; eexists; reflexivity).
  assert (H2 : g ∈ groupTodosByDate "2026-02-10" "all" todoList)
    by (vm_compute; constructor).
  assert (H3 : isCompleted g = false) by reflexivity.
  split; [by repeat split|].
  exact (pending_groups_are_in_priority_order
           "2026-02-10" "all" todoList g H1 H2 H3).
Defined.

End TaskGroupsSample.

Section DatedGroupsSample.

Import Store TodoList.
#[local] Existing Instance Sample.utcMinus5Iso.


(** The groups of these tasks: yesterday, today, and the completed task
    under the local date of its completion. *)
Lemma sample_groups_by_date :
  let todoList :=
    [Sample.aTodo; Sample.anUrgentTodo; Sample.anOverdueTodo;
     Sample.aCompletedTodo] in
  (λ g, (date g, Todo.id <$> todos g))
    <$> groupTodosByDate "2026-02-10" "all" todoList
  = [("2026-02-09", ["t3"]); ("2026-02-10", ["t2"; "t1"]);
     ("2026-02-08", ["t4"])].
Proof. vm_compute. reflexivity. Qed.

End DatedGroupsSample.

(** ** The daily log: moving an entry *)

Section Moving.

Import DailyCapture.

Lemma findIndex_range {A} (p : A → bool) (l : list A) :
  -1 ≤ Js.findIndex p l < Z.of_nat (length l).
Proof.
  induction l as [|x l IH]; cbn [Js.findIndex length]; [lia|].
  destruct (p x); [lia|].
  destruct (Z.eqb_spec (Js.findIndex p l) (-1)); lia.
Qed.

Lemma findIndex_none {A} (p : A → bool) (l : list A) :
  Js.findIndex p l = -1 ↔ Forall (λ y, p y = false) l.
Proof.
  induction l as [|x l IH]; cbn [Js.findIndex]; [by split|].
  pose proof (findIndex_range p l) as Hr.
  rewrite Forall_cons. destruct (p x) eqn:Hx.
  - split; [lia | by intros [? _]].
  - destruct (Z.eqb_spec (Js.findIndex p l) (-1)) as [E|E].
    + split; [|done]. intros _. split; [done | by apply IH].
    + split; [lia|]. intros [_ H]. by apply IH in H.
Qed.

Lemma findIndex_found {A} (p : A → bool) (l : list A) (i : nat) :
  Js.findIndex p l = Z.of_nat i
  ↔ (∃ x, l !! i = Some x ∧ p x = true)
    ∧ Forall (λ y, p y = false) (take i l).
Proof.
  revert i. induction l as [|x l IH]; intros i; cbn [Js.findIndex].
  - split; [lia|]. by intros [(x & Hx & _) _].
  - pose proof (findIndex_range p l) as Hr. destruct (p x) eqn:Hx.
    + destruct i as [|i].
      * split; [|done]. intros _. split; [by exists x | constructor].
      * split; [lia|]. intros [_ H]. cbn in H. apply Forall_cons in H.
        destruct H as [H _]. congruence.
    + destruct (Z.eqb_spec (Js.findIndex p l) (-1)) as [E|E].
      * split; [lia|]. intros [(y & Hy & Hpy) _].
        destruct i as [|i]; cbn in Hy; [congruence|].
        apply findIndex_none in E. rewrite Forall_forall in E.
        apply list_elem_of_lookup_2 in Hy. apply E in Hy. congruence.
      * destruct i as [|i].
        -- split; [lia|]. intros [(y & Hy & Hpy) _]. cbn in Hy. congruence.
        -- cbn [lookup list_lookup take]. rewrite Forall_cons.
           specialize (IH i). split.
           ++ intros H. assert (Js.findIndex p l = Z.of_nat i) as H' by lia.
              apply IH in H'. tauto.
           ++ intros [H1 [_ H2]]. cut (Js.findIndex p l = Z.of_nat i); [lia|].
              apply IH. tauto.
Qed.

(** Where the first entry of the identifier [id] stands. *)
Lemma findIndex_id entries id (i : nat) :
  Js.findIndex (λ e, String.eqb (DailyEntry.id e) id) entries = Z.of_nat i
  ↔ (DailyEntry.id <$> entries) !! i = Some id
    ∧ (id ∉ take i (DailyEntry.id <$> entries)).
Proof.
  rewrite findIndex_found, list_lookup_fmap, <- fmap_take.
  rewrite list_elem_of_fmap, Forall_forall. split.
  - intros [(x & Hx & Hp) Hall]. apply String.eqb_eq in Hp. split.
    + by rewrite Hx, <- Hp.
    + intros (y & -> & Hy). apply Hall in Hy.
      by rewrite String.eqb_refl in Hy.
  - intros [Hi Hnot]. destruct (entries !! i) as [x|] eqn:Hx; [|done].
    cbn in Hi. injection Hi as <-. split.
    + exists x. by rewrite String.eqb_refl.
    + intros y Hy. apply String.eqb_neq. intros E. apply Hnot. by exists y.
Qed.

Lemma findIndex_id_none entries id :
  Js.findIndex (λ e, String.eqb (DailyEntry.id e) id) entries = -1
  ↔ id ∉ DailyEntry.id <$> entries.
Proof.
  rewrite findIndex_none, Forall_forall, list_elem_of_fmap. split.
  - intros Hall (y & -> & Hy). apply Hall in Hy.
    by rewrite String.eqb_refl in Hy.
  - intros Hnot y Hy. apply String.eqb_neq. intros E. apply Hnot. by exists y.
Qed.

(** The shape of a move that takes place. *)
Lemma handleMove_Some entries id direction es :
  handleMove entries id direction = Some es
  ↔ ∃ (i j : nat) ei ej,
      (DailyEntry.id <$> entries) !! i = Some id
      ∧ (id ∉ take i (DailyEntry.id <$> entries))
      ∧ (direction = Up ∧ i = S j ∨ direction = Down ∧ j = S i)
      ∧ entries !! i = Some ei ∧ entries !! j = Some ej
      ∧ es = imap withPosition (<[j := ei]> (<[i := ej]> entries)).
Proof.
  unfold handleMove.
  set (c := Js.findIndex _ entries).
  pose proof (findIndex_range (λ e, String.eqb (DailyEntry.id e) id) entries)
    as Hr. fold c in Hr.
  assert (Hid : ∀ i : nat, c = Z.of_nat i
                ↔ (DailyEntry.id <$> entries) !! i = Some id
                  ∧ (id ∉ take i (DailyEntry.id <$> entries)))
    by apply findIndex_id.
  assert (Hnone : c = -1 ↔ id ∉ DailyEntry.id <$> entries)
    by apply findIndex_id_none.
  clearbody c.
  assert (Huniq : ∀ i : nat,
            (DailyEntry.id <$> entries) !! i = Some id
            → id ∉ take i (DailyEntry.id <$> entries) → c = Z.of_nat i)
    by (intros; apply Hid; tauto).
  destruct (Z.eqb_spec c (-1)) as [E|E].
  { split; [done|]. intros (i & j & ei & ej & Hi & Hfirst & _).
    specialize (Huniq i Hi Hfirst). lia. }
  destruct direction; cbn [bool_decide decide_rel andb].
  - rewrite (bool_decide_eq_true_2 (Up = Up)) by done.
    rewrite (bool_decide_eq_false_2 (Up = Down)) by done. cbn [andb].
    destruct (Z.eqb_spec c 0) as [E0|E0].
    { split; [done|]. intros (i & j & ei & ej & Hi & Hfirst & Hd & _).
      specialize (Huniq i Hi Hfirst). destruct Hd as [[_ ->]|[? _]]; [lia|done]. }
    assert (c = Z.of_nat (S (Z.to_nat (c - 1)))) as Hc by lia.
    destruct (proj1 (Hid _) Hc) as [H1 H2]. clear Hid.
    replace (Z.to_nat c) with (S (Z.to_nat (c - 1))) by lia.
    set (j := Z.to_nat (c - 1)) in *.
    rewrite list_lookup_fmap in H1.
    destruct (entries !! S j) as [ei|] eqn:Hei; [|done].
    destruct (lookup_lt_is_Some_2 entries j) as [ej Hej].
    { apply lookup_lt_Some in Hei. lia. }
    rewrite Hej. split.
    + intros [= <-]. exists (S j), j, ei, ej.
      rewrite list_lookup_fmap, Hei. tauto.
    + intros (i' & j' & ei' & ej' & Hi & Hfirst & Hd & Hi' & Hj' & ->).
      specialize (Huniq i' Hi Hfirst).
      destruct Hd as [[_ ->]|[? _]]; [|done].
      assert (j' = j) as -> by lia. congruence.
  - rewrite (bool_decide_eq_false_2 (Down = Up)) by done.
    rewrite (bool_decide_eq_true_2 (Down = Down)) by done. cbn [andb].
    destruct (Z.eqb_spec c (Z.of_nat (length entries) - 1)) as [E0|E0].
    { split; [done|]. intros (i & j & ei & ej & Hi & Hfirst & Hd & _ & Hj & _).
      specialize (Huniq i Hi Hfirst). apply lookup_lt_Some in Hj.
      destruct Hd as [[? _]|[_ ->]]; [done|lia]. }
    assert (c = Z.of_nat (Z.to_nat c)) as Hc by lia.
    destruct (proj1 (Hid _) Hc) as [H1 H2]. clear Hid.
    replace (Z.to_nat (c + 1)) with (S (Z.to_nat c)) by lia.
    set (i := Z.to_nat c) in *.
    rewrite list_lookup_fmap in H1.
    destruct (entries !! i) as [ei|] eqn:Hei; [|done].
    destruct (lookup_lt_is_Some_2 entries (S i)) as [ej Hej]; [lia|].
    rewrite Hej. split.
    + intros [= <-]. exists i, (S i), ei, ej.
      rewrite list_lookup_fmap, Hei. tauto.
    + intros (i' & j' & ei' & ej' & Hi & Hfirst & Hd & Hi' & Hj' & ->).
      specialize (Huniq i' Hi Hfirst).
      destruct Hd as [[? _]|[_ ->]]; [done|].
      assert (i' = i) as -> by lia. congruence.
Qed.

(** X20.  [handleMove] gives up, leaving the entries as they are and
    writing nothing, in three cases only: no entry has the identifier; the
    move is up and the entry is the first; the move is down and the entry
    (the first of that identifier) is the last. *)
Theorem move_is_given_up_at_the_ends entries id direction :
  handleMove entries id direction = None
  ↔ id ∉ DailyEntry.id <$> entries
    ∨ (direction = Up ∧ head (DailyEntry.id <$> entries) = Some id)
    ∨ (direction = Down
       ∧ last (DailyEntry.id <$> entries) = Some id
       ∧ (id ∉ take (length entries - 1) (DailyEntry.id <$> entries))).
Proof.
  unfold handleMove.
  set (c := Js.findIndex _ entries).
  pose proof (findIndex_range (λ e, String.eqb (DailyEntry.id e) id) entries)
    as Hr. fold c in Hr.
  assert (Hid : ∀ i : nat, c = Z.of_nat i
                ↔ (DailyEntry.id <$> entries) !! i = Some id
                  ∧ (id ∉ take i (DailyEntry.id <$> entries)))
    by apply findIndex_id.
  assert (Hnone : c = -1 ↔ id ∉ DailyEntry.id <$> entries)
    by apply findIndex_id_none.
  clearbody c.
  rewrite head_lookup, last_lookup, length_fmap.
  replace (Init.Nat.pred (length entries)) with (length entries - 1)%nat
    by lia.
  assert (H0 : c = 0 ↔ (DailyEntry.id <$> entries) !! 0%nat = Some id).
  { rewrite (Hid 0%nat). cbn [take]. rewrite elem_of_nil. tauto. }
  assert (Hlast : 0 ≤ c → c = Z.of_nat (length entries) - 1
            ↔ (DailyEntry.id <$> entries) !! (length entries - 1)%nat = Some id
              ∧ (id ∉ take (length entries - 1) (DailyEntry.id <$> entries))).
  { intros ?. rewrite <- (Hid (length entries - 1)%nat). lia. }
  destruct (Z.eqb_spec c (-1)) as [E|E]; [tauto|].
  assert (id ∈ DailyEntry.id <$> entries) as Hin.
  { destruct (decide (id ∈ DailyEntry.id <$> entries)); [done|]. tauto. }
  destruct direction.
  - rewrite (bool_decide_eq_true_2 (Up = Up)) by done.
    rewrite (bool_decide_eq_false_2 (Up = Down)) by done. cbn [andb].
    destruct (Z.eqb_spec c 0) as [E0|E0]; [tauto|].
    assert (c = Z.of_nat (S (Z.to_nat (c - 1)))) as Hc by lia.
    destruct (proj1 (Hid _) Hc) as [H1 H2].
    replace (Z.to_nat c) with (S (Z.to_nat (c - 1))) by lia.
    rewrite list_lookup_fmap in H1.
    destruct (entries !! S _) as [ei|] eqn:Hei; [|done].
    destruct (lookup_lt_is_Some_2 entries (Z.to_nat (c - 1))) as [ej Hej].
    { apply lookup_lt_Some in Hei. lia. }
    rewrite Hej. split; [done|]. intros [?|[[_ ?]|[? _]]]; tauto || done.
  - rewrite (bool_decide_eq_false_2 (Down = Up)) by done.
    rewrite (bool_decide_eq_true_2 (Down = Down)) by done. cbn [andb].
    destruct (Z.eqb_spec c (Z.of_nat (length entries) - 1)) as [E0|E0].
    { split; [|done]. intros _. right. right. split; [done|].
      apply Hlast; [lia|done]. }
    assert (c = Z.of_nat (Z.to_nat c)) as Hc by lia.
    destruct (proj1 (Hid _) Hc) as [H1 H2].
    replace (Z.to_nat (c + 1)) with (S (Z.to_nat c)) by lia.
    rewrite list_lookup_fmap in H1.
    destruct (entries !! Z.to_nat c) as [ei|] eqn:Hei; [|done].
    destruct (lookup_lt_is_Some_2 entries (S (Z.to_nat c))) as [ej Hej]; [lia|].
    rewrite Hej. split; [done|]. intros [?|[[? _]|[_ ?]]]; try tauto || done.
    apply Hlast in H; lia.
Qed.

Lemma withPosition_twice (i j : nat) e :
  withPosition i (withPosition j e) = withPosition i e.
Proof. done. Qed.

Lemma swapped_lookup {A} (l : list A) (i j : nat) x y (k : nat) :
  i ≠ j → l !! i = Some x → l !! j = Some y →
  <[j := x]> (<[i := y]> l) !! k
  = l !! (if decide (k = i) then j else if decide (k = j) then i else k).
Proof.
  intros Hij Hi Hj.
  destruct (decide (k = i)) as [->|Hki].
  - rewrite list_lookup_insert_ne by done.
    rewrite list_lookup_insert_eq by (by eapply lookup_lt_Some). done.
  - destruct (decide (k = j)) as [->|Hkj].
    + rewrite list_lookup_insert_eq; [done|].
      rewrite length_insert. by eapply lookup_lt_Some.
    + by rewrite !list_lookup_insert_ne.
Qed.

(** X19.  A move that takes place exchanges the first entry of the
    identifier with the entry before it (up) or after it (down), leaves the
    other entries where they are, and writes on every entry its index as
    its position. *)
Theorem move_exchanges_the_entry_with_its_neighbour entries id direction es :
  handleMove entries id direction = Some es →
  ∃ i j : nat,
    (DailyEntry.id <$> entries) !! i = Some id
    ∧ (id ∉ take i (DailyEntry.id <$> entries))
    ∧ (direction = Up ∧ i = S j ∨ direction = Down ∧ j = S i)
    ∧ (j < length entries)%nat
    ∧ ∀ k : nat,
        es !! k
        = withPosition k
          <$> entries !! (if decide (k = i) then j
                          else if decide (k = j) then i else k).
Proof.
  intros H. apply handleMove_Some in H.
  destruct H as (i & j & ei & ej & Hi & Hfirst & Hd & Hei & Hej & ->).
  exists i, j. repeat split; try done.
  - by eapply lookup_lt_Some.
  - intros k. rewrite list_lookup_imap. f_equal.
    apply swapped_lookup; [|done..]. destruct Hd as [[_ ->]|[_ ->]]; lia.
Qed.

(** X21.  Among entries of distinct identifiers, a move followed by the
    move in the other direction gives the entries back in their first
    order, each with its index as position. *)
Theorem move_there_and_back entries id direction es :
  NoDup (DailyEntry.id <$> entries) →
  handleMove entries id direction = Some es →
  handleMove es id (match direction with Up => Down | Down => Up end)
  = Some (imap withPosition entries).
Proof.
  intros Hnd H. apply handleMove_Some in H.
  destruct H as (i & j & ei & ej & Hi & Hfirst & Hd & Hei & Hej & ->).
  assert (i ≠ j) as Hij by (destruct Hd as [[_ ->]|[_ ->]]; lia).
  set (es := imap withPosition (<[j := ei]> (<[i := ej]> entries))).
  assert (Hes : ∀ k, es !! k
            = withPosition k
              <$> entries !! (if decide (k = i) then j
                              else if decide (k = j) then i else k)).
  { intros k. unfold es. rewrite list_lookup_imap. f_equal.
    by apply swapped_lookup. }
  assert (Hidi : DailyEntry.id ei = id).
  { rewrite list_lookup_fmap, Hei in Hi. by injection Hi. }
  apply handleMove_Some.
  exists j, i, (withPosition j ei), (withPosition i ej).
  split; [|split; [|split; [|split; [|split]]]].
  - rewrite list_lookup_fmap, Hes.
    rewrite decide_False, decide_True by done. by rewrite Hei; cbn; f_equal.
  - intros Hin. apply list_elem_of_lookup in Hin. destruct Hin as [k Hk].
    rewrite lookup_take_Some in Hk. destruct Hk as [Hk Hlt].
    rewrite list_lookup_fmap, Hes in Hk.
    destruct (decide (k = i)) as [->|Hki].
    + rewrite Hej in Hk. cbn in Hk. injection Hk as Hk.
      apply Hij. eapply NoDup_lookup; [done| |].
      * done.
      * by rewrite list_lookup_fmap, Hej; cbn; f_equal.
    + rewrite decide_False in Hk by lia.
      destruct (entries !! k) as [e|] eqn:He; [|done].
      cbn in Hk. injection Hk as Hk.
      apply Hki. eapply NoDup_lookup; [done| |done].
      by rewrite list_lookup_fmap, He; cbn; f_equal.
  - destruct direction; destruct Hd as [[? ?]|[? ?]]; try done; tauto.
  - rewrite Hes, decide_False, decide_True by done. by rewrite Hei.
  - rewrite Hes, decide_True by done. by rewrite Hej.
  - apply list_eq. intros k. rewrite !list_lookup_imap.
    rewrite (swapped_lookup es j i (withPosition j ei) (withPosition i ej));
      [|done|..].
    2:{ rewrite Hes, decide_False, decide_True by done. by rewrite Hei. }
    2:{ rewrite Hes, decide_True by done. by rewrite Hej. }
    destruct (decide (k = j)) as [->|Hkj]; [|destruct (decide (k = i)) as [->|Hki]];
      rewrite Hes;
      repeat first [rewrite decide_True by done | rewrite decide_False by done];
      rewrite ?Hei, ?Hej; try done.
    by destruct (entries !! k).
Qed.


(** The later of two entries is moved up. *)
Lemma move_exchanges_the_entry_with_its_neighbour_witness :
  let entries := [Sample.entryOn "2026-02-09"; Sample.entryOn "2026-02-10"] in
  let es := [withPosition 0 (Sample.entryOn "2026-02-10");
             withPosition 1 (Sample.entryOn "2026-02-09")] in
  handleMove entries "2026-02-10" Up = Some es
  ∧ ∃ i j : nat,
      (DailyEntry.id <$> entries) !! i = Some "2026-02-10"
      ∧ ("2026-02-10" ∉ take i (DailyEntry.id <$> entries))
      ∧ (Up = Up ∧ i = S j ∨ Up = Down ∧ j = S i)
      ∧ (j < length entries)%nat
      ∧ ∀ k : nat,
          es !! k
          = withPosition k
            <$> entries !! (if decide (k = i) then j
                            else if decide (k = j) then i else k).
Proof.
  intros entries es.
  assert (H : handleMove entries "2026-02-10" Up = Some es)
    by (vm_compute; reflexivity).
  split; [done|].
  exact (move_exchanges_the_entry_with_its_neighbour entries _ _ es H).
Defined.

Lemma move_there_and_back_witness :
  let entries := [Sample.entryOn "2026-02-09"; Sample.entryOn "2026-02-10"] in
  let es := [withPosition 0 (Sample.entryOn "2026-02-10");
             withPosition 1 (Sample.entryOn "2026-02-09")] in
  (NoDup (DailyEntry.id <$> entries)
   ∧ handleMove entries "2026-02-10" Up = Some es)
  ∧ handleMove es "2026-02-10" Down = Some (imap withPosition entries).
Proof.
  intros entries es.
  assert (H1 : NoDup (DailyEntry.id <$> entries)).
  { apply NoDup_cons. split; [|apply NoDup_singleton].
    intros Hin. apply list_elem_of_singleton in Hin. discriminate Hin. }
  assert (H2 : handleMove entries "2026-02-10" Up = Some es)
    by (vm_compute; reflexivity).
  split; [by split|].
  exact (move_there_and_back entries _ Up es H1 H2).
Defined.

End Moving.

(** ** The dashboard *)

Section PinnedFirst.

Context {T : Type}.

Lemma insertBy_first (cmp : T → T → Z) x l :
  (∀ y, cmp x y ≤ 0) → Js.insertBy cmp x l = x :: l.
Proof.
  intros Hx. destruct l as [|y l]; [done|]. cbn.
  by destruct (Z.leb_spec (cmp x y) 0) as [_|H]; [|specialize (Hx y); lia].
Qed.

Lemma insertBy_between (cmp : T → T → Z) x ps us :
  Forall (λ y, 0 < cmp x y) ps →
  Forall (λ y, cmp x y ≤ 0) us →
  Js.insertBy cmp x (ps ++ us) = (ps ++ x :: us)%list.
Proof.
  intros Hps Hus. induction Hps as [|y ps Hy Hps IH]; cbn.
  - destruct Hus as [|z us Hz Hus]; [done|]. cbn.
    by destruct (Z.leb_spec (cmp x z) 0); [|lia].
  - destruct (Z.leb_spec (cmp x y) 0); [lia|]. by rewrite IH.
Qed.

(** [sortByPinned] is a stable partition. *)
Lemma sortByPinned_partition (pinned : T → option bool) (items : list T) :
  Dashboard.sortByPinned pinned items
  = (filter (λ x, Js.orFalse (pinned x) = true) items
     ++ filter (λ x, Js.orFalse (pinned x) = false) items)%list.
Proof.
  unfold Dashboard.sortByPinned.
  induction items as [|x items IH]; [done|].
  cbn [Js.sort foldr]. unfold Js.sort in IH. rewrite IH.
  rewrite !filter_cons. destruct (Js.orFalse (pinned x)) eqn:Hx.
  - rewrite decide_True, decide_False by done. apply insertBy_first.
    intros y. rewrite Hx. by destruct (Js.orFalse (pinned y)).
  - rewrite decide_False, decide_True by done.
    apply insertBy_between; apply Forall_forall;
      intros y [Hy _]%list_elem_of_filter; by rewrite Hx, Hy.
Qed.

End PinnedFirst.

Section Recent.

(** X22.  The dashboard's [sortByPinned] puts the pinned records first
    and keeps, among the pinned and among the others, the order in which
    they were fetched; so the recent ideas are the first three of the
    pinned inbox ideas followed by the other inbox ideas, and the recent
    discoveries the first three of the pinned discoveries followed by the
    others. *)
Theorem recent_records_keep_the_fetched_order
    (ideas : list Idea.t) (discoveries : list Discovery.t) :
  Dashboard.recentIdeas ideas
  = take 3
      (filter (λ i, Js.orFalse (Idea.pinned i) = true)
         (filter (λ i, Idea.status i = "Inbox") ideas)
       ++ filter (λ i, Js.orFalse (Idea.pinned i) = false)
            (filter (λ i, Idea.status i = "Inbox") ideas))%list
  ∧ Dashboard.recentDiscoveries discoveries
    = take 3
        (filter (λ d, Js.orFalse (Discovery.pinned d) = true) discoveries
         ++ filter (λ d, Js.orFalse (Discovery.pinned d) = false)
              discoveries)%list.
Proof.
  unfold Dashboard.recentIdeas, Dashboard.recentDiscoveries.
  by rewrite !sortByPinned_partition.
Qed.

End Recent.

Section GroupMembers.

Context {A : Type}.

Lemma at_pushTo (key k : string) (x : A) g :
  Js.at_ (Js.pushTo key x g) k
  = if String.eqb key k then (Js.at_ g k ++ [x])%list else Js.at_ g k.
Proof.
  induction g as [|[k' xs] g IH]; cbn.
  - rewrite String.eqb_sym. by destruct (String.eqb k key).
  - destruct (String.eqb_spec k' key) as [->|Hne]; cbn.
    + destruct (String.eqb_spec key k) as [->|?]; [done|done].
    + destruct (String.eqb_spec k' k) as [->|?].
      * destruct (String.eqb_spec key k) as [->|?]; [done|done].
      * apply IH.
Qed.

Lemma foldl_pushTo_at (key : A → string) l g x :
  x ∈ Js.at_ g (key x) ∨ x ∈ l →
  x ∈ Js.at_ (foldl (λ groups y, Js.pushTo (key y) y groups) g l) (key x).
Proof.
  revert g. induction l as [|y l IH]; intros g; cbn.
  - intros [?|?%elem_of_nil]; done.
  - intros H. apply IH. rewrite at_pushTo.
    destruct (String.eqb_spec (key y) (key x)) as [E|?].
    + rewrite elem_of_app, list_elem_of_singleton.
      destruct H as [?|[->|?]%elem_of_cons]; auto.
    + destruct H as [?|[->|?]%elem_of_cons]; auto. done.
Qed.

Lemma groupBy_at (key : A → string) l x :
  x ∈ l → x ∈ Js.at_ (Js.groupBy key l) (key x).
Proof. intros H. apply foldl_pushTo_at. by right. Qed.

Lemma at_key (g : list (string * list A)) k x :
  x ∈ Js.at_ g k → k ∈ Js.keys g.
Proof.
  unfold Js.keys. induction g as [|[k' xs] g IH]; cbn.
  - by intros ?%elem_of_nil.
  - destruct (String.eqb_spec k' k) as [->|?]; [by left|].
    intros ?. right. by apply IH.
Qed.

End GroupMembers.

Section DashboardCompletion.

Import Store TodoList.

Context `{host : Host}.

(** X23.  The dashboard completes a task without a completion time: a
    pending task that has none, once completed there, stands in the task
    list among the completed tasks of the date "unknown". *)
Theorem task_completed_on_the_dashboard_has_no_date
    today filter todoList todo :
  Todo.completed todo = false →
  Todo.completedAt todo = None →
  Dashboard.toggled todo ∈ todoList →
  filter = "all" ∨ filter = "completed" →
  Todo.completed (Dashboard.toggled todo) = true
  ∧ Todo.status (Dashboard.toggled todo) = "Completed"
  ∧ ∃ g, g ∈ groupTodosByDate today filter todoList
         ∧ date g = "unknown" ∧ isCompleted g = true
         ∧ Dashboard.toggled todo ∈ todos g.
Proof.
  intros Hpending Hnone Hin Hfilter.
  set (t := Dashboard.toggled todo) in *.
  assert (Hdone : Todo.completed t = true)
    by (subst t; cbn; by rewrite Hpending).
  assert (Hkey : default "unknown" (completedDate t) = "unknown").
  { unfold completedDate. subst t. cbn. by rewrite Hnone. }
  split; [done|]. split; [by subst t; cbn; rewrite Hpending|].
  unfold groupTodosByDate.
  set (completedTodos := base.filter (λ t, Todo.completed t = true) todoList).
  assert (Hc : t ∈ completedTodos) by (by apply list_elem_of_filter).
  assert ((0 <? length completedTodos)%nat = true) as ->.
  { apply Nat.ltb_lt. destruct completedTodos; [by apply elem_of_nil in Hc|].
    cbn. lia. }
  assert (String.eqb filter "all" || String.eqb filter "completed" = true)
    as -> by (by destruct Hfilter as [->| ->]).
  cbn [andb].
  set (groups := Js.groupBy _ completedTodos).
  pose proof (groupBy_at (λ todo, default "unknown" (completedDate todo))
                completedTodos t Hc) as Hat.
  cbn beta in Hat. rewrite Hkey in Hat. fold groups in Hat.
  eexists (mkGroup "unknown" _ false false true false (Some "unknown")).
  split; [|split; [done|split; [done|]]].
  - rewrite !elem_of_app. right. right.
    apply list_elem_of_fmap. exists "unknown". split; [done|].
    rewrite sort_perm. by eapply at_key.
  - cbn. by rewrite sort_perm.
Qed.


End DashboardCompletion.

Section DashboardCompletionSample.

Import Store TodoList.
#[local] Existing Instance Sample.utcMinus5.

(** The task of the day before is completed on the dashboard and the task
    list is opened with the filter [all]. *)
Lemma task_completed_on_the_dashboard_has_no_date_witness :
  let todo := Sample.anOverdueTodo in
  let todoList := [Sample.aTodo; Dashboard.toggled todo] in
  (Todo.completed todo = false ∧ Todo.completedAt todo = None
   ∧ Dashboard.toggled todo ∈ todoList
   ∧ ("all" = "all" ∨ "all" = "completed"))
  ∧ Todo.completed (Dashboard.toggled todo) = true
  ∧ Todo.status (Dashboard.toggled todo) = "Completed"
  ∧ ∃ g, g ∈ groupTodosByDate "2026-02-10" "all" todoList
         ∧ date g = "unknown" ∧ isCompleted g = true
         ∧ Dashboard.toggled todo ∈ todos g.
Proof.
  intros todo todoList.
  assert (H1 : Todo.completed todo = false) by reflexivity.
  assert (H2 : Todo.completedAt todo = None) by reflexivity.
  assert (H3 : Dashboard.toggled todo ∈ todoList) by (do 2 constructor).
  assert (H4 : "all" = "all" ∨ "all" = "completed") by (left; reflexivity).
  split; [by repeat split|].
  exact (task_completed_on_the_dashboard_has_no_date
           "2026-02-10" "all" todoList todo H1 H2 H3 H4).
Defined.

End DashboardCompletionSample.

(** ** Insights: weeks, the latest entry, the counts of logged days *)

Section Weeks.

Import Js JsDate Insights.

Variable tza : Z.

(** The time value that [getWeekStart] returns. *)
Lemma getWeekStart_time t :
  Z.abs t ≤ maxTime - 7 * msPerDay →
  getWeekStart tza (Some t)
  = Some (utc tza ((day (localTime tza t)
                    - (day (localTime tza t) + 3) mod 7) * msPerDay)).
Proof.
  intros Ht. unfold getWeekStart, getDay, getDate, localCivil.
  cbn [mbind option_bind].
  set (n := day (localTime tza t)).
  destruct (civilFromDays n) as [[y m] d] eqn:E.
  destruct (civilFromDays_spec _ _ _ _ E) as (Hm & Hd & En).
  cbn [snd Js.sub].
  set (w := (n + 4) mod 7).
  set (k := (n + 3) mod 7).
  match goal with
  | |- context [Js.add ?a ?b] =>
      assert (Hback : Js.add a b = Some (d - k))
  end.
  { case_bool_decide as Hw; cbn [Js.add]; f_equal.
    - injection Hw as Hw. subst w k.
      Z.to_euclidean_division_equations; lia.
    - assert (w ≠ 0) by congruence. subst w k.
      Z.to_euclidean_division_equations; lia. }
  rewrite Hback. unfold setDate. fold n. rewrite E.
  rewrite makeDay_civil by done.
  rewrite (daysFromCivil_day y m d), En.
  assert (0 ≤ k < 7) as Hk by (subst k; Z.to_euclidean_division_equations; lia).
  replace (n + (d - k - d)) with (n - k) by lia.
  replace (utc tza ((n - k) * msPerDay + timeWithinDay (localTime tza t)))
    with (t - k * msPerDay).
  2:{ subst n. unfold utc, day, timeWithinDay, localTime, msPerDay.
      Z.to_euclidean_division_equations; lia. }
  unfold timeClip.
  replace (Z.abs (t - k * msPerDay) <=? maxTime) with true
    by (symmetry; apply Z.leb_le; unfold msPerDay, maxTime in *; lia).
  unfold setHours.
  replace (day (localTime tza (t - k * msPerDay))) with (n - k).
  2:{ subst n. unfold day, localTime, msPerDay.
      Z.to_euclidean_division_equations; lia. }
  replace (0 * 3600000 + 0 * 60000 + 0 * 1000 + 0) with 0 by lia.
  rewrite Z.add_0_r.
  assert (t - 7 * msPerDay < utc tza ((n - k) * msPerDay) ≤ t) as Hs.
  { subst n. unfold utc, day, localTime, msPerDay.
    Z.to_euclidean_division_equations; lia. }
  unfold timeClip.
  replace (Z.abs (utc tza ((n - k) * msPerDay)) <=? maxTime) with true
    by (symmetry; apply Z.leb_le; unfold msPerDay, maxTime in *; lia).
  done.
Qed.

(** X24.  On a host whose offset from UTC stays the same, [getWeekStart]
    of an instant is the local midnight that begins the Monday on or
    before it: a Monday, at midnight, at most the instant and less than
    seven days before it. *)
Theorem getWeekStart_is_the_monday_on_or_before t :
  Z.abs t ≤ maxTime - 7 * msPerDay →
  ∃ s, getWeekStart tza (Some t) = Some s
       ∧ getDay tza (Some s) = Some 1
       ∧ timeWithinDay (localTime tza s) = 0
       ∧ s ≤ t < s + 7 * msPerDay.
Proof.
  intros Ht. rewrite getWeekStart_time by done. eexists. split; [done|].
  unfold getDay. cbn [mbind option_bind].
  rewrite day_of_midnight.
  unfold timeWithinDay, utc, day, localTime, msPerDay.
  repeat split; try f_equal; Z.to_euclidean_division_equations; lia.
Qed.

(** Going back whole weeks moves the week start by as many weeks. *)
Lemma getWeekStart_weeks_back t i :
  Z.abs t ≤ maxTime - 7 * msPerDay →
  Z.abs (t - i * 7 * 24 * 60 * 60 * 1000) ≤ maxTime - 7 * msPerDay →
  ∃ s, getWeekStart tza (Some t) = Some s
       ∧ getWeekStart tza (timeClip (t - i * 7 * 24 * 60 * 60 * 1000))
         = Some (s - i * 7 * msPerDay).
Proof.
  intros Ht Hi. unfold timeClip.
  replace (Z.abs (t - i * 7 * 24 * 60 * 60 * 1000) <=? maxTime) with true
    by (symmetry; apply Z.leb_le; unfold msPerDay, maxTime in *; lia).
  rewrite !getWeekStart_time by done. eexists. split; [done|]. f_equal.
  unfold utc, day, localTime, msPerDay.
  Z.to_euclidean_division_equations; lia.
Qed.

Variable now : Z.

(** X25.  On a host whose offset from UTC stays the same, the week that
    the weekly breakdown reaches in round [i] of its loop is labelled
    by [i]: this week, last week, then the number of weeks. *)
Theorem weeks_are_labelled_by_their_distance i :
  Z.abs now ≤ maxTime - 7 * msPerDay →
  Z.abs (now - i * 7 * 24 * 60 * 60 * 1000) ≤ maxTime - 7 * msPerDay →
  getWeekLabel tza now (weekStartBack tza now i)
  = if i =? 0 then "This Week"
    else if i =? 1 then "Last Week"
    else Js.toString (Some i) +:+ " Weeks Ago".
Proof.
  intros Hnow Hi. unfold getWeekLabel, weekStartBack.
  destruct (getWeekStart_weeks_back now i Hnow Hi) as (s & -> & ->).
  cbn [Js.sub mbind option_bind].
  replace ((s - (s - i * 7 * msPerDay)) / msPerDay / 7) with i
    by (unfold msPerDay; Z.to_euclidean_division_equations; lia).
  destruct (Z.eqb_spec i 0) as [->|H0]; [done|].
  rewrite bool_decide_eq_false_2 by congruence.
  destruct (Z.eqb_spec i 1) as [->|H1]; [done|].
  by rewrite bool_decide_eq_false_2 by congruence.
Qed.


End Weeks.

Section WeeksSample.

Import Js JsDate Insights.

(** The evening of Tuesday 2026-02-10, five hours west of UTC: the week
    began on Monday 2026-02-09 at 05:00 UTC. *)
Lemma getWeekStart_is_the_monday_on_or_before_witness :
  let t := Sample.lateEvening in
  Z.abs t ≤ maxTime - 7 * msPerDay
  ∧ ∃ s, getWeekStart (-18000000) (Some t) = Some s
         ∧ getDay (-18000000) (Some s) = Some 1
         ∧ timeWithinDay (localTime (-18000000) s) = 0
         ∧ s ≤ t < s + 7 * msPerDay.
Proof.
  intros t.
  assert (H : Z.abs t ≤ maxTime - 7 * msPerDay) by (vm_compute; discriminate).
  split; [done|].
  exact (getWeekStart_is_the_monday_on_or_before (-18000000) t H).
Defined.

(** The third round of the loop. *)
Lemma weeks_are_labelled_by_their_distance_witness :
  let t := Sample.lateEvening in
  (Z.abs t ≤ maxTime - 7 * msPerDay
   ∧ Z.abs (t - 2 * 7 * 24 * 60 * 60 * 1000) ≤ maxTime - 7 * msPerDay)
  ∧ getWeekLabel (-18000000) t (weekStartBack (-18000000) t 2)
    = "2 Weeks Ago".
Proof.
  intros t.
  assert (H1 : Z.abs t ≤ maxTime - 7 * msPerDay) by (vm_compute; discriminate).
  assert (H2 : Z.abs (t - 2 * 7 * 24 * 60 * 60 * 1000)
               ≤ maxTime - 7 * msPerDay) by (vm_compute; discriminate).
  split; [by split|].
  exact (weeks_are_labelled_by_their_distance (-18000000) t 2 H1 H2).
Defined.

End WeeksSample.

Section LatestLog.

Import Js JsDate Insights.

Lemma strLe_total a b : Js.strLe a b = false → Js.strLe b a = true.
Proof.
  unfold Js.strLe, String.leb. rewrite (String.compare_antisym a b).
  by destruct (String.compare b a).
Qed.

Lemma strLe_antisym a b :
  Js.strLe a b = true → Js.strLe b a = true → a = b.
Proof.
  rewrite !strLe_iff. intros [H1|H1] [H2|H2]; try done.
  pose proof (string_compare_lt_trans _ _ _ H1 H2) as H.
  by rewrite string_compare_refl in H.
Qed.

Lemma sortStrings_sorted l :
  StronglySorted (λ a b, Js.strLe a b = true) (Js.sortStrings l).
Proof.
  unfold Js.sortStrings.
  apply (sort_sorted _ (λ a b, Js.strLe a b = true) (λ _, True)).
  - intros a b c _ _ _. apply strLe_trans.
  - intros a b _ _. unfold Js.strLe. by destruct (String.leb a b).
  - intros a b _ _. pose proof (strLe_total a b) as H. unfold Js.strLe in *.
    destruct (String.leb a b); [lia|auto].
  - by apply Forall_forall.
Qed.

(** The greatest element of an ascending list is its last. *)
Lemma sorted_last l x :
  StronglySorted (λ a b, Js.strLe a b = true) l →
  x ∈ l → (∀ y, y ∈ l → Js.strLe y x = true) → last l = Some x.
Proof.
  intros Hs. induction Hs as [|y l Hs IH Hy]; intros Hx Hmax.
  - by apply elem_of_nil in Hx.
  - destruct l as [|z l]; cbn [last].
    + apply elem_of_cons in Hx as [->|Hx]; [done|by apply elem_of_nil in Hx].
    + apply IH.
      * apply elem_of_cons in Hx as [->|Hx]; [|done].
        assert (z = y) as ->; [|by left].
        apply strLe_antisym; [apply Hmax; right; by left|].
        apply Forall_cons in Hy. tauto.
      * intros ? ?. apply Hmax. by right.
Qed.

(** The latest date of the log leads [logDates]. *)
Lemma logDates_head dailyLogs latest :
  latest ∈ DailyEntry.date <$> dailyLogs →
  (∀ d, d ∈ DailyEntry.date <$> dailyLogs → Js.strLe d latest = true) →
  head (logDates dailyLogs) = Some latest.
Proof.
  intros Hin Hmax. unfold logDates. rewrite head_reverse.
  assert (Hmem : ∀ d, d ∈ Js.sortStrings
                          (Js.unique (DailyEntry.date <$> dailyLogs) [])
                      ↔ d ∈ DailyEntry.date <$> dailyLogs).
  { intros d. unfold Js.sortStrings. rewrite sort_perm, unique_elem.
    rewrite elem_of_nil. tauto. }
  apply sorted_last; [apply sortStrings_sorted|by apply Hmem|].
  intros y Hy. apply Hmax. by apply Hmem.
Qed.

Context `{host : Store.Host}.
Variable now : Z.

(** X26.  West of UTC, late in the day: with an entry of today as the
    latest one, and [new Date] reading its date as the UTC midnight of
    that day, as the standard has it for a date without a time,
    [daysSinceLastLog] is 1 from the hour at which UTC passes into the
    next day, and the gap of a missed yesterday is reported. *)
Theorem entry_of_today_counts_as_a_day_old dailyLogs :
  - msPerDay < Store.tza < 0 →
  Store.dateParse (DateLib.getLocalDate Store.tza (Some now))
  = Some (utcMidnight (localCivil Store.tza now).1.1
            (localCivil Store.tza now).1.2 (localCivil Store.tza now).2) →
  DateLib.getLocalDate Store.tza (Some now) ∈ DailyEntry.date <$> dailyLogs →
  (∀ d, d ∈ DailyEntry.date <$> dailyLogs →
        Js.strLe d (DateLib.getLocalDate Store.tza (Some now)) = true) →
  msPerDay + Store.tza ≤ timeWithinDay (localTime Store.tza now) →
  daysSinceLastLog now dailyLogs = Some 1
  ∧ logGap now dailyLogs
    = Some "You missed logging yesterday - get back on track today".
Proof.
  intros Htza Hparse Hin Hmax Hlate.
  set (today := DateLib.getLocalDate Store.tza (Some now)) in *.
  assert (Hone : daysSinceLastLog now dailyLogs = Some 1).
  { unfold daysSinceLastLog.
    pose proof (logDates_head dailyLogs today Hin Hmax) as Hhead.
    destruct (logDates dailyLogs) as [|latest rest]; [done|].
    cbn in Hhead. injection Hhead as ->. rewrite Hparse.
    cbn [Js.sub mbind option_bind]. f_equal.
    unfold localCivil, utcMidnight.
    destruct (civilFromDays (day (localTime Store.tza now)))
      as [[y m] d] eqn:E.
    destruct (civilFromDays_spec _ _ _ _ E) as (_ & _ & En). cbn [fst snd].
    rewrite En.
    revert Htza Hlate. unfold timeWithinDay, day, localTime, msPerDay.
    intros. Z.to_euclidean_division_equations; lia. }
  split; [done|]. unfold logGap. rewrite Hone.
  destruct dailyLogs as [|e logs]; [by apply elem_of_nil in Hin|done].
Qed.


End LatestLog.

Section LatestLogSample.

Import Js JsDate Insights.
#[local] Existing Instance Sample.utcMinus5Iso.

(** 23:30 on 2026-02-10, five hours west of UTC, with an entry of that
    day. *)
Lemma entry_of_today_counts_as_a_day_old_witness :
  let now := Sample.lateEvening in
  let dailyLogs := [Sample.anEntry] in
  (- msPerDay < Store.tza < 0
   ∧ Store.dateParse (DateLib.getLocalDate Store.tza (Some now))
     = Some (utcMidnight (localCivil Store.tza now).1.1
               (localCivil Store.tza now).1.2 (localCivil Store.tza now).2)
   ∧ DateLib.getLocalDate Store.tza (Some now)
     ∈ DailyEntry.date <$> dailyLogs
   ∧ (∀ d, d ∈ DailyEntry.date <$> dailyLogs →
           Js.strLe d (DateLib.getLocalDate Store.tza (Some now)) = true)
   ∧ msPerDay + Store.tza ≤ timeWithinDay (localTime Store.tza now))
  ∧ daysSinceLastLog now dailyLogs = Some 1
  ∧ logGap now dailyLogs
    = Some "You missed logging yesterday - get back on track today".
Proof.
  intros now dailyLogs.
  assert (H1 : - msPerDay < Store.tza < 0) by (by vm_compute).
  assert (H2 : Store.dateParse (DateLib.getLocalDate Store.tza (Some now))
               = Some (utcMidnight (localCivil Store.tza now).1.1
                         (localCivil Store.tza now).1.2
                         (localCivil Store.tza now).2))
    by (vm_compute; reflexivity).
  assert (H3 : DateLib.getLocalDate Store.tza (Some now)
               ∈ DailyEntry.date <$> dailyLogs)
    by (vm_compute; constructor).
  assert (H4 : ∀ d, d ∈ DailyEntry.date <$> dailyLogs →
                 Js.strLe d (DateLib.getLocalDate Store.tza (Some now))
                 = true).
  { intros d Hd. apply list_elem_of_singleton in Hd. by rewrite Hd. }
  assert (H5 : msPerDay + Store.tza ≤ timeWithinDay (localTime Store.tza now))
    by (vm_compute; discriminate).
  split; [by repeat split|].
  exact (entry_of_today_counts_as_a_day_old now dailyLogs H1 H2 H3 H4 H5).
Defined.

End LatestLogSample.

Section Counts.

Import Js JsDate Insights.

Variable tza : Z.
Variable now : Z.

Lemma streakLoop_bound dates days i n :
  (streakLoop dates days i n
   ≤ n + length (filter (λ d, Js.includes dates d = true) days))%nat.
Proof.
  revert i n. induction days as [|d days IH]; intros i n; cbn [streakLoop].
  - cbn. lia.
  - rewrite filter_cons. destruct (Js.includes dates d) eqn:E.
    + rewrite decide_True by done. specialize (IH (S i) (S n)).
      cbn [length]. lia.
    + rewrite decide_False by congruence.
      destruct (0 <? i)%nat; [lia|apply IH].
Qed.

Lemma last30Days_length : (length (last30Days tza now) ≤ 30)%nat.
Proof.
  unfold last30Days. etrans; [apply length_filter|].
  rewrite length_fmap, length_seqZ. lia.
Qed.

(** X27.  The counts of logged days stay within each other: the streak is
    at most the number of logged days of the window, which is at most the
    length of the window, itself at most 30; and the logged days of the
    last seven are at most seven and at most those of the window. *)
Theorem logged_day_counts_are_nested (dailyLogs : list DailyEntry.t) :
  (streak tza now dailyLogs ≤ daysLoggedLast30 tza now dailyLogs)%nat
  ∧ (daysLoggedLast30 tza now dailyLogs ≤ length (last30Days tza now))%nat
  ∧ (length (last30Days tza now) ≤ 30)%nat
  ∧ (daysLoggedThisWeek tza now dailyLogs ≤ 7)%nat
  ∧ (daysLoggedThisWeek tza now dailyLogs
     ≤ daysLoggedLast30 tza now dailyLogs)%nat.
Proof.
  unfold streak, daysLoggedLast30, daysLoggedThisWeek, last7Days.
  split; [|split; [|split; [|split]]].
  - apply (streakLoop_bound _ _ 0%nat 0%nat).
  - apply length_filter.
  - apply last30Days_length.
  - etrans; [apply length_filter|]. rewrite length_take. lia.
  - set (k := Nat.min 7 _).
    rewrite <- (take_drop k (last30Days tza now)) at 2.
    rewrite filter_app, length_app. lia.
Qed.


End Counts.

(** ** Contacts: role and company in one text *)

Section RoleAndCompany.

Import ContactManager.

Lemma app_String c a b : String c a +:+ b = String c (a +:+ b).
Proof. done. Qed.

Lemma app_empty b : "" +:+ b = b.
Proof. done. Qed.

Lemma prefix_empty s : String.prefix "" s = true.
Proof. by destruct s. Qed.

Lemma prefix_app_long p x y :
  (String.length p ≤ String.length x)%nat →
  String.prefix p (x +:+ y) = String.prefix p x.
Proof.
  revert x. induction p as [|c p IH]; intros x Hlen.
  - by rewrite !prefix_empty.
  - destruct x as [|d x]; [cbn in Hlen; lia|].
    rewrite app_String. cbn. destruct (ascii_dec c d); [|done].
    apply IH. cbn in Hlen. lia.
Qed.

(** The pieces of a text in which the separator " at " occurs once, after
    the part [a]. *)
Lemma splitFrom_first a b :
  Js.includesText " at " (a +:+ " at") = false →
  Js.splitOn " at " (a +:+ " at " +:+ b) = a :: Js.splitOn " at " b.
Proof.
  unfold Js.splitOn. induction a as [|c a IH]; intros Hfree.
  - change ("" +:+ " at " +:+ b)
      with (String " " (String "a" (String "t" (String " " b)))).
    cbn [Js.splitFrom].
    assert (Js.startsWith " at "
              (String " " (String "a" (String "t" (String " " b)))) = true)
      as -> by (unfold Js.startsWith; cbn; apply prefix_empty).
    done.
  - rewrite app_String in Hfree. cbn [Js.includesText] in Hfree.
    apply orb_false_iff in Hfree as [Hhere Hlater].
    rewrite app_String. cbn [Js.splitFrom].
    assert (Js.startsWith " at " (String c (a +:+ " at " +:+ b)) = false)
      as ->.
    { unfold Js.startsWith in *.
      change (String c (a +:+ " at " +:+ b))
        with (String c a +:+ (" at" +:+ (" " +:+ b))).
      rewrite <- append_assoc'. rewrite prefix_app_long; [done|].
      rewrite append_length. cbn. lia. }
    by rewrite (IH Hlater).
Qed.

Lemma splitFrom_none s :
  Js.includesText " at " s = false → Js.splitOn " at " s = [s].
Proof.
  unfold Js.splitOn. induction s as [|c s IH]; intros Hfree; [done|].
  cbn [Js.includesText] in Hfree.
  apply orb_false_iff in Hfree as [Hhere Hlater].
  cbn [Js.splitFrom]. rewrite Hhere. by rewrite (IH Hlater).
Qed.

Lemma includesText_app a b :
  Js.includesText " at " (a +:+ " at " +:+ b) = true.
Proof.
  induction a as [|c a IH].
  - change ("" +:+ " at " +:+ b)
      with (String " " (String "a" (String "t" (String " " b)))).
    cbn [Js.includesText]. unfold Js.startsWith at 1. cbn.
    by rewrite prefix_empty.
  - rewrite app_String. cbn [Js.includesText]. rewrite IH. apply orb_true_r.
Qed.

(** X29.  A role and a company that were joined by [handleSave] or
    [handleSubmit] are read back by [parseCompanyData] as they were, when
    both are non-empty ASCII text without white space at either end, and
    " at " occurs neither in the company nor in the role followed by
    " at". *)
Theorem role_and_company_read_back role company :
  Js.truthy role = true → Js.truthy company = true →
  Js.asciiOnly role = true → Js.asciiOnly company = true →
  Js.trim role = role → Js.trim company = company →
  Js.includesText " at " (role +:+ " at") = false →
  Js.includesText " at " company = false →
  parseCompanyData (combinedCompany role company) = (role, company).
Proof.
  intros Hrole Hcompany _ _ Htrim Htrim' Hfree Hfree'.
  unfold combinedCompany. rewrite Hrole, Hcompany. cbn [andb].
  unfold parseCompanyData.
  assert (Js.truthy (role +:+ " at " +:+ company) = true) as ->.
  { destruct role; [done|]. by rewrite app_String. }
  cbn [negb parseWith separators]. rewrite includesText_app.
  rewrite splitFrom_first, splitFrom_none by done.
  by rewrite Htrim, Htrim'.
Qed.

Lemma parseWith_none seps s :
  Forall (λ sep, Js.includesText sep s = false) seps →
  parseWith seps s = ("", s).
Proof.
  induction 1 as [|sep seps Hsep _ IH]; cbn [parseWith]; [done|].
  by rewrite Hsep.
Qed.

(** X30.  A role that is saved without a company comes back as the
    company: the text that is stored is the role alone, and, having none
    of the separators, it is read as a company without a role. *)
Theorem role_alone_reads_back_as_company role :
  Js.truthy role = true →
  Forall (λ sep, Js.includesText sep role = false) separators →
  parseCompanyData (combinedCompany role "") = ("", role).
Proof.
  intros Hrole Hfree. unfold combinedCompany, Js.orElse. rewrite Hrole.
  cbn [andb Js.truthy].
  unfold parseCompanyData. rewrite Hrole. cbn [negb].
  by apply parseWith_none.
Qed.


Lemma role_and_company_read_back_witness :
  (Js.truthy "CTO" = true ∧ Js.truthy "Acme" = true
   ∧ Js.asciiOnly "CTO" = true ∧ Js.asciiOnly "Acme" = true
   ∧ Js.trim "CTO" = "CTO" ∧ Js.trim "Acme" = "Acme"
   ∧ Js.includesText " at " ("CTO" +:+ " at") = false
   ∧ Js.includesText " at " "Acme" = false)
  ∧ parseCompanyData (combinedCompany "CTO" "Acme") = ("CTO", "Acme").
Proof.
  split; [by repeat split|].
  exact (role_and_company_read_back "CTO" "Acme" eq_refl eq_refl eq_refl
           eq_refl eq_refl eq_refl eq_refl eq_refl).
Defined.

Lemma role_alone_reads_back_as_company_witness :
  (Js.truthy "Founder" = true
   ∧ Forall (λ sep, Js.includesText sep "Founder" = false) separators)
  ∧ parseCompanyData (combinedCompany "Founder" "") = ("", "Founder").
Proof.
  assert (H : Forall (λ sep, Js.includesText sep "Founder" = false)
                separators) by (repeat constructor).
  split; [by split|].
  exact (role_alone_reads_back_as_company "Founder" eq_refl H).
Defined.

End RoleAndCompany.
